(** * The M-Pesa STK-push bridge ([app.py]): a shallow embedding

    The Flask application has three pieces: [get_access_token] (OAuth token
    fetch), [generate_mpesa_credentials] (timestamp and password) and the two
    route handlers [initiate_stk_push] and [mpesa_callback].  They are embedded
    here as functions in a small monad with exceptions and an event trace, over
    JSON values as Python sees them after [json.loads]. *)

From Stdlib Require Import ZArith NArith String Ascii List Lia Bool.
From Stdlib Require Import Floats.SpecFloat.
From Stdlib Require Import Init.Byte.
From stdpp Require Import gmap strings list fin_maps.

Local Open Scope string_scope.
Local Open Scope Z_scope.

(** ** Python values

    [request.get_json()] and [response.json()] produce Python objects built
    from [None], [bool], [int], [float], [str], [list] and [dict] with [str]
    keys.  A Python [str] is modelled by a Rocq [string], one [ascii] per code
    point: the model covers the strings whose code points are below 256. *)

#[warnings="-register-all"]
Inductive json : Type :=
| JNull
| JBool (b : bool)
| JInt (z : Z)
| JFloat (f : spec_float)
| JStr (s : string)
| JList (l : list json)
| JDict (d : gmap string json).

Module Py.

(** [bool(v)]: the truth value used by [if v] and [not v]. *)
Definition truthy (v : json) : bool :=
  match v with
  | JNull => false
  | JBool b => b
  | JInt z => negb (z =? 0)
  | JFloat (S754_zero _) => false
  | JFloat _ => true
  | JStr s => negb (String.length s =? 0)%nat
  | JList l => negb (length l =? 0)%nat
  | JDict d => negb (size d =? 0)%nat
  end.

(** [isinstance(v, str)]. *)
Definition isinstance_str (v : json) : bool :=
  match v with JStr _ => true | _ => false end.

(** [isinstance(v, int)]: [bool] is a subclass of [int]. *)
Definition isinstance_int (v : json) : bool :=
  match v with JInt _ | JBool _ => true | _ => false end.

(** The integer an [int] instance stands for ([True] is 1, [False] is 0). *)
Definition int_value (v : json) : option Z :=
  match v with
  | JInt z => Some z
  | JBool b => Some (if b then 1 else 0)
  | _ => None
  end.

(** [v <= 0] for an instance of [int]; the handlers only evaluate it behind
    an [isinstance(v, int)] test. *)
Definition int_le_0 (v : json) : bool :=
  match int_value v with Some z => z <=? 0 | None => false end.

(** [v == 0]. *)
Definition eq_zero (v : json) : bool :=
  match v with
  | JInt z => z =? 0
  | JBool b => negb b
  | JFloat (S754_zero _) => true
  | _ => false
  end.

(** [v == s] for a string literal [s]. *)
Definition eq_str (v : json) (s : string) : bool :=
  match v with JStr t => String.eqb t s | _ => false end.

(** [type(v).__name__]. *)
Definition type_name (v : json) : string :=
  match v with
  | JNull => "NoneType"
  | JBool _ => "bool"
  | JInt _ => "int"
  | JFloat _ => "float"
  | JStr _ => "str"
  | JList _ => "list"
  | JDict _ => "dict"
  end.

(** [s.startswith(p)]. *)
Definition startswith (s p : string) : bool := String.prefix p s.

(** Characters [c] with [c.isdigit()] among the code points below 256: the
    ASCII digits and the superscripts U+00B2, U+00B3 and U+00B9. *)
Definition isdigit_char (c : ascii) : bool :=
  let n := N_of_ascii c in
  ((48 <=? n) && (n <=? 57) || (n =? 178) || (n =? 179) || (n =? 185))%N.

Fixpoint all_chars (p : ascii -> bool) (s : string) : bool :=
  match s with
  | EmptyString => true
  | String c s' => p c && all_chars p s'
  end.

(** [s.isdigit()]: every character is a digit and there is at least one. *)
Definition isdigit (s : string) : bool :=
  negb (String.length s =? 0)%nat && all_chars isdigit_char s.

(** Characters that [int()] strips as white space (code points below 256):
    tab to carriage return, the space, U+0085 and U+00A0.  The separators
    U+001C to U+001F count as white space for [str.isspace] but are not
    stripped by [int()]. *)
Definition isspace_char (c : ascii) : bool :=
  let n := N_of_ascii c in
  ((9 <=? n) && (n <=? 13) || (n =? 32) || (n =? 133) || (n =? 160))%N.

(** Decimal digits accepted by [int()]: below 256 only the ASCII ones. *)
Definition decimal_char (c : ascii) : option Z :=
  let n := N_of_ascii c in
  if ((48 <=? n) && (n <=? 57))%N then Some (Z.of_N n - 48) else None.

Fixpoint lstrip (s : string) : string :=
  match s with
  | String c s' => if isspace_char c then lstrip s' else s
  | EmptyString => s
  end.

(** The digit part of an integer literal: digits, with single underscores
    allowed between digits.  [prev_us] records that the previous character
    was an underscore, [seen] that at least one digit was read; the rest of
    the string may only be white space. *)
Fixpoint int_digits (s : string) (acc : Z) (seen prev_us : bool) : option Z :=
  match s with
  | EmptyString => if seen && negb prev_us then Some acc else None
  | String c s' =>
      match decimal_char c with
      | Some d => int_digits s' (10 * acc + d) true false
      | None =>
          if Ascii.eqb c "_" then
            if seen && negb prev_us then int_digits s' acc seen true else None
          else if seen && negb prev_us && all_chars isspace_char s then Some acc
          else None
      end
  end.

(** The number of decimal digits in a string. *)
Fixpoint count_decimal (s : string) : nat :=
  match s with
  | EmptyString => 0
  | String c s' =>
      match decimal_char c with
      | Some _ => S (count_decimal s')
      | None => count_decimal s'
      end
  end.

(** [sys.int_max_str_digits] as the interpreter sets it: a literal with more
    digits is refused by [int()]. *)
Definition MAX_STR_DIGITS : nat := 4300.

(** [int(s)] for a [str] argument; [None] stands for [ValueError]. *)
Definition int_of_str (s : string) : option Z :=
  if (count_decimal s <=? MAX_STR_DIGITS)%nat then
    match lstrip s with
    | String "+" s' => int_digits s' 0 false false
    | String "-" s' => option_map Z.opp (int_digits s' 0 false false)
    | s' => int_digits s' 0 false false
    end
  else None.

(** *** Dictionary keys

    A key of a Python [dict] is a hashable object, and two keys are the same
    when they compare equal: [1], [1.0] and [True] are one key.  [key] is the
    canonical form of a hashable JSON value.  A finite float that is not an
    integer is kept as sign, odd mantissa and (negative) exponent.  The JSON
    decoder hands out one shared object for the literal [NaN], so [NaN] keys
    coincide as well. *)
Inductive key : Type :=
| KNone
| KInt (z : Z)
| KFrac (s : bool) (m : positive) (e : Z)
| KInf (s : bool)
| KNaN
| KStr (s : string).

Fixpoint strip_twos (m : positive) (e : Z) : positive * Z :=
  match m with
  | xO m' => strip_twos m' (e + 1)
  | _ => (m, e)
  end.

Definition float_key (f : spec_float) : key :=
  match f with
  | S754_zero _ => KInt 0
  | S754_infinity s => KInf s
  | S754_nan => KNaN
  | S754_finite s m e =>
      let '(m', e') := strip_twos m e in
      if 0 <=? e' then KInt ((if s then -1 else 1) * Z.pos m' * 2 ^ e')
      else KFrac s m' e'
  end.

(** The key a value hashes to; [None] for the unhashable [list] and [dict]. *)
Definition hash_key (v : json) : option key :=
  match v with
  | JNull => Some KNone
  | JBool b => Some (KInt (if b then 1 else 0))
  | JInt z => Some (KInt z)
  | JFloat f => Some (float_key f)
  | JStr s => Some (KStr s)
  | JList _ | JDict _ => None
  end.

#[global] Instance key_eq_dec : EqDecision key.
Proof. solve_decision. Defined.

Definition key_encode (k : key) : unit + Z + (bool * positive * Z) + bool + unit + string :=
  match k with
  | KNone => inl (inl (inl (inl (inl tt))))
  | KInt z => inl (inl (inl (inl (inr z))))
  | KFrac s m e => inl (inl (inl (inr (s, m, e))))
  | KInf s => inl (inl (inr s))
  | KNaN => inl (inr tt)
  | KStr s => inr s
  end.

Definition key_decode (x : unit + Z + (bool * positive * Z) + bool + unit + string) : key :=
  match x with
  | inl (inl (inl (inl (inl _)))) => KNone
  | inl (inl (inl (inl (inr z)))) => KInt z
  | inl (inl (inl (inr (s, m, e)))) => KFrac s m e
  | inl (inl (inr s)) => KInf s
  | inl (inr _) => KNaN
  | inr s => KStr s
  end.

#[global] Program Instance key_countable : Countable key :=
  inj_countable' key_encode key_decode _.
Next Obligation. by intros []. Qed.

End Py.

(** ** Base64 and UTF-8

    [base64.b64encode] with the standard alphabet and [=] padding, and
    [str.encode('utf-8')] restricted to code points below 256. *)
Module Base64.

Definition alphabet : string :=
  "ABCDEFGHIJKLMNOPQRSTUVWXYZabcdefghijklmnopqrstuvwxyz0123456789+/".

Definition sextet_char (n : N) : byte :=
  match String.get (N.to_nat n) alphabet with
  | Some c => byte_of_ascii c
  | None => "="%byte
  end.

Definition pad : byte := "="%byte.

(** The four 6-bit numbers of a 24-bit group. *)
Definition sextets (n : N) : N * N * N * N :=
  ((n / 262144) mod 64, (n / 4096) mod 64, (n / 64) mod 64, n mod 64)%N.

(** Three bytes give four characters; one or two left-over bytes are
    filled up with zero bits and the unused characters replaced by [=]. *)
Fixpoint b64encode (bs : list byte) : list byte :=
  match bs with
  | [] => []
  | [b0] =>
      let '(s0, s1, _, _) := sextets (Byte.to_N b0 * 65536) in
      [sextet_char s0; sextet_char s1; pad; pad]
  | [b0; b1] =>
      let '(s0, s1, s2, _) := sextets (Byte.to_N b0 * 65536 + Byte.to_N b1 * 256) in
      [sextet_char s0; sextet_char s1; sextet_char s2; pad]
  | b0 :: b1 :: b2 :: rest =>
      let '(s0, s1, s2, s3) :=
        sextets (Byte.to_N b0 * 65536 + Byte.to_N b1 * 256 + Byte.to_N b2) in
      sextet_char s0 :: sextet_char s1 :: sextet_char s2 :: sextet_char s3
        :: b64encode rest
  end.

Definition utf8_char (c : ascii) : list byte :=
  let n := N_of_ascii c in
  if (n <? 128)%N then [byte_of_ascii c]
  else [byte_of_ascii (ascii_of_N (N.lor 192 (N.shiftr n 6)));
        byte_of_ascii (ascii_of_N (N.lor 128 (N.land n 63)))].

(** [s.encode('utf-8')]. *)
Fixpoint encode_utf8 (s : string) : list byte :=
  match s with
  | EmptyString => []
  | String c s' => utf8_char c ++ encode_utf8 s'
  end.

(** [bs.decode('utf-8')] on ASCII bytes, which is all that Base64 emits. *)
Definition decode_ascii (bs : list byte) : string := string_of_list_byte bs.

(** [base64.b64encode(s.encode('utf-8')).decode('utf-8')]. *)
Definition b64_of_str (s : string) : string :=
  decode_ascii (b64encode (encode_utf8 s)).

(** *** Reading Base64 text back

    The reader of RFC 4648, section 4, written from the table of the
    alphabet and independently of [b64encode]: [A]-[Z] stand for 0-25,
    [a]-[z] for 26-51, [0]-[9] for 52-61, [+] for 62 and [/] for 63.  The
    text comes in groups of four characters; only the last group may end in
    one or two [=], and the bits it leaves unused must be zero.  Whenever
    this reader returns bytes, [base64.b64decode] returns the same bytes. *)
Definition sextet_value (b : byte) : option N :=
  let n := Byte.to_N b in
  if ((65 <=? n) && (n <=? 90))%N then Some (n - 65)%N
  else if ((97 <=? n) && (n <=? 122))%N then Some (n - 71)%N
  else if ((48 <=? n) && (n <=? 57))%N then Some (n + 4)%N
  else if (n =? 43)%N then Some 62%N
  else if (n =? 47)%N then Some 63%N
  else None.

Definition is_pad (b : byte) : bool := (Byte.to_N b =? 61)%N.

Definition byte_of_N (n : N) : byte := byte_of_ascii (ascii_of_N n).

Fixpoint b64decode (cs : list byte) : option (list byte) :=
  match cs with
  | [] => Some []
  | c0 :: c1 :: c2 :: c3 :: rest =>
      match sextet_value c0, sextet_value c1, sextet_value c2, sextet_value c3 with
      | Some v0, Some v1, Some v2, Some v3 =>
          let n := (v0 * 262144 + v1 * 4096 + v2 * 64 + v3)%N in
          match b64decode rest with
          | Some bs =>
              Some (byte_of_N (n / 65536) :: byte_of_N ((n / 256) mod 256)
                      :: byte_of_N (n mod 256) :: bs)
          | None => None
          end
      | Some v0, Some v1, Some v2, None =>
          let n := (v0 * 262144 + v1 * 4096 + v2 * 64)%N in
          match rest with
          | [] =>
              if is_pad c3 && (v2 mod 4 =? 0)%N
              then Some [byte_of_N (n / 65536); byte_of_N ((n / 256) mod 256)]
              else None
          | _ :: _ => None
          end
      | Some v0, Some v1, None, None =>
          let n := (v0 * 262144 + v1 * 4096)%N in
          match rest with
          | [] =>
              if is_pad c2 && is_pad c3 && (v1 mod 16 =? 0)%N
              then Some [byte_of_N (n / 65536)]
              else None
          | _ :: _ => None
          end
      | _, _, _, _ => None
      end
  | _ => None
  end.

(** The bytes a Base64 text stands for. *)
Definition bytes_of_b64 (t : string) : option (list byte) :=
  b64decode (list_byte_of_string t).

End Base64.

(** ** Civil time

    [datetime.now(pytz.timezone('Africa/Nairobi')).strftime("%Y%m%d%H%M%S")].
    The clock is read in whole seconds since the Unix epoch; Nairobi has kept
    UTC+3 for every instant since the epoch.  The calendar arithmetic is that
    of the [datetime] module ([_ord2ymd], [_ymd2ord]). *)
Module Datetime.

Definition DI400Y : Z := 146097.
Definition DI100Y : Z := 36524.
Definition DI4Y : Z := 1461.

Definition is_leap (year : Z) : bool :=
  (year mod 4 =? 0) && (negb (year mod 100 =? 0) || (year mod 400 =? 0)).

Definition DAYS_IN_MONTH (month : Z) : Z :=
  nth (Z.to_nat month) [-1; 31; 28; 31; 30; 31; 30; 31; 31; 30; 31; 30; 31] 0.

Definition DAYS_BEFORE_MONTH (month : Z) : Z :=
  nth (Z.to_nat month) [-1; 0; 31; 59; 90; 120; 151; 181; 212; 243; 273; 304; 334] 0.

Definition days_before_year (year : Z) : Z :=
  let y := year - 1 in y * 365 + y / 4 - y / 100 + y / 400.

Definition days_in_month (year month : Z) : Z :=
  if (month =? 2) && is_leap year then 29 else DAYS_IN_MONTH month.

Definition days_before_month (year month : Z) : Z :=
  DAYS_BEFORE_MONTH month + (if (2 <? month) && is_leap year then 1 else 0).

Definition ymd2ord (year month day : Z) : Z :=
  days_before_year year + days_before_month year month + day.

Definition ord2ymd (ordinal : Z) : Z * Z * Z :=
  let n := ordinal - 1 in
  let n400 := n / DI400Y in
  let n := n mod DI400Y in
  let year := n400 * 400 + 1 in
  let n100 := n / DI100Y in
  let n := n mod DI100Y in
  let n4 := n / DI4Y in
  let n := n mod DI4Y in
  let n1 := n / 365 in
  let n := n mod 365 in
  let year := year + n100 * 100 + n4 * 4 + n1 in
  if (n1 =? 4) || (n100 =? 4) then (year - 1, 12, 31)
  else
    let leapyear := (n1 =? 3) && (negb (n4 =? 24) || (n100 =? 3)) in
    let month := Z.shiftr (n + 50) 5 in
    let preceding := DAYS_BEFORE_MONTH month + (if (2 <? month) && leapyear then 1 else 0) in
    if n <? preceding then
      let month := month - 1 in
      let preceding :=
        preceding - (DAYS_IN_MONTH month + (if (month =? 2) && leapyear then 1 else 0)) in
      (year, month, n - preceding + 1)
    else (year, month, n - preceding + 1).

(** Ordinal of 1970-01-01. *)
Definition EPOCH_ORDINAL : Z := 719163.

(** Offset of East Africa Time from UTC, in seconds. *)
Definition EAT_OFFSET : Z := 10800.

(** First local second that no longer fits the year 9999. *)
Definition MAX_LOCAL : Z := 253402300800.

Definition digit_char (d : Z) : ascii := ascii_of_N (48 + Z.to_N d).

(** [%m], [%d], [%H], [%M], [%S]: two digits, zero padded. *)
Definition two_digits (n : Z) : string :=
  String (digit_char (n / 10 mod 10)) (String (digit_char (n mod 10)) "").

(** [%Y] for a year of four digits. *)
Definition four_digits (n : Z) : string :=
  two_digits (n / 100) ++ two_digits (n mod 100).

(** The broken-down local time of the instant [secs]. *)
Definition nairobi_fields (secs : Z) : Z * Z * Z * Z * Z * Z :=
  let local := secs + EAT_OFFSET in
  let days := local / 86400 in
  let sod := local mod 86400 in
  let '(y, m, d) := ord2ymd (EPOCH_ORDINAL + days) in
  (y, m, d, sod / 3600, sod mod 3600 / 60, sod mod 60).

(** [strftime("%Y%m%d%H%M%S")]. *)
Definition strftime_compact (f : Z * Z * Z * Z * Z * Z) : string :=
  let '(y, m, d, hh, mm, ss) := f in
  four_digits y ++ two_digits m ++ two_digits d
    ++ two_digits hh ++ two_digits mm ++ two_digits ss.

End Datetime.

(** ** Exceptions, events and the environment *)

(** A reply of the provider as [requests] presents it.  [json_body] is what
    [response.json()] returns, [None] when it raises.  On a body that is not
    JSON it raises the decoding error of [requests].  On JSON text beyond a
    limit of the interpreter (an integer literal with more digits than
    [int()] converts, nesting deeper than the recursion limit) the decoder
    raises an exception of its own, which [response.json()] lets through:
    [json_over_limit] tells the two apart. *)
Record http_response : Type := {
  status_code : Z;
  reason : string;
  resp_url : string;
  text : string;
  json_body : option json;
  json_over_limit : bool;
}.

(** The exceptions the handlers can meet.  [RequestException] stands for
    the transport failures of [requests] (connection, timeout, redirects);
    [HTTPError] and the decoding error of [response.json()] are subclasses of
    it, the latter also of [json.JSONDecodeError] (requests 2.27 and later).
    [DecoderLimitError] stands for the [ValueError] or [RecursionError] the
    JSON decoder raises on text beyond a limit of the interpreter; it is
    neither a [RequestException] nor a [JSONDecodeError].
    [HTTPException] is what [request.get_json()] raises on a body that is not
    JSON. *)
Inductive exn : Type :=
| RequestException (detail : string)
| HTTPError (r : http_response)
| RequestsJSONDecodeError (r : http_response)
| DecoderLimitError (r : http_response)
| AttributeError (type_name attr : string)
| TypeError_not_iterable (type_name : string)
| TypeError_unhashable (type_name : string)
| ValueError_int_literal (literal : string)
| DateOutOfRange
| HTTPException (description : string).

Definition is_RequestException (e : exn) : bool :=
  match e with
  | RequestException _ | HTTPError _ | RequestsJSONDecodeError _ => true
  | _ => false
  end.

Definition is_JSONDecodeError (e : exn) : bool :=
  match e with RequestsJSONDecodeError _ => true | _ => false end.

Inductive outcome (A : Type) : Type :=
| Return (a : A)
| Raise (e : exn).
Arguments Return {A} a.
Arguments Raise {A} e.

Inductive level : Type := INFO | WARNING | ERROR.

(** What a handler does to the outside: log records (the message without its
    interpolated values, which are listed unformatted beside it) and the two
    outbound HTTP calls. *)
Inductive event : Type :=
| EvLog (lvl : level) (msg : string) (args : list json)
| EvGet (url : string) (headers : gmap string string)
| EvPost (url : string) (payload : json) (headers : gmap string string).

Inductive http_outcome : Type :=
| Fails (detail : string)
| Replies (r : http_response).

(** Everything a handler observes that is not in the repository: the
    provider behind [requests.get] and [requests.post], the system clock in
    microseconds since the Unix epoch, and the text Python's [str()] gives
    for a value that is not a [str] and for an exception. *)
Record world : Type := {
  http_get : string -> gmap string string -> http_outcome;
  http_post : string -> json -> gmap string string -> http_outcome;
  now_us : N;
  str_of : json -> string;
  str_exn : exn -> string;
}.

(** The body of the request Flask hands to a route. *)
Inductive flask_request : Type :=
| JsonRequest (data : json)
| NotJsonRequest (description : string).

(** [jsonify(body), status]. *)
Record flask_response : Type := {
  resp_body : json;
  resp_status : Z;
}.

(** Computations: read the world, then return or raise, with the events
    produced on the way, oldest first. *)
Definition M (A : Type) : Type := world -> outcome A * list event.

Definition ret {A} (a : A) : M A := fun _ => (Return a, []).

Definition raise {A} (e : exn) : M A := fun _ => (Raise e, []).

Definition bind {A B} (m : M A) (k : A -> M B) : M B :=
  fun w =>
    match m w with
    | (Return a, tr) => let (r, tr') := k a w in (r, (tr ++ tr')%list)
    | (Raise e, tr) => (Raise e, tr)
    end.

Definition emit (ev : event) : M unit := fun _ => (Return tt, [ev]).

Definition ask : M world := fun w => (Return w, []).

(** [try: body except ...: handler]; [handler e] is [None] when no clause
    matches [e], and an exception raised inside a clause is not caught by
    its siblings. *)
Definition try_except {A} (body : M A) (handler : exn -> option (M A)) : M A :=
  fun w =>
    match body w with
    | (Return a, tr) => (Return a, tr)
    | (Raise e, tr) =>
        match handler e with
        | Some h => let (r, tr') := h w in (r, (tr ++ tr')%list)
        | None => (Raise e, tr)
        end
    end.

Declare Scope eff_scope.
Delimit Scope eff_scope with eff.
Notation "x <- m ;; k" := (bind m (fun x => k))
  (at level 100, m at next level, right associativity) : eff_scope.
Notation "m ;; k" := (bind m (fun _ => k))
  (at level 100, right associativity) : eff_scope.
Local Open Scope eff_scope.

Definition log (lvl : level) (msg : string) (args : list json) : M unit :=
  emit (EvLog lvl msg args).

(** [str(e)] as a value, for messages that interpolate an exception. *)
Definition exn_text (e : exn) : M string := w <- ask ;; ret (str_exn w e).

(** A value interpolated in an f-string. *)
Definition format_value (v : json) : M string :=
  match v with
  | JStr s => ret s
  | _ => w <- ask ;; ret (str_of w v)
  end.

(** [v.get(k, default)]: only a [dict] has the method. *)
Definition get_default (v : json) (k : string) (default : json) : M json :=
  match v with
  | JDict d => ret (match d !! k with Some x => x | None => default end)
  | _ => raise (AttributeError (Py.type_name v) "get")
  end.

(** [v.get(k)], with [None] for an absent key. *)
Definition get (v : json) (k : string) : M json := get_default v k JNull.

(** The items a [for] loop draws from [v]. *)
Definition iterate (v : json) : M (list json) :=
  match v with
  | JList l => ret l
  | JDict d => ret (map (fun kv => JStr (fst kv)) (map_to_list d))
  | JStr s => ret (map (fun c => JStr (String c "")) (list_ascii_of_string s))
  | _ => raise (TypeError_not_iterable (Py.type_name v))
  end.

(** [int(s)] for a [str]. *)
Definition int_of (s : string) : M Z :=
  match Py.int_of_str s with
  | Some z => ret z
  | None => raise (ValueError_int_literal s)
  end.

(** A dictionary display [{k1: v1, ...}]. *)
Definition dict (l : list (string * json)) : json := JDict (list_to_map l).

Definition requests_get (url : string) (headers : gmap string string) : M http_response :=
  emit (EvGet url headers) ;;
  w <- ask ;;
  match http_get w url headers with
  | Fails detail => raise (RequestException detail)
  | Replies r => ret r
  end.

Definition requests_post (url : string) (payload : json) (headers : gmap string string)
  : M http_response :=
  emit (EvPost url payload headers) ;;
  w <- ask ;;
  match http_post w url payload headers with
  | Fails detail => raise (RequestException detail)
  | Replies r => ret r
  end.

(** [response.raise_for_status()]: an [HTTPError] for 4xx and 5xx. *)
Definition raise_for_status (r : http_response) : M unit :=
  if (400 <=? status_code r) && (status_code r <? 600) then raise (HTTPError r)
  else ret tt.

(** [response.json()]. *)
Definition response_json (r : http_response) : M json :=
  match json_body r with
  | Some j => ret j
  | None =>
      if json_over_limit r then raise (DecoderLimitError r)
      else raise (RequestsJSONDecodeError r)
  end.

(** [request.get_json()]. *)
Definition get_json (req : flask_request) : M json :=
  match req with
  | JsonRequest data => ret data
  | NotJsonRequest description => raise (HTTPException description)
  end.

(** ** Configuration

    The module-level settings read from the environment at start-up.  Their
    assignments are not part of the source at hand, so they are parameters of
    the model; each is a [str], as [os.getenv] returns. *)
Record config : Type := {
  CONSUMER_KEY : string;
  CONSUMER_SECRET : string;
  PASSKEY : string;
  BUSINESS_SHORT_CODE : string;
  CALLBACK_URL : string;
  OAUTH_URL : string;
  STKPUSH_URL : string;
  TRANSACTION_TYPE : string;
  ACCOUNT_REFERENCE : string;
  TRANSACTION_DESC : string;
}.

(** ** The application *)
Section App.

Variable cfg : config.

Definition LOG_TOKEN_OK : string := "Successfully obtained M-Pesa access token.".
Definition LOG_TOKEN_MISSING : string := "Access token not found in response: {result}".
Definition LOG_TOKEN_NETWORK : string := "Network or API error while getting access token: {e}".
Definition LOG_TOKEN_JSON : string :=
  "Failed to decode JSON from access token response: {response.text}".
Definition LOG_TOKEN_UNEXPECTED : string := "An unexpected error occurred in get_access_token.".

(** The headers of the token request. *)
Definition basic_auth_headers : gmap string string :=
  let auth_string := CONSUMER_KEY cfg ++ ":" ++ CONSUMER_SECRET cfg in
  let encoded_auth_string := Base64.b64_of_str auth_string in
  list_to_map [("Authorization", "Basic " ++ encoded_auth_string);
               ("Content-Type", "application/json")].

(** [get_access_token()]: the token, or [None] ([JNull]). *)
Definition get_access_token : M json :=
  try_except
    (let headers := basic_auth_headers in
     response <- requests_get (OAUTH_URL cfg) headers ;;
     raise_for_status response ;;
     result <- response_json response ;;
     access_token <- get result "access_token" ;;
     if Py.truthy access_token then
       log INFO LOG_TOKEN_OK [] ;;
       ret access_token
     else
       log ERROR LOG_TOKEN_MISSING [result] ;;
       ret JNull)
    (fun e =>
       if is_RequestException e then
         Some (s <- exn_text e ;; log ERROR LOG_TOKEN_NETWORK [JStr s] ;; ret JNull)
       else if is_JSONDecodeError e then
         Some (log ERROR LOG_TOKEN_JSON [] ;; ret JNull)
       else
         Some (log ERROR LOG_TOKEN_UNEXPECTED [] ;; ret JNull)).

Definition LOG_GENERATED : string := "Generated timestamp: {timestamp}, password: [HIDDEN]".

(** The pure part of [generate_mpesa_credentials()], from the clock reading
    in whole seconds. *)
Definition mpesa_credentials_at (secs : Z) : string * string :=
  let timestamp := Datetime.strftime_compact (Datetime.nairobi_fields secs) in
  let password_str := BUSINESS_SHORT_CODE cfg ++ PASSKEY cfg ++ timestamp in
  let password := Base64.b64_of_str password_str in
  (timestamp, password).

(** [generate_mpesa_credentials()].  [datetime] has no year 10000. *)
Definition generate_mpesa_credentials : M (string * string) :=
  w <- ask ;;
  let secs := Z.of_N (now_us w / 1000000) in
  if secs + Datetime.EAT_OFFSET <? Datetime.MAX_LOCAL then
    let result := mpesa_credentials_at secs in
    log INFO LOG_GENERATED [JStr (fst result)] ;;
    ret result
  else raise DateOutOfRange.

(** [return jsonify(body), status]. *)
Definition reply (status : Z) (body : list (string * json)) : flask_response :=
  {| resp_body := dict body; resp_status := status |}.

Definition respond (status : Z) (body : list (string * json)) : M flask_response :=
  ret (reply status body).

Definition MSG_REQUIRED : string := "Phone number and amount are required.".
Definition MSG_BAD_PHONE : string :=
  "Invalid Kenyan Safaricom phone number format. Must be 2547/2541XXXXXXXX.".
Definition MSG_BAD_AMOUNT : string := "Amount must be a positive integer.".
Definition MSG_TRY_LATER : string := "Failed to connect to M-Pesa. Please try again later.".
Definition MSG_INITIATED : string :=
  "STK Push initiated successfully! Please check your phone for the M-Pesa prompt.".
Definition MSG_UNKNOWN : string :=
  "STK Push initiation failed due to an unknown M-Pesa error.".
Definition MSG_PARSE : string := "Failed to parse M-Pesa API response.".
Definition LOG_RECEIVED : string :=
  "Received STK Push request from frontend: Phone='{phone_number}', Amount='{amount}'".
Definition LOG_MISSING : string := "STK Push validation failed: Missing phone number or amount.".
Definition LOG_BAD_PHONE : string :=
  "STK Push validation failed: Invalid phone number format '{phone_number}'.".
Definition LOG_BAD_AMOUNT : string := "STK Push validation failed: Invalid amount '{amount}'.".
Definition LOG_NO_TOKEN : string := "STK Push failed: Could not obtain M-Pesa access token.".
Definition LOG_SENDING : string :=
  "Sending STK Push request to Safaricom with payload: {payload}".
Definition LOG_STK_RESPONSE : string :=
  "Received STK Push response from Safaricom: {stk_response}".
Definition LOG_STK_REJECTED : string :=
  "STK Push failed at Safaricom: {error_message} | Full Response: {stk_response}".
Definition LOG_STK_NETWORK : string :=
  "Network or API communication error during STK Push: {e}".
Definition LOG_STK_JSON : string :=
  "Failed to decode JSON from STK Push response: {response.text}".
Definition LOG_STK_UNEXPECTED : string :=
  "An unexpected server error occurred during STK Push initiation.".

(** The format test of the second validation step, on a [str]. *)
Definition phone_format_ok (s : string) : bool :=
  (Py.startswith s "2547" || Py.startswith s "2541")
  && (String.length s =? 12)%nat && Py.isdigit s.

(** The amount test of the third validation step. *)
Definition amount_ok (amount : json) : bool :=
  negb (negb (Py.isinstance_int amount) || Py.int_le_0 amount).

(** The payload of the payment request. *)
Definition stk_payload (short_code : Z) (password timestamp : string) (amount : json)
    (party_a party_b phone : Z) : json :=
  dict [("BusinessShortCode", JInt short_code);
        ("Password", JStr password);
        ("Timestamp", JStr timestamp);
        ("TransactionType", JStr (TRANSACTION_TYPE cfg));
        ("Amount", amount);
        ("PartyA", JInt party_a);
        ("PartyB", JInt party_b);
        ("PhoneNumber", JInt phone);
        ("CallBackURL", JStr (CALLBACK_URL cfg));
        ("AccountReference", JStr (ACCOUNT_REFERENCE cfg));
        ("TransactionDesc", JStr (TRANSACTION_DESC cfg))].

(** The headers of the payment request. *)
Definition bearer_headers (bearer : string) : gmap string string :=
  list_to_map [("Authorization", "Bearer " ++ bearer);
               ("Content-Type", "application/json")].

(** The reading of the provider's answer, once it is decoded: the branch on
    [ResponseCode] that ends the [try] block of [initiate_stk_push]. *)
Definition interpret_stk_response (stk_response : json) : M flask_response :=
  response_code <- get stk_response "ResponseCode" ;;
  if Py.eq_str response_code "0" then
    message <- get_default stk_response "CustomerMessage" (JStr MSG_INITIATED) ;;
    checkout_request_id <- get stk_response "CheckoutRequestID" ;;
    response_code <- get stk_response "ResponseCode" ;;
    respond 200 [("success", JBool true);
                 ("message", message);
                 ("CheckoutRequestID", checkout_request_id);
                 ("ResponseCode", response_code)]
  else
    error_message <- get_default stk_response "ResponseDescription" (JStr MSG_UNKNOWN) ;;
    log ERROR LOG_STK_REJECTED
      [error_message; stk_response] ;;
    respond 400 [("success", JBool false);
                 ("message", error_message);
                 ("MpesaResponse", stk_response)].

(** The [try] block of [initiate_stk_push]. *)
Definition stk_push_body (phone_number : string) (amount : json) : M flask_response :=
  access_token <- get_access_token ;;
  if negb (Py.truthy access_token) then
    log ERROR LOG_NO_TOKEN [] ;;
    respond 500 [("success", JBool false); ("message", JStr MSG_TRY_LATER)]
  else
    creds <- generate_mpesa_credentials ;;
    let timestamp := fst creds in
    let password := snd creds in
    short_code <- int_of (BUSINESS_SHORT_CODE cfg) ;;
    party_a <- int_of phone_number ;;
    party_b <- int_of (BUSINESS_SHORT_CODE cfg) ;;
    phone <- int_of phone_number ;;
    let payload :=
      stk_payload short_code password timestamp amount party_a party_b phone in
    bearer <- format_value access_token ;;
    let headers := bearer_headers bearer in
    log INFO LOG_SENDING [payload] ;;
    response <- requests_post (STKPUSH_URL cfg) payload headers ;;
    raise_for_status response ;;
    stk_response <- response_json response ;;
    log INFO LOG_STK_RESPONSE [stk_response] ;;
    interpret_stk_response stk_response.

(** The [except] clauses of [initiate_stk_push]. *)
Definition stk_push_handler (e : exn) : option (M flask_response) :=
  if is_RequestException e then
    Some (s <- exn_text e ;;
          log ERROR LOG_STK_NETWORK [JStr s] ;;
          respond 500 [("success", JBool false);
                       ("message", JStr ("Network or API communication error: " ++ s))])
  else if is_JSONDecodeError e then
    Some (log ERROR LOG_STK_JSON [] ;;
          respond 500 [("success", JBool false); ("message", JStr MSG_PARSE)])
  else
    Some (s <- exn_text e ;;
          log ERROR LOG_STK_UNEXPECTED [] ;;
          respond 500 [("success", JBool false);
                       ("message", JStr ("An unexpected server error occurred: " ++ s))]).

Definition reject_phone (phone_number : json) : M flask_response :=
  log WARNING LOG_BAD_PHONE
    [phone_number] ;;
  respond 400 [("success", JBool false); ("message", JStr MSG_BAD_PHONE)].

(** [initiate_stk_push()], the route [/api/stkpush]. *)
Definition initiate_stk_push (req : flask_request) : M flask_response :=
  data <- get_json req ;;
  phone_number <- get data "phoneNumber" ;;
  amount <- get data "amount" ;;
  log INFO LOG_RECEIVED
    [phone_number; amount] ;;
  if negb (Py.truthy phone_number) || negb (Py.truthy amount) then
    log WARNING LOG_MISSING [] ;;
    respond 400 [("success", JBool false); ("message", JStr MSG_REQUIRED)]
  else
    match phone_number with
    | JStr phone =>
        if negb (phone_format_ok phone) then reject_phone phone_number
        else if negb (amount_ok amount) then
          log WARNING LOG_BAD_AMOUNT [amount] ;;
          respond 400 [("success", JBool false); ("message", JStr MSG_BAD_AMOUNT)]
        else try_except (stk_push_body phone amount) stk_push_handler
    | _ => reject_phone phone_number
    end.

Definition MSG_ACK : string := "Callback received successfully".
Definition LOG_CALLBACK : string := "Received M-Pesa Callback: {callback_data}".
Definition LOG_PAID : string :=
  "M-Pesa STK Push successful for CheckoutRequestID: {checkout_request_id}".
Definition LOG_DETAILS : string :=
  "Payment Details: Receipt={mpesa_receipt_number}, Amount={amount}, Phone={phone_number}, Date={transaction_date}".
Definition LOG_NOT_PAID : string :=
  "M-Pesa STK Push Failed/Cancelled: ResultCode='{result_code}', ResultDesc='{result_description}', CheckoutRequestID='{checkout_request_id}'".
Definition LOG_CALLBACK_ERROR : string :=
  "An unexpected error occurred while processing M-Pesa callback.".

(** The loop over the metadata items:
    [item_details[item.get("Name")] = item.get("Value")], the value being
    evaluated before the key. *)
Fixpoint collect_items (items : list json) (item_details : gmap Py.key json)
  : M (gmap Py.key json) :=
  match items with
  | [] => ret item_details
  | item :: rest =>
      value <- get item "Value" ;;
      name <- get item "Name" ;;
      match Py.hash_key name with
      | Some k => collect_items rest (<[k := value]> item_details)
      | None => raise (TypeError_unhashable (Py.type_name name))
      end
  end.

(** [item_details.get(name)]. *)
Definition detail (item_details : gmap Py.key json) (name : string) : json :=
  match item_details !! Py.KStr name with Some v => v | None => JNull end.

(** The [try] block of [mpesa_callback]. *)
Definition callback_body (req : flask_request) : M flask_response :=
  callback_data <- get_json req ;;
  log INFO LOG_CALLBACK [callback_data] ;;
  body <- get_default callback_data "Body" (dict []) ;;
  stk_callback <- get_default body "stkCallback" (dict []) ;;
  result_code <- get stk_callback "ResultCode" ;;
  checkout_request_id <- get stk_callback "CheckoutRequestID" ;;
  result_description <- get stk_callback "ResultDesc" ;;
  (if Py.eq_zero result_code then
     log INFO LOG_PAID
       [checkout_request_id] ;;
     callback_metadata <- get_default stk_callback "CallbackMetadata" (dict []) ;;
     item_list <- get_default callback_metadata "Item" (JList []) ;;
     items <- iterate item_list ;;
     item_details <- collect_items items ∅ ;;
     let mpesa_receipt_number := detail item_details "MpesaReceiptNumber" in
     let amount := detail item_details "Amount" in
     let transaction_date := detail item_details "TransactionDate" in
     let phone_number := detail item_details "PhoneNumber" in
     log INFO LOG_DETAILS
       [mpesa_receipt_number; amount; phone_number; transaction_date]
   else
     log WARNING LOG_NOT_PAID
       [result_code; result_description; checkout_request_id]) ;;
  respond 200 [("ResultCode", JInt 0); ("ResultDesc", JStr MSG_ACK)].

(** [mpesa_callback()], the route [/api/mpesa_callback]. *)
Definition mpesa_callback (req : flask_request) : M flask_response :=
  try_except (callback_body req)
    (fun e =>
       Some (s <- exn_text e ;;
             log ERROR LOG_CALLBACK_ERROR [] ;;
             respond 500 [("ResultCode", JInt 1);
                          ("ResultDesc", JStr ("Failed to process callback: " ++ s))])).

End App.

(** ** Reading the callback handler

    The acknowledgement of a processed callback, and the flat mapping the
    loop of [mpesa_callback] builds from a list of items none of which makes
    it raise: [item_key] is the key an item is stored under, [item_value] the
    value stored. *)
Definition callback_ack : flask_response :=
  reply 200 [("ResultCode", JInt 0); ("ResultDesc", JStr MSG_ACK)].

Definition callback_failure (w : world) (e : exn) : flask_response :=
  reply 500 [("ResultCode", JInt 1);
             ("ResultDesc", JStr ("Failed to process callback: " ++ str_exn w e))].

Definition item_key (item : json) : option Py.key :=
  match item with
  | JDict fields => Py.hash_key match fields !! "Name" with Some x => x | None => JNull end
  | _ => None
  end.

Definition item_value (item : json) : json :=
  match item with
  | JDict fields => match fields !! "Value" with Some x => x | None => JNull end
  | _ => JNull
  end.

Definition project_items (items : list json) (item_details : gmap Py.key json)
  : gmap Py.key json :=
  fold_left
    (fun m item =>
       match item_key item with
       | Some k => <[k := item_value item]> m
       | None => m
       end)
    items item_details.

(** ** Reading a timestamp back

    The six numbers a [YYYYMMDDHHmmss] string spells, and the ranges of a
    calendar date and time of day between 1970 and 9999. *)
Definition digit_value (c : ascii) : Z := Z.of_N (N_of_ascii c) - 48.

Fixpoint read_decimal (s : string) (acc : Z) : Z :=
  match s with
  | EmptyString => acc
  | String c s' => read_decimal s' (10 * acc + digit_value c)
  end.

Definition read_timestamp (s : string) : Z * Z * Z * Z * Z * Z :=
  (read_decimal (substring 0 4 s) 0, read_decimal (substring 4 2 s) 0,
   read_decimal (substring 6 2 s) 0, read_decimal (substring 8 2 s) 0,
   read_decimal (substring 10 2 s) 0, read_decimal (substring 12 2 s) 0).

Definition fields_in_range (f : Z * Z * Z * Z * Z * Z) : Prop :=
  let '(y, m, d, hh, mm, ss) := f in
  1970 <= y <= 9999 /\ 1 <= m <= 12 /\ 1 <= d <= Datetime.days_in_month y m
  /\ 0 <= hh < 24 /\ 0 <= mm < 60 /\ 0 <= ss < 60.

(** Characters that UTF-8 encodes in one byte. *)
Definition ascii7 (c : ascii) : bool := (N_of_ascii c <? 128)%N.

(** ** Checking every number below a bound

    [check_below bound P] runs [P] on 0, ..., [bound - 1].  It is used for
    the 64 characters of the Base64 alphabet and for the 146097 days of a
    400-year cycle of the calendar: [cycle_day_ok r] says that day [r] of
    the cycle converts to a date and back, within the ranges of a date, and
    that the years at the two ends of the clock's range are on the right
    side of 1970 and of 9999. *)
Definition check_step (P : N -> bool) (st : N * bool) : N * bool :=
  (N.succ (fst st), snd st && P (fst st)).

Definition check_below (bound : N) (P : N -> bool) : bool :=
  snd (N.iter bound (check_step P) (0%N, true)).

Definition cycle_day_ok (r : N) : bool :=
  let o := 1 + Z.of_N r in
  let '(y, m, d) := Datetime.ord2ymd o in
  (Datetime.ymd2ord y m d =? o)
  && (1 <=? y) && (y <=? 400)
  && (1 <=? m) && (m <=? 12)
  && (1 <=? d) && (d <=? Datetime.days_in_month y m)
  && (implb (134774 <=? Z.of_N r) (370 <=? y))
  && (implb (Z.of_N r <=? 145730) (y <=? 399)).

(** ** Sample data for concrete runs *)

Definition sample_config : config := {|
  CONSUMER_KEY := "key";
  CONSUMER_SECRET := "secret";
  PASSKEY := "passkey";
  BUSINESS_SHORT_CODE := "174379";
  CALLBACK_URL := "https://shop.example/api/mpesa_callback";
  OAUTH_URL := "https://provider.example/oauth/v1/generate?grant_type=client_credentials";
  STKPUSH_URL := "https://provider.example/mpesa/stkpush/v1/processrequest";
  TRANSACTION_TYPE := "CustomerPayBillOnline";
  ACCOUNT_REFERENCE := "Order";
  TRANSACTION_DESC := "Payment";
|}.

(** A provider that always answers the token request with [token_reply] and
    the payment request with [stk_reply], under a clock showing [clock]. *)
Definition stub_world (token_reply stk_reply : http_outcome) (clock : N) : world := {|
  http_get := fun _ _ => token_reply;
  http_post := fun _ _ _ => stk_reply;
  now_us := clock;
  str_of := fun _ => "<value>";
  str_exn := fun _ => "<exception>";
|}.

Definition json_reply (status : Z) (body : json) : http_outcome :=
  Replies {| status_code := status; reason := ""; resp_url := ""; text := "";
             json_body := Some body; json_over_limit := false |}.

Definition text_reply (status : Z) (body : string) : http_outcome :=
  Replies {| status_code := status; reason := ""; resp_url := ""; text := body;
             json_body := None; json_over_limit := false |}.

Definition token_granted : http_outcome :=
  json_reply 200 (dict [("access_token", JStr "T0k3n"); ("expires_in", JStr "3599")]).

(** 2024-02-29 23:59:59.5 in Nairobi. *)
Definition sample_clock : N := 1709240399500000.

(** A well-formed payment request for ten shillings. *)
Definition sample_request : flask_request :=
  JsonRequest (dict [("phoneNumber", JStr "254712345678"); ("amount", JInt 10)]).

(** The same request with the JSON value [true] as amount. *)
Definition boolean_amount_request : flask_request :=
  JsonRequest (dict [("phoneNumber", JStr "254712345678"); ("amount", JBool true)]).

Definition stk_accepted : http_outcome :=
  json_reply 200 (dict [("ResponseCode", JStr "0");
                        ("CustomerMessage", JStr "Success. Request accepted for processing");
                        ("CheckoutRequestID", JStr "ws_CO_1")]).

(** A callback in the provider's envelope. *)
Definition callback_of (stk_callback : list (string * json)) : flask_request :=
  JsonRequest (dict [("Body", dict [("stkCallback", dict stk_callback)])]).

Definition metadata_item (name : string) (value : json) : json :=
  dict [("Name", JStr name); ("Value", value)].

Definition paid_callback : flask_request :=
  callback_of [("ResultCode", JInt 0);
               ("CheckoutRequestID", JStr "ws_CO_1");
               ("ResultDesc", JStr "The service request is processed successfully.");
               ("CallbackMetadata",
                dict [("Item", JList [metadata_item "MpesaReceiptNumber" (JStr "NLJ7RT61SV");
                                      metadata_item "Amount" (JInt 10);
                                      metadata_item "PhoneNumber" (JInt 254712345678)])])].

Definition cancelled_callback : flask_request :=
  callback_of [("ResultCode", JInt 1032);
               ("CheckoutRequestID", JStr "ws_CO_1");
               ("ResultDesc", JStr "Request cancelled by user")].

(** A success callback that names [Amount] twice. *)
Definition repeated_name_callback : flask_request :=
  callback_of [("ResultCode", JInt 0);
               ("CheckoutRequestID", JStr "ws_CO_1");
               ("CallbackMetadata",
                dict [("Item", JList [metadata_item "Amount" (JInt 1);
                                      metadata_item "Amount" (JInt 2)])])].

Definition quiet_world : world := stub_world token_granted stk_accepted sample_clock.

(** The fields of [sample_request] and of [boolean_amount_request]. *)
Definition sample_data : gmap string json :=
  list_to_map [("phoneNumber", JStr "254712345678"); ("amount", JInt 10)].

Definition boolean_amount_data : gmap string json :=
  list_to_map [("phoneNumber", JStr "254712345678"); ("amount", JBool true)].

(** The trace of a granted token request under [sample_config]. *)
Definition token_granted_trace : list event :=
  [EvGet (OAUTH_URL sample_config) (basic_auth_headers sample_config);
   EvLog INFO LOG_TOKEN_OK []].

(** The provider's rejection body used in the runs below. *)
Definition stk_rejection : json :=
  dict [("ResponseCode", JStr "1"); ("ResponseDescription", JStr "insufficient permissions")].

(** A provider whose token endpoint answers 200 with an empty token. *)
Definition empty_token_world : world :=
  stub_world (json_reply 200 (dict [("access_token", JStr "")])) stk_accepted sample_clock.

(** A provider whose token endpoint answers 300 with a token in the body. *)
Definition multiple_choices_token_world : world :=
  stub_world (json_reply 300 (dict [("access_token", JStr "T0k3n")])) stk_accepted sample_clock.

(** A provider whose token endpoint answers 500. *)
Definition broken_token_world : world :=
  stub_world (text_reply 500 "Internal Server Error") stk_accepted sample_clock.

(** A provider whose payment endpoint answers 300 with a rejection body. *)
Definition multiple_choices_stk_world : world :=
  stub_world token_granted (json_reply 300 stk_rejection) sample_clock.

(** A provider whose payment endpoint answers 500 with an acceptance body. *)
Definition failing_stk_world : world :=
  stub_world token_granted
    (json_reply 500 (dict [("ResponseCode", JStr "0"); ("CheckoutRequestID", JStr "ws_CO_1")]))
    sample_clock.

(** A provider whose payment endpoint answers 200 with a rejection body. *)
Definition rejecting_stk_world : world :=
  stub_world token_granted (json_reply 200 stk_rejection) sample_clock.

(** A reply 200 whose body is JSON text beyond a limit of the interpreter,
    on which [response.json()] raises the decoder's own exception. *)
Definition over_limit_reply : http_outcome :=
  Replies {| status_code := 200; reason := ""; resp_url := ""; text := "";
             json_body := None; json_over_limit := true |}.

(** A provider whose payment endpoint answers 400 with the same rejection
    body. *)
Definition bad_request_stk_world : world :=
  stub_world token_granted (json_reply 400 stk_rejection) sample_clock.

(** The same provider half a second and a whole second later. *)
Definition same_second_world : world :=
  stub_world token_granted stk_accepted (sample_clock + 400000).

Definition next_second_world : world :=
  stub_world token_granted stk_accepted (sample_clock + 1000000).

(** ** Outbound calls and further sample data *)

(** The events that leave the server. *)
Definition is_network (ev : event) : bool :=
  match ev with
  | EvLog _ _ _ => false
  | EvGet _ _ | EvPost _ _ _ => true
  end.

Definition network_events (tr : list event) : list event := List.filter is_network tr.

(** The ASCII digits. *)
Definition ascii_digit (c : ascii) : bool :=
  let n := N_of_ascii c in ((48 <=? n) && (n <=? 57))%N.

(** A phone number of the right shape whose last eight digits are the
    superscript two, U+00B2. *)
Definition superscript_phone : string :=
  "2547" ++ string_of_list_ascii (repeat (ascii_of_N 178) 8).

Definition superscript_data : gmap string json :=
  list_to_map [("phoneNumber", JStr superscript_phone); ("amount", JInt 10)].

(** A provider whose payment endpoint cannot be reached. *)
Definition unreachable_stk_world : world :=
  stub_world token_granted (Fails "connection refused") sample_clock.

(** A provider whose payment endpoint answers 200 with a JSON list. *)
Definition list_reply_world : world :=
  stub_world token_granted (json_reply 200 (JList [])) sample_clock.

(** A rejection that carries no description. *)
Definition bare_rejection : gmap string json := list_to_map [("ResponseCode", JStr "1")].

Definition bare_rejection_world : world :=
  stub_world token_granted (json_reply 200 (JDict bare_rejection)) sample_clock.

(** The pieces of three success callbacks: one without metadata, one whose
    metadata is [null], one with an item that is not an object. *)
Definition bare_paid_stk : gmap string json :=
  list_to_map [("ResultCode", JInt 0); ("CheckoutRequestID", JStr "ws_CO_1")].

Definition null_metadata_stk : gmap string json :=
  list_to_map [("ResultCode", JInt 0); ("CallbackMetadata", JNull)].

Definition odd_items : list json := [metadata_item "Amount" (JInt 10); JStr "Amount"].

Definition odd_metadata : gmap string json := list_to_map [("Item", JList odd_items)].

Definition odd_item_stk : gmap string json :=
  list_to_map [("ResultCode", JInt 0); ("CallbackMetadata", JDict odd_metadata)].

Definition envelope_body (stk : gmap string json) : gmap string json :=
  list_to_map [("stkCallback", JDict stk)].

Definition envelope (stk : gmap string json) : gmap string json :=
  list_to_map [("Body", JDict (envelope_body stk))].

(** * Properties *)


Example int_of_str_plain : Py.int_of_str "174379" = Some 174379.
Proof. reflexivity. Qed.

Example int_of_str_padded : Py.int_of_str " -1_000 " = Some (-1000).
Proof. reflexivity. Qed.

Example superscript_two :
  let s := String (ascii_of_N 178) "" in
  Py.isdigit s = true /\ Py.int_of_str s = None.
Proof. split; reflexivity. Qed.

Example int_of_str_rejects :
  Py.int_of_str "12a" = None /\ Py.int_of_str "1__0" = None /\ Py.int_of_str "+ 1" = None.
Proof. repeat split; reflexivity. Qed.

Example b64_hello : Base64.b64_of_str "hello" = "aGVsbG8=".
Proof. reflexivity. Qed.

Example b64_lengths :
  Base64.b64_of_str "a" = "YQ==" /\ Base64.b64_of_str "ab" = "YWI=" /\ Base64.b64_of_str "abc" = "YWJj".
Proof. repeat split; reflexivity. Qed.

Example b64_reads_back :
  Base64.bytes_of_b64 "aGVsbG8=" = Some (list_byte_of_string "hello")
  /\ Base64.bytes_of_b64 "YQ==" = Some (list_byte_of_string "a")
  /\ Base64.bytes_of_b64 "YWJj" = Some (list_byte_of_string "abc").
Proof. repeat split; reflexivity. Qed.

Example b64_reader_refuses :
  Base64.bytes_of_b64 "hello" = None
  /\ Base64.bytes_of_b64 "aGVsbG8" = None
  /\ Base64.bytes_of_b64 "aGVsbG9=" = None
  /\ Base64.bytes_of_b64 "aGVs bG8=" = None.
Proof. repeat split; reflexivity. Qed.

Example stamp_epoch :
  Datetime.strftime_compact (Datetime.nairobi_fields 0) = "19700101030000".
Proof. reflexivity. Qed.

Example stamp_2024_leap_day :
  Datetime.strftime_compact (Datetime.nairobi_fields 1709240399) = "20240229235959".
Proof. reflexivity. Qed.

(** ** The token fetcher *)

#[local] Arguments dict : simpl never.

Ltac eff_step :=
  cbv beta iota zeta delta
    [try_except bind ret raise emit ask log exn_text respond
     requests_get requests_post raise_for_status response_json get_json
     get get_default int_of format_value
     is_RequestException is_JSONDecodeError];
  cbn [app].

(** The result and trace of [get_access_token], case by case. *)
Lemma get_access_token_eq (cfg : config) (w : world) :
  get_access_token cfg w =
  let call := EvGet (OAUTH_URL cfg) (basic_auth_headers cfg) in
  match http_get w (OAUTH_URL cfg) (basic_auth_headers cfg) with
  | Fails detail =>
      (Return JNull,
       [call; EvLog ERROR LOG_TOKEN_NETWORK [JStr (str_exn w (RequestException detail))]])
  | Replies r =>
      if (400 <=? status_code r) && (status_code r <? 600) then
        (Return JNull, [call; EvLog ERROR LOG_TOKEN_NETWORK [JStr (str_exn w (HTTPError r))]])
      else
        match json_body r with
        | None =>
            if json_over_limit r then
              (Return JNull, [call; EvLog ERROR LOG_TOKEN_UNEXPECTED []])
            else
              (Return JNull,
               [call;
                EvLog ERROR LOG_TOKEN_NETWORK [JStr (str_exn w (RequestsJSONDecodeError r))]])
        | Some (JDict d) =>
            let access_token := match d !! "access_token" with Some x => x | None => JNull end in
            if Py.truthy access_token then (Return access_token, [call; EvLog INFO LOG_TOKEN_OK []])
            else (Return JNull, [call; EvLog ERROR LOG_TOKEN_MISSING [JDict d]])
        | Some _ => (Return JNull, [call; EvLog ERROR LOG_TOKEN_UNEXPECTED []])
        end
  end.
Proof.
  unfold get_access_token. eff_step.
  destruct (http_get w _ _) as [detail | r]; eff_step; [reflexivity |].
  destruct ((400 <=? status_code r) && (status_code r <? 600)); eff_step; [reflexivity |].
  destruct (json_body r) as [j |]; eff_step;
    [| destruct (json_over_limit r); reflexivity].
  destruct j; eff_step; try reflexivity.
  destruct (Py.truthy _); reflexivity.
Qed.

(** [get_access_token] never raises; its trace is the request followed by
    one log record, at level [ERROR] when the result is [None] and the
    success record otherwise. *)
Lemma get_access_token_shape (cfg : config) (w : world) :
  exists tok lvl msg args,
    get_access_token cfg w =
      (Return tok, [EvGet (OAUTH_URL cfg) (basic_auth_headers cfg); EvLog lvl msg args])
    /\ ((tok = JNull /\ lvl = ERROR)
        \/ (Py.truthy tok = true /\ lvl = INFO /\ msg = LOG_TOKEN_OK /\ args = [])).
Proof.
  rewrite get_access_token_eq. cbv zeta.
  destruct (http_get w _ _) as [detail | r]; [eauto 10 |].
  destruct ((400 <=? status_code r) && (status_code r <? 600)); [eauto 10 |].
  destruct (json_body r) as [j |]; [| destruct (json_over_limit r); eauto 10].
  destruct j; eauto 10.
  destruct (Py.truthy _) eqn:E; eauto 12.
Qed.

(** ** Validation in [initiate_stk_push] *)

(** Two traces that differ only in how their concatenations are nested. *)
Ltac trace_eq := rewrite <- ?app_assoc; cbn [app]; reflexivity.

(** The three validation steps, and what remains when they pass. *)
Lemma initiate_stk_push_eq (cfg : config) (w : world) (data : gmap string json) :
  let phone_number := match data !! "phoneNumber" with Some x => x | None => JNull end in
  let amount := match data !! "amount" with Some x => x | None => JNull end in
  let received := EvLog INFO LOG_RECEIVED [phone_number; amount] in
  let bad_phone :=
    (Return (reply 400 [("success", JBool false); ("message", JStr MSG_BAD_PHONE)]),
     [received; EvLog WARNING LOG_BAD_PHONE [phone_number]]) in
  initiate_stk_push cfg (JsonRequest (JDict data)) w =
  if negb (Py.truthy phone_number) || negb (Py.truthy amount) then
    (Return (reply 400 [("success", JBool false); ("message", JStr MSG_REQUIRED)]),
     [received; EvLog WARNING LOG_MISSING []])
  else
    match phone_number with
    | JStr phone =>
        if negb (phone_format_ok phone) then bad_phone
        else if negb (amount_ok amount) then
          (Return (reply 400 [("success", JBool false); ("message", JStr MSG_BAD_AMOUNT)]),
           [received; EvLog WARNING LOG_BAD_AMOUNT [amount]])
        else
          let (r, tr) := try_except (stk_push_body cfg phone amount) stk_push_handler w in
          (r, received :: tr)
    | _ => bad_phone
    end.
Proof.
  cbv zeta. unfold initiate_stk_push, reject_phone. eff_step.
  destruct (negb (Py.truthy _) || negb (Py.truthy _)); [reflexivity |].
  destruct (match data !! "phoneNumber" with Some x => x | None => JNull end);
    eff_step; try reflexivity.
  destruct (negb (phone_format_ok s)); [reflexivity |].
  destruct (negb (amount_ok _)); [reflexivity |].
  destruct (stk_push_body cfg s _ w) as [[a | e] tr]; [reflexivity |].
  unfold stk_push_handler.
  destruct (is_RequestException e); [reflexivity |].
  destruct (is_JSONDecodeError e); reflexivity.
Qed.

(** ** The network stage of [initiate_stk_push] *)

(** The answer to a decoded provider reply, branch by branch. *)
Lemma interpret_stk_response_eq (w : world) (d : gmap string json) :
  interpret_stk_response (JDict d) w =
  let field k := match d !! k with Some x => x | None => JNull end in
  if Py.eq_str (field "ResponseCode") "0" then
    (Return (reply 200 [("success", JBool true);
                        ("message", match d !! "CustomerMessage" with
                                    | Some x => x
                                    | None => JStr MSG_INITIATED
                                    end);
                        ("CheckoutRequestID", field "CheckoutRequestID");
                        ("ResponseCode", field "ResponseCode")]),
     [])
  else
    let error_message :=
      match d !! "ResponseDescription" with Some x => x | None => JStr MSG_UNKNOWN end in
    (Return (reply 400 [("success", JBool false);
                        ("message", error_message);
                        ("MpesaResponse", JDict d)]),
     [EvLog ERROR LOG_STK_REJECTED [error_message; JDict d]]).
Proof.
  unfold interpret_stk_response. eff_step.
  destruct (Py.eq_str _ "0"); reflexivity.
Qed.

(** The [try] block, unfolded along the answers of the world. *)
Lemma stk_push_body_eq (cfg : config) (w : world) (phone : string) (amount : json) :
  stk_push_body cfg phone amount w =
  let (token_result, token_trace) := get_access_token cfg w in
  match token_result with
  | Raise e => (Raise e, token_trace)
  | Return access_token =>
      if negb (Py.truthy access_token) then
        (Return (reply 500 [("success", JBool false); ("message", JStr MSG_TRY_LATER)]),
         (token_trace ++ [EvLog ERROR LOG_NO_TOKEN []])%list)
      else
        let secs := Z.of_N (now_us w / 1000000) in
        if secs + Datetime.EAT_OFFSET <? Datetime.MAX_LOCAL then
          let creds := mpesa_credentials_at cfg secs in
          let generated := EvLog INFO LOG_GENERATED [JStr (fst creds)] in
          match Py.int_of_str (BUSINESS_SHORT_CODE cfg) with
          | None =>
              (Raise (ValueError_int_literal (BUSINESS_SHORT_CODE cfg)),
               (token_trace ++ [generated])%list)
          | Some short_code =>
              match Py.int_of_str phone with
              | None => (Raise (ValueError_int_literal phone), (token_trace ++ [generated])%list)
              | Some party =>
                  let payload :=
                    stk_payload cfg short_code (snd creds) (fst creds) amount
                      party short_code party in
                  let bearer :=
                    match access_token with JStr s => s | _ => str_of w access_token end in
                  let headers := bearer_headers bearer in
                  let sending := EvLog INFO LOG_SENDING [payload] in
                  let posted := EvPost (STKPUSH_URL cfg) payload headers in
                  let sent := (token_trace ++ [generated; sending; posted])%list in
                  match http_post w (STKPUSH_URL cfg) payload headers with
                  | Fails detail => (Raise (RequestException detail), sent)
                  | Replies r =>
                      if (400 <=? status_code r) && (status_code r <? 600) then
                        (Raise (HTTPError r), sent)
                      else
                        match json_body r with
                        | None =>
                            (Raise (if json_over_limit r then DecoderLimitError r
                                    else RequestsJSONDecodeError r),
                             sent)
                        | Some stk_response =>
                            let (res, tr) := interpret_stk_response stk_response w in
                            (res,
                             (token_trace ++ generated :: sending :: posted
                                :: EvLog INFO LOG_STK_RESPONSE [stk_response] :: tr)%list)
                        end
                  end
              end
          end
        else (Raise DateOutOfRange, token_trace)
  end.
Proof.
  unfold stk_push_body, generate_mpesa_credentials. eff_step.
  destruct (get_access_token cfg w) as [[access_token | e] token_trace]; [| reflexivity].
  destruct (negb (Py.truthy access_token)); eff_step; [reflexivity |].
  destruct (_ <? _); eff_step; [| rewrite app_nil_r; reflexivity].
  destruct (Py.int_of_str (BUSINESS_SHORT_CODE cfg)) as [short_code |]; eff_step;
    [| reflexivity].
  destruct (Py.int_of_str phone) as [party |]; eff_step; [| reflexivity].
  destruct access_token; eff_step;
    (destruct (http_post w _ _ _) as [detail | r]; eff_step; [reflexivity |];
     destruct ((400 <=? status_code r) && (status_code r <? 600)); eff_step; [reflexivity |];
     destruct (json_body r) as [j |]; eff_step;
       [| destruct (json_over_limit r); reflexivity];
     destruct (interpret_stk_response j w) as [res tr]; reflexivity).
Qed.

(** The network stage always opens with the token request. *)
Lemma network_stage_opens_with_get (cfg : config) (w : world) (phone : string) (amount : json) :
  exists r tr,
    try_except (stk_push_body cfg phone amount) stk_push_handler w =
      (r, EvGet (OAUTH_URL cfg) (basic_auth_headers cfg) :: tr).
Proof.
  unfold try_except. rewrite stk_push_body_eq.
  destruct (get_access_token_shape cfg w) as (tok & lvl & msg & args & -> & _).
  cbv zeta. cbn [app].
  repeat case_match; simplify_eq; eauto.
Qed.

(** The amounts the third validation step lets through. *)
Lemma amount_ok_iff (amount : json) :
  amount_ok amount = true <-> (exists z, amount = JInt z /\ 0 < z) \/ amount = JBool true.
Proof.
  unfold amount_ok, Py.int_le_0. split.
  - destruct amount as [| [] | z | | | |]; cbn; try discriminate; auto.
    intros H. left. exists z. split; [reflexivity |].
    destruct (z <=? 0) eqn:E; [discriminate | lia].
  - intros [(z & -> & Hz) | ->]; cbn; [| reflexivity].
    destruct (z <=? 0) eqn:E; [lia | reflexivity].
Qed.

Lemma amount_ok_truthy (amount : json) :
  amount_ok amount = true -> Py.truthy amount = true.
Proof.
  intros [(z & -> & Hz) | ->]%amount_ok_iff; cbn; [| reflexivity].
  destruct (z =? 0) eqn:E; [lia | reflexivity].
Qed.

Lemma phone_format_truthy (phone : string) :
  phone_format_ok phone = true -> Py.truthy (JStr phone) = true.
Proof.
  unfold phone_format_ok. intros H.
  apply andb_prop in H as [H _]. apply andb_prop in H as [_ H].
  apply Nat.eqb_eq in H. cbn. rewrite H. reflexivity.
Qed.

Section Validated.

Variables (cfg : config) (w : world) (data : gmap string json).
Variables (phone : string) (amount : json).

Hypothesis Hphone : data !! "phoneNumber" = Some (JStr phone).
Hypothesis Hamount : data !! "amount" = Some amount.
Hypothesis Hformat : phone_format_ok phone = true.
Hypothesis Hamount_ok : amount_ok amount = true.

(** A request that passes validation goes on to the [try] block. *)
Lemma validated_proceeds :
  initiate_stk_push cfg (JsonRequest (JDict data)) w =
  let (r, tr) := try_except (stk_push_body cfg phone amount) stk_push_handler w in
  (r, EvLog INFO LOG_RECEIVED [JStr phone; amount] :: tr).
Proof.
  rewrite initiate_stk_push_eq. cbv zeta. rewrite Hphone, Hamount.
  rewrite (phone_format_truthy _ Hformat), (amount_ok_truthy _ Hamount_ok).
  rewrite Hformat, Hamount_ok. reflexivity.
Qed.

(** C8.  When [get_access_token] returns [None], a request that passed
    validation is answered at once with HTTP 500 and the fixed message
    "Failed to connect to M-Pesa. Please try again later.", which holds
    nothing of what the provider said.  The whole trace is the request log,
    the token request, the error record of the token fetcher and the error
    record of the handler: no credentials are generated (no [LOG_GENERATED]
    record) and nothing is posted to the payment endpoint. *)
Theorem no_token_fails_fast :
  fst (get_access_token cfg w) = Return JNull ->
  exists msg args,
    initiate_stk_push cfg (JsonRequest (JDict data)) w =
      (Return (reply 500 [("success", JBool false); ("message", JStr MSG_TRY_LATER)]),
       [EvLog INFO LOG_RECEIVED [JStr phone; amount];
        EvGet (OAUTH_URL cfg) (basic_auth_headers cfg);
        EvLog ERROR msg args;
        EvLog ERROR LOG_NO_TOKEN []]).
Proof.
  intros Htoken. rewrite validated_proceeds.
  unfold try_except. rewrite stk_push_body_eq.
  destruct (get_access_token_shape cfg w) as (tok & lvl & msg & args & E & Hcase).
  rewrite E in Htoken |- *. cbn in Htoken. injection Htoken as ->.
  destruct Hcase as [[_ ->] | [Hcase _]]; [| discriminate].
  cbn. eauto.
Qed.

End Validated.

Section Posted.

Variables (cfg : config) (w : world) (data : gmap string json).
Variables (phone : string) (amount access_token : json).
Variables (token_trace : list event) (short_code party : Z).

Hypothesis Hphone : data !! "phoneNumber" = Some (JStr phone).
Hypothesis Hamount : data !! "amount" = Some amount.
Hypothesis Hformat : phone_format_ok phone = true.
Hypothesis Hamount_ok : amount_ok amount = true.
Hypothesis Htoken : get_access_token cfg w = (Return access_token, token_trace).
Hypothesis Htruthy : Py.truthy access_token = true.
Hypothesis Hclock : Z.of_N (now_us w / 1000000) + Datetime.EAT_OFFSET < Datetime.MAX_LOCAL.
Hypothesis Hshort_code : Py.int_of_str (BUSINESS_SHORT_CODE cfg) = Some short_code.
Hypothesis Hparty : Py.int_of_str phone = Some party.

Let creds := mpesa_credentials_at cfg (Z.of_N (now_us w / 1000000)).
Let payload :=
  stk_payload cfg short_code (snd creds) (fst creds) amount party short_code party.
Let headers :=
  bearer_headers match access_token with JStr s => s | _ => str_of w access_token end.
Let sent : list event :=
  EvLog INFO LOG_RECEIVED [JStr phone; amount]
    :: token_trace ++ [EvLog INFO LOG_GENERATED [JStr (fst creds)];
                       EvLog INFO LOG_SENDING [payload];
                       EvPost (STKPUSH_URL cfg) payload headers].

(** What [initiate_stk_push] answers once the payment request is posted. *)
Lemma posted_eq :
  initiate_stk_push cfg (JsonRequest (JDict data)) w =
  let network_error e :=
    (Return (reply 500 [("success", JBool false);
                        ("message",
                         JStr ("Network or API communication error: " ++ str_exn w e))]),
     (sent ++ [EvLog ERROR LOG_STK_NETWORK [JStr (str_exn w e)]])%list) in
  let unexpected e (seen : list event) :=
    (Return (reply 500 [("success", JBool false);
                        ("message",
                         JStr ("An unexpected server error occurred: " ++ str_exn w e))]),
     (sent ++ seen ++ [EvLog ERROR LOG_STK_UNEXPECTED []])%list) in
  match http_post w (STKPUSH_URL cfg) payload headers with
  | Fails detail => network_error (RequestException detail)
  | Replies r =>
      if (400 <=? status_code r) && (status_code r <? 600) then network_error (HTTPError r)
      else
        match json_body r with
        | None =>
            if json_over_limit r then unexpected (DecoderLimitError r) []
            else network_error (RequestsJSONDecodeError r)
        | Some (JDict d) =>
            let (res, tr) := interpret_stk_response (JDict d) w in
            (res, (sent ++ EvLog INFO LOG_STK_RESPONSE [JDict d] :: tr)%list)
        | Some j =>
            unexpected (AttributeError (Py.type_name j) "get")
              [EvLog INFO LOG_STK_RESPONSE [j]]
        end
  end.
Proof.
  rewrite (validated_proceeds cfg w data phone amount Hphone Hamount Hformat Hamount_ok).
  unfold try_except. rewrite stk_push_body_eq, Htoken, Htruthy.
  cbv zeta. cbn [negb].
  apply Z.ltb_lt in Hclock. rewrite Hclock, Hshort_code, Hparty.
  fold creds. fold payload. fold headers. subst sent.
  destruct (http_post w _ _ _) as [detail | r]; cbn; [trace_eq |].
  destruct ((400 <=? status_code r) && (status_code r <? 600)); cbn; [trace_eq |].
  destruct (json_body r) as [j |]; [| destruct (json_over_limit r); cbn; trace_eq].
  destruct j as [| | | | | | d];
    try rewrite !interpret_stk_response_eq; cbv zeta; try destruct (Py.eq_str _ _);
    cbn; trace_eq.
Qed.

(** Whatever the provider answers, the trace shows the posted request. *)
Lemma request_is_posted :
  exists res tr,
    initiate_stk_push cfg (JsonRequest (JDict data)) w = (res, (sent ++ tr)%list).
Proof.
  rewrite posted_eq. cbv zeta.
  destruct (http_post w _ _ _) as [detail | r]; [eauto |].
  destruct ((400 <=? status_code r) && (status_code r <? 600)); [eauto |].
  destruct (json_body r) as [j |]; [| destruct (json_over_limit r); eauto].
  destruct j as [| | | | | | d]; eauto.
  destruct (interpret_stk_response (JDict d) w) as [res tr]. eauto.
Qed.

(** C9, as amended.  When the payment endpoint answers with a status from
    400 to 599, [raise_for_status] raises before the body is looked at: the
    handler answers HTTP 500 with the message "Network or API communication
    error: ..." built from the [HTTPError], whatever [ResponseCode] or
    [ResponseDescription] the body [r] may carry. *)
Theorem error_status_is_internal_error (r : http_response) :
  http_post w (STKPUSH_URL cfg) payload headers = Replies r ->
  400 <= status_code r < 600 ->
  initiate_stk_push cfg (JsonRequest (JDict data)) w =
    (Return (reply 500 [("success", JBool false);
                        ("message",
                         JStr ("Network or API communication error: "
                               ++ str_exn w (HTTPError r)))]),
     (sent ++ [EvLog ERROR LOG_STK_NETWORK [JStr (str_exn w (HTTPError r))]])%list).
Proof.
  intros Hpost [Hlo Hhi]. rewrite posted_eq. cbv zeta. rewrite Hpost.
  apply Z.leb_le in Hlo. apply Z.ltb_lt in Hhi. rewrite Hlo, Hhi. reflexivity.
Qed.

(** C3, as amended.  Once the payment endpoint has answered with a status
    outside 400-599, which [raise_for_status] lets through, and a JSON
    object [d] as body, the answer is read
    off [ResponseCode]: when it is the string "0" the handler answers HTTP
    200 with [success] true and the provider's [CheckoutRequestID] as it
    came; for any other value (or none) it answers HTTP 400 with [success]
    false and, as [message], exactly the provider's [ResponseDescription]. *)
Theorem provider_reply_interpreted (r : http_response) (d : gmap string json) :
  http_post w (STKPUSH_URL cfg) payload headers = Replies r ->
  (400 <=? status_code r) && (status_code r <? 600) = false ->
  json_body r = Some (JDict d) ->
  let field k := match d !! k with Some x => x | None => JNull end in
  (d !! "ResponseCode" = Some (JStr "0") ->
   fst (initiate_stk_push cfg (JsonRequest (JDict data)) w) =
     Return (reply 200 [("success", JBool true);
                        ("message", match d !! "CustomerMessage" with
                                    | Some x => x
                                    | None => JStr MSG_INITIATED
                                    end);
                        ("CheckoutRequestID", field "CheckoutRequestID");
                        ("ResponseCode", JStr "0")]))
  /\ (Py.eq_str (field "ResponseCode") "0" = false ->
      forall description, d !! "ResponseDescription" = Some description ->
      fst (initiate_stk_push cfg (JsonRequest (JDict data)) w) =
        Return (reply 400 [("success", JBool false);
                           ("message", description);
                           ("MpesaResponse", JDict d)])).
Proof.
  intros Hpost Hstatus Hbody field. rewrite posted_eq. cbv zeta.
  rewrite Hpost, Hstatus, Hbody, interpret_stk_response_eq. cbv zeta. split.
  - intros Hcode. rewrite Hcode. reflexivity.
  - intros Hcode description Hdesc. subst field. cbv beta in Hcode.
    rewrite Hcode, Hdesc. reflexivity.
Qed.

End Posted.

(** The [Amount] field of the payload is the amount of the request. *)
Lemma stk_payload_amount (cfg : config) (short_code : Z) (password timestamp : string)
    (amount : json) (party_a party_b phone : Z) :
  exists fields,
    stk_payload cfg short_code password timestamp amount party_a party_b phone = JDict fields
    /\ fields !! "Amount" = Some amount.
Proof. eexists. split; [reflexivity |]. vm_compute. reflexivity. Qed.

(** C10.  The JSON value [true] passes as an amount: [isinstance(True, int)]
    holds and [True <= 0] does not, so for a well-formed phone number the
    handler enters the network stage (its first step, the token request, is
    in the trace) and, when a token is obtained, posts a payload whose
    [Amount] field is [true] itself.  The presence check alone turns an
    amount away exactly when the amount is falsy. *)
Theorem boolean_amount_passes (cfg : config) (w : world) (data : gmap string json)
    (phone : string) (amount : json) :
  data !! "phoneNumber" = Some (JStr phone) ->
  phone_format_ok phone = true ->
  data !! "amount" = Some amount ->
  (amount = JBool true ->
   amount_ok amount = true
   /\ (exists r tr,
         initiate_stk_push cfg (JsonRequest (JDict data)) w =
           (r, EvLog INFO LOG_RECEIVED [JStr phone; JBool true]
                 :: EvGet (OAUTH_URL cfg) (basic_auth_headers cfg) :: tr))
   /\ (forall access_token token_trace short_code party,
         get_access_token cfg w = (Return access_token, token_trace) ->
         Py.truthy access_token = true ->
         Z.of_N (now_us w / 1000000) + Datetime.EAT_OFFSET < Datetime.MAX_LOCAL ->
         Py.int_of_str (BUSINESS_SHORT_CODE cfg) = Some short_code ->
         Py.int_of_str phone = Some party ->
         let creds := mpesa_credentials_at cfg (Z.of_N (now_us w / 1000000)) in
         let payload :=
           stk_payload cfg short_code (snd creds) (fst creds) (JBool true)
             party short_code party in
         let headers :=
           bearer_headers
             match access_token with JStr s => s | _ => str_of w access_token end in
         In (EvPost (STKPUSH_URL cfg) payload headers)
            (snd (initiate_stk_push cfg (JsonRequest (JDict data)) w))
         /\ exists fields, payload = JDict fields /\ fields !! "Amount" = Some (JBool true)))
  /\ (initiate_stk_push cfg (JsonRequest (JDict data)) w =
        (Return (reply 400 [("success", JBool false); ("message", JStr MSG_REQUIRED)]),
         [EvLog INFO LOG_RECEIVED [JStr phone; amount]; EvLog WARNING LOG_MISSING []])
      <-> Py.truthy amount = false).
Proof.
  intros Hphone Hformat Hamount. split.
  - intros ->. split; [reflexivity |]. split.
    + rewrite (validated_proceeds cfg w data phone (JBool true)) by easy.
      destruct (network_stage_opens_with_get cfg w phone (JBool true)) as (r & tr & ->).
      eauto.
    + intros access_token token_trace short_code party Htoken Htruthy Hclock Hsc Hparty
        creds payload headers.
      split; [| apply stk_payload_amount].
      destruct (request_is_posted cfg w data phone (JBool true) access_token token_trace
                  short_code party) as (res & tr & ->); try easy.
      cbn [snd]. apply in_cons, in_or_app. left. apply in_or_app. right.
      cbn. auto.
  - rewrite initiate_stk_push_eq. cbv zeta. rewrite Hphone, Hamount.
    rewrite (phone_format_truthy _ Hformat), Hformat. cbn [negb orb].
    destruct (Py.truthy amount); cbn [negb]; [| easy].
    split; [| discriminate].
    destruct (negb (amount_ok amount)); [discriminate |].
    destruct (network_stage_opens_with_get cfg w phone amount) as (r & tr & ->).
    discriminate.
Qed.

(** ** Validation, as far as it holds *)

(** A well-formed phone number with a positive integer amount passes the
    three validation steps, and the token request follows. *)
Lemma validation_accepts_positive_integer (cfg : config) (w : world)
    (data : gmap string json) (phone : string) (z : Z) :
  data !! "phoneNumber" = Some (JStr phone) ->
  phone_format_ok phone = true ->
  data !! "amount" = Some (JInt z) ->
  0 < z ->
  exists r tr,
    initiate_stk_push cfg (JsonRequest (JDict data)) w =
      (r, EvLog INFO LOG_RECEIVED [JStr phone; JInt z]
            :: EvGet (OAUTH_URL cfg) (basic_auth_headers cfg) :: tr).
Proof.
  intros Hphone Hformat Hamount Hz.
  rewrite (validated_proceeds cfg w data phone (JInt z)); try easy.
  - destruct (network_stage_opens_with_get cfg w phone (JInt z)) as (r & tr & ->). eauto.
  - apply amount_ok_iff. eauto.
Qed.

(** A request whose phone number or amount fails its test is answered with
    HTTP 400 after two log records: no request leaves the server. *)
Lemma validation_rejects_offline (cfg : config) (w : world) (data : gmap string json) :
  let phone_number := match data !! "phoneNumber" with Some x => x | None => JNull end in
  let amount := match data !! "amount" with Some x => x | None => JNull end in
  match phone_number with JStr phone => phone_format_ok phone | _ => false end
    && amount_ok amount = false ->
  exists message warning args,
    initiate_stk_push cfg (JsonRequest (JDict data)) w =
      (Return (reply 400 [("success", JBool false); ("message", JStr message)]),
       [EvLog INFO LOG_RECEIVED [phone_number; amount]; EvLog WARNING warning args]).
Proof.
  cbv zeta. intros H. rewrite initiate_stk_push_eq. cbv zeta.
  destruct (negb (Py.truthy _) || negb (Py.truthy _)); [eauto |].
  destruct (match data !! "phoneNumber" with Some x => x | None => JNull end); eauto.
  destruct (phone_format_ok s); cbn [negb]; [| eauto].
  cbn [andb] in H. rewrite H. cbn [negb]. eauto.
Qed.

(** C1, where it fails.  The request [{"phoneNumber": "254712345678",
    "amount": true}] is not turned away: with a provider that grants a token
    and accepts the payment request, the handler fetches the token, posts a
    payload whose [Amount] is [true] and answers HTTP 200. *)
Theorem boolean_amount_reaches_provider :
  initiate_stk_push sample_config boolean_amount_request
    (stub_world token_granted stk_accepted sample_clock) =
  let password := Base64.b64_of_str "174379passkey20240229235959" in
  let payload :=
    dict [("BusinessShortCode", JInt 174379);
          ("Password", JStr password);
          ("Timestamp", JStr "20240229235959");
          ("TransactionType", JStr "CustomerPayBillOnline");
          ("Amount", JBool true);
          ("PartyA", JInt 254712345678);
          ("PartyB", JInt 174379);
          ("PhoneNumber", JInt 254712345678);
          ("CallBackURL", JStr "https://shop.example/api/mpesa_callback");
          ("AccountReference", JStr "Order");
          ("TransactionDesc", JStr "Payment")] in
  (Return (reply 200 [("success", JBool true);
                      ("message", JStr "Success. Request accepted for processing");
                      ("CheckoutRequestID", JStr "ws_CO_1");
                      ("ResponseCode", JStr "0")]),
   [EvLog INFO LOG_RECEIVED [JStr "254712345678"; JBool true];
    EvGet (OAUTH_URL sample_config) (basic_auth_headers sample_config);
    EvLog INFO LOG_TOKEN_OK [];
    EvLog INFO LOG_GENERATED [JStr "20240229235959"];
    EvLog INFO LOG_SENDING [payload];
    EvPost (STKPUSH_URL sample_config) payload (bearer_headers "T0k3n");
    EvLog INFO LOG_STK_RESPONSE
      [dict [("ResponseCode", JStr "0");
             ("CustomerMessage", JStr "Success. Request accepted for processing");
             ("CheckoutRequestID", JStr "ws_CO_1")]]]).
Proof. vm_compute. reflexivity. Qed.

(** ** The callback receiver *)

(** [mpesa_callback] on a JSON object, unfolded as far as the branch on the
    result code. *)
Lemma mpesa_callback_eq (w : world) (data : gmap string json) :
  mpesa_callback (JsonRequest (JDict data)) w =
  let received := EvLog INFO LOG_CALLBACK [JDict data] in
  let ack := reply 200 [("ResultCode", JInt 0); ("ResultDesc", JStr MSG_ACK)] in
  let failure (e : exn) (tr : list event) :=
    (Return (reply 500 [("ResultCode", JInt 1);
                        ("ResultDesc", JStr ("Failed to process callback: " ++ str_exn w e))]),
     (received :: tr ++ [EvLog ERROR LOG_CALLBACK_ERROR []])%list) in
  match match data !! "Body" with Some x => x | None => JDict ∅ end with
  | JDict body =>
      match match body !! "stkCallback" with Some x => x | None => JDict ∅ end with
      | JDict stk =>
          let field k := match stk !! k with Some x => x | None => JNull end in
          if Py.eq_zero (field "ResultCode") then
            let paid := EvLog INFO LOG_PAID [field "CheckoutRequestID"] in
            match (callback_metadata <- get_default (JDict stk) "CallbackMetadata" (dict []) ;;
                   item_list <- get_default callback_metadata "Item" (JList []) ;;
                   items <- iterate item_list ;;
                   collect_items items ∅) w with
            | (Return item_details, tr) =>
                (Return ack,
                 (received :: paid :: tr ++
                    [EvLog INFO LOG_DETAILS
                       [detail item_details "MpesaReceiptNumber";
                        detail item_details "Amount";
                        detail item_details "PhoneNumber";
                        detail item_details "TransactionDate"]])%list)
            | (Raise e, tr) => failure e (paid :: tr)
            end
          else
            (Return ack,
             [received;
              EvLog WARNING LOG_NOT_PAID
                [field "ResultCode"; field "ResultDesc"; field "CheckoutRequestID"]])
      | v => failure (AttributeError (Py.type_name v) "get") []
      end
  | v => failure (AttributeError (Py.type_name v) "get") []
  end.
Proof.
  unfold mpesa_callback, callback_body. eff_step.
  change (dict []) with (JDict ∅).
  destruct (match data !! "Body" with Some x => x | None => JDict ∅ end)
    as [| | | | | | body]; eff_step; try reflexivity.
  destruct (match body !! "stkCallback" with Some x => x | None => JDict ∅ end)
    as [| | | | | | stk]; eff_step; try reflexivity.
  destruct (Py.eq_zero _); eff_step; [| reflexivity].
  destruct (match stk !! "CallbackMetadata" with Some x => x | None => JDict ∅ end)
    as [| | | | | | md]; eff_step; try reflexivity.
  destruct (match md !! "Item" with Some x => x | None => JList [] end)
    as [| | | | s | l | d]; unfold iterate; eff_step; try reflexivity;
    match goal with
    | |- context [collect_items ?l ∅ w] =>
        destruct (collect_items l ∅ w) as [[item_details | e] tr]; eff_step;
        rewrite ?app_nil_r; reflexivity
    end.
Qed.

(** C4.  A callback in the provider's envelope whose [ResultCode] is not
    zero, failed or cancelled payments among them, is acknowledged with HTTP
    200 and [ResultCode] 0; the handler logs a warning and nothing else
    happens, whether or not metadata is present. *)
Theorem failed_payment_acknowledged (w : world) (data body stk : gmap string json)
    (code : json) :
  data !! "Body" = Some (JDict body) ->
  body !! "stkCallback" = Some (JDict stk) ->
  stk !! "ResultCode" = Some code ->
  Py.eq_zero code = false ->
  mpesa_callback (JsonRequest (JDict data)) w =
    (Return callback_ack,
     [EvLog INFO LOG_CALLBACK [JDict data];
      EvLog WARNING LOG_NOT_PAID
        [code;
         match stk !! "ResultDesc" with Some x => x | None => JNull end;
         match stk !! "CheckoutRequestID" with Some x => x | None => JNull end]])
  /\ resp_status callback_ack = 200
  /\ exists fields, resp_body callback_ack = JDict fields
                    /\ fields !! "ResultCode" = Some (JInt 0).
Proof.
  intros Hbody Hstk Hcode Hnonzero. split.
  - rewrite mpesa_callback_eq. cbv zeta. rewrite Hbody, Hstk, Hcode, Hnonzero. reflexivity.
  - split; [reflexivity |]. eexists. split; [reflexivity |]. vm_compute. reflexivity.
Qed.

(** The loop stores every item when each has a hashable name. *)
Lemma collect_items_project (w : world) (items : list json) :
  Forall (fun item => is_Some (item_key item)) items ->
  forall item_details,
    collect_items items item_details w = (Return (project_items items item_details), []).
Proof.
  induction 1 as [| item rest [k Hk] _ IH]; intros item_details; [reflexivity |].
  destruct item as [| | | | | | fields]; try discriminate.
  cbn [collect_items project_items fold_left]. eff_step.
  cbn in Hk. rewrite Hk. cbn [item_key item_value]. rewrite Hk.
  fold (project_items rest (<[k:=match fields !! "Value" with Some x => x | None => JNull end]>
                              item_details)).
  rewrite IH. reflexivity.
Qed.

(** Items stored under other keys leave a key as it was. *)
Lemma project_items_other (items : list json) (k : Py.key) :
  Forall (fun item => item_key item <> Some k) items ->
  forall item_details, project_items items item_details !! k = item_details !! k.
Proof.
  induction 1 as [| item rest Hne _ IH]; intros item_details; [reflexivity |].
  cbn [project_items fold_left].
  destruct (item_key item) as [k' |] eqn:E; [| apply IH].
  fold (project_items rest (<[k':=item_value item]> item_details)).
  rewrite IH. apply lookup_insert_ne. congruence.
Qed.

(** The value of an item is found under its key unless a later item has
    the same key. *)
Lemma project_items_lookup (items : list json) :
  forall (i : nat) (item : json) (k : Py.key) (item_details : gmap Py.key json),
    items !! i = Some item ->
    item_key item = Some k ->
    (forall j item', (i < j)%nat -> items !! j = Some item' -> item_key item' <> Some k) ->
    project_items items item_details !! k = Some (item_value item).
Proof.
  induction items as [| first rest IH]; intros i item k item_details Hi Hk Hlater;
    [discriminate |].
  destruct i as [| i]; cbn in Hi.
  - injection Hi as ->. cbn [project_items fold_left]. rewrite Hk.
    fold (project_items rest (<[k:=item_value item]> item_details)).
    rewrite project_items_other; [apply lookup_insert_eq |].
    apply Forall_lookup_2. intros j item' Hj. apply (Hlater (S j)); [lia | exact Hj].
  - cbn [project_items fold_left].
    apply (IH i); [exact Hi | exact Hk |].
    intros j item' Hlt Hj. apply (Hlater (S j)); [lia | exact Hj].
Qed.

(** C7, as amended.  For a success callback ([ResultCode] equal to 0)
    whose [CallbackMetadata] holds a list of items, each an object with a
    hashable [Name], the loop builds the flat mapping [project_items items ∅]
    without raising; the value of an item is found under its name unless a
    later item of the list carries the same name, in which case the later
    one has replaced it; the four details the handler reads are looked up in
    that mapping, and the answer is the success acknowledgement, HTTP 200. *)
Theorem metadata_projected (w : world) (data body stk md : gmap string json)
    (code : json) (items : list json) :
  data !! "Body" = Some (JDict body) ->
  body !! "stkCallback" = Some (JDict stk) ->
  stk !! "ResultCode" = Some code ->
  Py.eq_zero code = true ->
  stk !! "CallbackMetadata" = Some (JDict md) ->
  md !! "Item" = Some (JList items) ->
  Forall (fun item => is_Some (item_key item)) items ->
  let item_details := project_items items ∅ in
  collect_items items ∅ w = (Return item_details, [])
  /\ (forall i item k,
        items !! i = Some item ->
        item_key item = Some k ->
        (forall j item', (i < j)%nat -> items !! j = Some item' -> item_key item' <> Some k) ->
        item_details !! k = Some (item_value item))
  /\ (forall i fields name,
        items !! i = Some (JDict fields) ->
        fields !! "Name" = Some (JStr name) ->
        (forall j item', (i < j)%nat -> items !! j = Some item' ->
                         item_key item' <> Some (Py.KStr name)) ->
        detail item_details name = item_value (JDict fields))
  /\ mpesa_callback (JsonRequest (JDict data)) w =
       (Return callback_ack,
        [EvLog INFO LOG_CALLBACK [JDict data];
         EvLog INFO LOG_PAID [match stk !! "CheckoutRequestID" with Some x => x | None => JNull end];
         EvLog INFO LOG_DETAILS
           [detail item_details "MpesaReceiptNumber";
            detail item_details "Amount";
            detail item_details "PhoneNumber";
            detail item_details "TransactionDate"]]).
Proof.
  intros Hbody Hstk Hcode Hzero Hmd Hitem Hitems item_details. subst item_details.
  split; [apply collect_items_project; exact Hitems |].
  split; [intros i item k; apply project_items_lookup |].
  split.
  - intros i fields name Hi Hname Hlater. unfold detail.
    rewrite (project_items_lookup items i (JDict fields) (Py.KStr name)); auto.
    cbn. rewrite Hname. reflexivity.
  - rewrite mpesa_callback_eq. cbv zeta. rewrite Hbody, Hstk, Hcode, Hzero.
    unfold iterate. eff_step. rewrite Hmd. eff_step. rewrite Hitem. eff_step.
    rewrite (collect_items_project w items Hitems ∅). reflexivity.
Qed.

(** C7 as stated fails when a name is repeated: of the two [Amount] items,
    with values 1 and 2, only the second is found under [Amount]. *)
Lemma repeated_name_keeps_last :
  mpesa_callback repeated_name_callback quiet_world =
    (Return callback_ack,
     [EvLog INFO LOG_CALLBACK
        [dict [("Body",
                dict [("stkCallback",
                       dict [("ResultCode", JInt 0);
                             ("CheckoutRequestID", JStr "ws_CO_1");
                             ("CallbackMetadata",
                              dict [("Item", JList [metadata_item "Amount" (JInt 1);
                                                    metadata_item "Amount" (JInt 2)])])])])]];
      EvLog INFO LOG_PAID [JStr "ws_CO_1"];
      EvLog INFO LOG_DETAILS [JNull; JInt 2; JNull; JNull]])
  /\ item_value (metadata_item "Amount" (JInt 1)) = JInt 1
  /\ detail (project_items [metadata_item "Amount" (JInt 1); metadata_item "Amount" (JInt 2)] ∅)
       "Amount" <> JInt 1.
Proof.
  split; [vm_compute; reflexivity |].
  split; [vm_compute; reflexivity |].
  vm_compute. discriminate.
Qed.

(** The three items of a usual success callback, each under its name. *)
Lemma metadata_projected_witness :
  let items := [metadata_item "MpesaReceiptNumber" (JStr "NLJ7RT61SV");
                metadata_item "Amount" (JInt 10);
                metadata_item "PhoneNumber" (JInt 254712345678)] in
  Forall (fun item => is_Some (item_key item)) items
  /\ detail (project_items items ∅) "MpesaReceiptNumber" = JStr "NLJ7RT61SV"
  /\ detail (project_items items ∅) "Amount" = JInt 10
  /\ detail (project_items items ∅) "PhoneNumber" = JInt 254712345678
  /\ fst (mpesa_callback paid_callback quiet_world) = Return callback_ack.
Proof.
  intros items.
  pose (md := list_to_map [("Item", JList items)] : gmap string json).
  pose (stk := list_to_map
                 [("ResultCode", JInt 0);
                  ("CheckoutRequestID", JStr "ws_CO_1");
                  ("ResultDesc", JStr "The service request is processed successfully.");
                  ("CallbackMetadata", JDict md)] : gmap string json).
  pose (body := list_to_map [("stkCallback", JDict stk)] : gmap string json).
  pose (data := list_to_map [("Body", JDict body)] : gmap string json).
  assert (Hitems : Forall (fun item => is_Some (item_key item)) items).
  { repeat constructor; vm_compute; eauto. }
  assert (Hbody : data !! "Body" = Some (JDict body)) by (vm_compute; reflexivity).
  assert (Hstk : body !! "stkCallback" = Some (JDict stk)) by (vm_compute; reflexivity).
  assert (Hcode : stk !! "ResultCode" = Some (JInt 0)) by (vm_compute; reflexivity).
  assert (Hmd : stk !! "CallbackMetadata" = Some (JDict md)) by (vm_compute; reflexivity).
  assert (Hitem : md !! "Item" = Some (JList items)) by (vm_compute; reflexivity).
  destruct (metadata_projected quiet_world data body stk md (JInt 0) items
              Hbody Hstk Hcode eq_refl Hmd Hitem Hitems) as (_ & _ & Hdetail & Hrun).
  assert (Hlast : forall i name,
            (forall j item', (i < j)%nat -> items !! j = Some item' ->
                             item_key item' <> Some (Py.KStr name)) ->
            forall fields,
              items !! i = Some (JDict fields) -> fields !! "Name" = Some (JStr name) ->
              detail (project_items items ∅) name = item_value (JDict fields)).
  { intros i name Hlater fields Hi Hname. exact (Hdetail i fields name Hi Hname Hlater). }
  split; [exact Hitems |].
  split.
  { rewrite (Hlast 0%nat "MpesaReceiptNumber") with (fields :=
      list_to_map [("Name", JStr "MpesaReceiptNumber"); ("Value", JStr "NLJ7RT61SV")]);
      [vm_compute; reflexivity | | reflexivity | vm_compute; reflexivity].
    intros [| [| [| j]]] item' Hlt Hj; try lia; vm_compute in Hj; try discriminate;
      injection Hj as <-; vm_compute; discriminate. }
  split.
  { rewrite (Hlast 1%nat "Amount") with (fields :=
      list_to_map [("Name", JStr "Amount"); ("Value", JInt 10)]);
      [vm_compute; reflexivity | | reflexivity | vm_compute; reflexivity].
    intros [| [| [| j]]] item' Hlt Hj; try lia; vm_compute in Hj; try discriminate;
      injection Hj as <-; vm_compute; discriminate. }
  split.
  { rewrite (Hlast 2%nat "PhoneNumber") with (fields :=
      list_to_map [("Name", JStr "PhoneNumber"); ("Value", JInt 254712345678)]);
      [vm_compute; reflexivity | | reflexivity | vm_compute; reflexivity].
    intros [| [| [| j]]] item' Hlt Hj; try lia; vm_compute in Hj; discriminate. }
  change paid_callback with (JsonRequest (JDict data)). rewrite Hrun. reflexivity.
Defined.

(** A body that is not a JSON object has no [get]. *)
Lemma mpesa_callback_not_object (w : world) (j : json) :
  (forall data, j <> JDict data) ->
  mpesa_callback (JsonRequest j) w =
    (Return (callback_failure w (AttributeError (Py.type_name j) "get")),
     [EvLog INFO LOG_CALLBACK [j]; EvLog ERROR LOG_CALLBACK_ERROR []]).
Proof.
  intros Hj. destruct j; try reflexivity. destruct (Hj d). reflexivity.
Qed.

Ltac answered_ack := do 2 eexists; split; [reflexivity | left; reflexivity].
Ltac answered_failure :=
  do 2 eexists; split; [reflexivity | right; eexists; reflexivity].

(** C2, as amended.  [mpesa_callback] answers every request and never
    raises: the answer is the success acknowledgement or the failure
    acknowledgement.  A JSON object without [Body], or whose [Body] is an
    object without [stkCallback], is read with the defaults [{}] and gets
    the success acknowledgement (HTTP 200, [ResultCode] 0).  The failure
    acknowledgement (HTTP 500, [ResultCode] 1, "Failed to process callback:
    ...") is the answer when the body is not JSON, when it is not a JSON
    object, and when [Body] or [stkCallback] is present but not an object. *)
Theorem callback_always_acknowledged (w : world) (req : flask_request) :
  (exists resp tr,
     mpesa_callback req w = (Return resp, tr)
     /\ (resp = callback_ack \/ exists e, resp = callback_failure w e))
  /\ (forall data,
        req = JsonRequest (JDict data) ->
        data !! "Body" = None ->
        fst (mpesa_callback req w) = Return callback_ack)
  /\ (forall data body,
        req = JsonRequest (JDict data) ->
        data !! "Body" = Some (JDict body) ->
        body !! "stkCallback" = None ->
        fst (mpesa_callback req w) = Return callback_ack)
  /\ (forall description,
        req = NotJsonRequest description ->
        fst (mpesa_callback req w) = Return (callback_failure w (HTTPException description)))
  /\ (forall j,
        req = JsonRequest j ->
        (forall data, j <> JDict data) ->
        fst (mpesa_callback req w) =
          Return (callback_failure w (AttributeError (Py.type_name j) "get")))
  /\ (forall data v,
        req = JsonRequest (JDict data) ->
        data !! "Body" = Some v ->
        (forall body, v <> JDict body) ->
        fst (mpesa_callback req w) =
          Return (callback_failure w (AttributeError (Py.type_name v) "get")))
  /\ (forall data body v,
        req = JsonRequest (JDict data) ->
        data !! "Body" = Some (JDict body) ->
        body !! "stkCallback" = Some v ->
        (forall stk, v <> JDict stk) ->
        fst (mpesa_callback req w) =
          Return (callback_failure w (AttributeError (Py.type_name v) "get"))).
Proof.
  repeat split.
  - destruct req as [j | description]; [| answered_failure].
    destruct j as [| | | | | | data];
      try (rewrite mpesa_callback_not_object by discriminate; answered_failure).
    rewrite mpesa_callback_eq. cbv zeta.
    destruct (match data !! "Body" with Some x => x | None => JDict ∅ end)
      as [| | | | | | body]; try answered_failure.
    destruct (match body !! "stkCallback" with Some x => x | None => JDict ∅ end)
      as [| | | | | | stk]; try answered_failure.
    destruct (Py.eq_zero _); [| answered_ack].
    match goal with
    | |- context [match ?m w with _ => _ end] => destruct (m w) as [[item_details | e] tr]
    end; [answered_ack | answered_failure].
  - intros data -> Hbody. rewrite mpesa_callback_eq. cbv zeta. rewrite Hbody.
    rewrite lookup_empty. reflexivity.
  - intros data body -> Hbody Hstk. rewrite mpesa_callback_eq. cbv zeta.
    rewrite Hbody, Hstk, lookup_empty. reflexivity.
  - intros description ->. reflexivity.
  - intros j -> Hj. rewrite mpesa_callback_not_object by exact Hj. reflexivity.
  - intros data v -> Hbody Hv. rewrite mpesa_callback_eq. cbv zeta. rewrite Hbody.
    destruct v; try reflexivity. destruct (Hv d). reflexivity.
  - intros data body v -> Hbody Hstk Hv. rewrite mpesa_callback_eq. cbv zeta.
    rewrite Hbody, Hstk. destruct v; try reflexivity. destruct (Hv d). reflexivity.
Qed.

(** C2 as stated fails on the empty object [{}]: it has no [Body], and the
    handler answers with the success acknowledgement, not the failure one. *)
Lemma empty_callback_acknowledged :
  mpesa_callback (JsonRequest (dict [])) quiet_world =
    (Return callback_ack,
     [EvLog INFO LOG_CALLBACK [dict []]; EvLog WARNING LOG_NOT_PAID [JNull; JNull; JNull]])
  /\ resp_status callback_ack = 200
  /\ forall e, callback_ack <> callback_failure quiet_world e.
Proof.
  split; [vm_compute; reflexivity |]. split; [reflexivity |].
  intros e H. apply (f_equal resp_status) in H. discriminate.
Qed.

(** An object without [Body], through the theorem. *)
Lemma callback_always_acknowledged_witness :
  (∅ : gmap string json) !! "Body" = None
  /\ fst (mpesa_callback (JsonRequest (JDict ∅)) quiet_world) = Return callback_ack.
Proof.
  split; [reflexivity |].
  destruct (callback_always_acknowledged quiet_world (JsonRequest (JDict ∅)))
    as (_ & Hno_body & _).
  apply (Hno_body ∅); reflexivity.
Defined.

(** A cancelled payment, through the theorem. *)
Lemma failed_payment_acknowledged_witness :
  Py.eq_zero (JInt 1032) = false
  /\ fst (mpesa_callback cancelled_callback quiet_world) = Return callback_ack.
Proof.
  split; [reflexivity |].
  pose (stk := list_to_map [("ResultCode", JInt 1032);
                            ("CheckoutRequestID", JStr "ws_CO_1");
                            ("ResultDesc", JStr "Request cancelled by user")]
               : gmap string json).
  pose (body := list_to_map [("stkCallback", JDict stk)] : gmap string json).
  pose (data := list_to_map [("Body", JDict body)] : gmap string json).
  assert (Hbody : data !! "Body" = Some (JDict body)) by (vm_compute; reflexivity).
  assert (Hstk : body !! "stkCallback" = Some (JDict stk)) by (vm_compute; reflexivity).
  assert (Hcode : stk !! "ResultCode" = Some (JInt 1032)) by (vm_compute; reflexivity).
  destruct (failed_payment_acknowledged quiet_world data body stk (JInt 1032)
              Hbody Hstk Hcode eq_refl) as [Hrun _].
  change cancelled_callback with (JsonRequest (JDict data)). rewrite Hrun. reflexivity.
Defined.

(** ** The answers of the token fetcher *)

(** C5, as amended.  [get_access_token] never raises.  It returns the
    provider's [access_token] unchanged when the reply has a status outside
    400-599 and a JSON object as body whose [access_token] is truthy; it
    returns [None] when the request fails in transport, when the status is
    4xx or 5xx, when the body is not JSON, when the object has no
    [access_token], and when the [access_token] is falsy (an empty string,
    for one). *)
Theorem token_fetch_cases (cfg : config) (w : world) (answer : http_outcome) :
  http_get w (OAUTH_URL cfg) (basic_auth_headers cfg) = answer ->
  (forall r d tok,
     answer = Replies r ->
     (400 <=? status_code r) && (status_code r <? 600) = false ->
     json_body r = Some (JDict d) ->
     d !! "access_token" = Some tok ->
     Py.truthy tok = true ->
     fst (get_access_token cfg w) = Return tok)
  /\ (forall r,
        answer = Replies r -> 400 <= status_code r < 600 ->
        fst (get_access_token cfg w) = Return JNull)
  /\ (forall r,
        answer = Replies r -> json_body r = None ->
        fst (get_access_token cfg w) = Return JNull)
  /\ (forall r d,
        answer = Replies r -> json_body r = Some (JDict d) -> d !! "access_token" = None ->
        fst (get_access_token cfg w) = Return JNull)
  /\ (forall r d tok,
        answer = Replies r -> json_body r = Some (JDict d) ->
        d !! "access_token" = Some tok -> Py.truthy tok = false ->
        fst (get_access_token cfg w) = Return JNull)
  /\ (forall detail,
        answer = Fails detail -> fst (get_access_token cfg w) = Return JNull)
  /\ exists tok tr, get_access_token cfg w = (Return tok, tr).
Proof.
  intros Hanswer. rewrite get_access_token_eq. cbv zeta. rewrite Hanswer.
  repeat split.
  - intros r d tok -> Hstatus Hbody Htok Htruthy.
    rewrite Hstatus, Hbody, Htok, Htruthy. reflexivity.
  - intros r -> [Hlo Hhi]. apply Z.leb_le in Hlo. apply Z.ltb_lt in Hhi.
    rewrite Hlo, Hhi. reflexivity.
  - intros r -> Hbody. rewrite Hbody.
    destruct (_ && _); [| destruct (json_over_limit r)]; reflexivity.
  - intros r d -> Hbody Htok. rewrite Hbody, Htok. destruct (_ && _); reflexivity.
  - intros r d tok -> Hbody Htok Hfalsy. rewrite Hbody, Htok, Hfalsy.
    destruct (_ && _); reflexivity.
  - intros detail ->. reflexivity.
  - destruct answer as [detail | r]; [eauto |].
    destruct (_ && _); [eauto |].
    destruct (json_body r) as [j |]; [| destruct (json_over_limit r); eauto].
    destruct j; eauto.
    destruct (Py.truthy _); eauto.
Qed.

(** C5 as stated fails twice: a reply 200 with [{"access_token": ""}] has
    the field and yields [None], not the token; a reply 300, which is not
    2xx, with a token in its body yields that token, not [None]. *)
Lemma token_fetch_counterexample :
  fst (get_access_token sample_config empty_token_world) = Return JNull
  /\ fst (get_access_token sample_config empty_token_world) <> Return (JStr "")
  /\ fst (get_access_token sample_config multiple_choices_token_world) = Return (JStr "T0k3n")
  /\ fst (get_access_token sample_config multiple_choices_token_world) <> Return JNull.
Proof.
  assert (E1 : fst (get_access_token sample_config empty_token_world) = Return JNull)
    by (vm_compute; reflexivity).
  assert (E2 : fst (get_access_token sample_config multiple_choices_token_world)
               = Return (JStr "T0k3n")) by (vm_compute; reflexivity).
  rewrite E1, E2. repeat split; discriminate.
Qed.

(** A granted token and a 500 reply, through the theorem. *)
Lemma token_fetch_cases_witness :
  http_get quiet_world (OAUTH_URL sample_config) (basic_auth_headers sample_config)
    = token_granted
  /\ fst (get_access_token sample_config quiet_world) = Return (JStr "T0k3n")
  /\ fst (get_access_token sample_config broken_token_world) = Return JNull.
Proof.
  split; [reflexivity |]. split.
  - destruct (token_fetch_cases sample_config quiet_world token_granted eq_refl)
      as (Hgranted & _).
    eapply Hgranted; [reflexivity | reflexivity | reflexivity | | reflexivity].
    vm_compute. reflexivity.
  - destruct (token_fetch_cases sample_config broken_token_world
                (text_reply 500 "Internal Server Error") eq_refl)
      as (_ & Herror & _).
    eapply Herror; [reflexivity |]. cbn. lia.
Defined.

(** ** Concrete runs of [initiate_stk_push] *)

Ltac by_computation := vm_compute; reflexivity.

(** A reply beyond the decoder's limit is met by the last [except] clause
    of either function, a reply that is not JSON by the first. *)
Example over_limit_replies :
  get_access_token sample_config (stub_world over_limit_reply stk_accepted sample_clock)
    = (Return JNull,
       [EvGet (OAUTH_URL sample_config) (basic_auth_headers sample_config);
        EvLog ERROR LOG_TOKEN_UNEXPECTED []])
  /\ fst (initiate_stk_push sample_config sample_request
            (stub_world token_granted over_limit_reply sample_clock))
     = Return (reply 500 [("success", JBool false);
                          ("message",
                           JStr "An unexpected server error occurred: <exception>")])
  /\ fst (initiate_stk_push sample_config sample_request
            (stub_world token_granted (text_reply 200 "<html>") sample_clock))
     = Return (reply 500 [("success", JBool false);
                          ("message",
                           JStr "Network or API communication error: <exception>")]).
Proof. repeat split; by_computation. Qed.

(** A token endpoint answering 500, through the theorem. *)
Lemma no_token_fails_fast_witness :
  fst (get_access_token sample_config broken_token_world) = Return JNull
  /\ fst (initiate_stk_push sample_config sample_request broken_token_world) =
       Return (reply 500 [("success", JBool false); ("message", JStr MSG_TRY_LATER)]).
Proof.
  assert (Hphone : sample_data !! "phoneNumber" = Some (JStr "254712345678"))
    by by_computation.
  assert (Hamount : sample_data !! "amount" = Some (JInt 10)) by by_computation.
  assert (Htoken : fst (get_access_token sample_config broken_token_world) = Return JNull)
    by by_computation.
  split; [exact Htoken |].
  destruct (no_token_fails_fast sample_config broken_token_world sample_data
              "254712345678" (JInt 10) Hphone Hamount eq_refl eq_refl Htoken)
    as (msg & args & Hrun).
  change sample_request with (JsonRequest (JDict sample_data)).
  rewrite Hrun. reflexivity.
Defined.

(** A payment endpoint answering 500 with an acceptance body, through the
    theorem: the body is not looked at. *)
Lemma error_status_is_internal_error_witness :
  400 <= 500 < 600
  /\ fst (initiate_stk_push sample_config sample_request failing_stk_world) =
       Return (reply 500 [("success", JBool false);
                          ("message",
                           JStr "Network or API communication error: <exception>")]).
Proof.
  split; [lia |].
  assert (Hphone : sample_data !! "phoneNumber" = Some (JStr "254712345678"))
    by by_computation.
  assert (Hamount : sample_data !! "amount" = Some (JInt 10)) by by_computation.
  assert (Htoken : get_access_token sample_config failing_stk_world
                   = (Return (JStr "T0k3n"), token_granted_trace)) by by_computation.
  assert (Hclock : Z.of_N (now_us failing_stk_world / 1000000) + Datetime.EAT_OFFSET
                   < Datetime.MAX_LOCAL) by (vm_compute; reflexivity).
  change sample_request with (JsonRequest (JDict sample_data)).
  rewrite (error_status_is_internal_error sample_config failing_stk_world sample_data
             "254712345678" (JInt 10) (JStr "T0k3n") token_granted_trace
             174379 254712345678
             Hphone Hamount eq_refl eq_refl Htoken eq_refl Hclock eq_refl eq_refl
             {| status_code := 500; reason := ""; resp_url := ""; text := "";
                json_body := Some (dict [("ResponseCode", JStr "0");
                                         ("CheckoutRequestID", JStr "ws_CO_1")]);
                json_over_limit := false |}
             eq_refl);
    [reflexivity | cbn; lia].
Defined.

(** C9 as stated fails on a status that is not 2xx and not an error either:
    a reply 300 with a rejection body is read, and the answer is the 400
    rejection carrying the provider's description, not the 500 answer. *)
Lemma multiple_choices_reply_is_read :
  fst (initiate_stk_push sample_config sample_request multiple_choices_stk_world) =
    Return (reply 400 [("success", JBool false);
                       ("message", JStr "insufficient permissions");
                       ("MpesaResponse", stk_rejection)])
  /\ resp_status (reply 400 [("success", JBool false);
                             ("message", JStr "insufficient permissions");
                             ("MpesaResponse", stk_rejection)]) <> 500.
Proof. split; [by_computation | discriminate]. Qed.

(** C3 as stated fails on a reply with an error status, whose body is never
    read.  A reply 400 with the body [{"ResponseCode": "1",
    "ResponseDescription": "insufficient permissions"}] is answered HTTP 500
    with the message of a communication error, not HTTP 400 with the
    provider's description; a reply 500 with the body [{"ResponseCode": "0",
    "CheckoutRequestID": "ws_CO_1"}] is answered HTTP 500 as well, not with
    the success answer that holds the [CheckoutRequestID]. *)
Lemma error_status_reply_is_not_interpreted :
  fst (initiate_stk_push sample_config sample_request bad_request_stk_world) =
    Return (reply 500 [("success", JBool false);
                       ("message", JStr "Network or API communication error: <exception>")])
  /\ fst (initiate_stk_push sample_config sample_request bad_request_stk_world) <>
       Return (reply 400 [("success", JBool false);
                          ("message", JStr "insufficient permissions");
                          ("MpesaResponse", stk_rejection)])
  /\ fst (initiate_stk_push sample_config sample_request failing_stk_world) =
       Return (reply 500 [("success", JBool false);
                          ("message", JStr "Network or API communication error: <exception>")])
  /\ forall message,
       fst (initiate_stk_push sample_config sample_request failing_stk_world) <>
         Return (reply 200 [("success", JBool true);
                            ("message", message);
                            ("CheckoutRequestID", JStr "ws_CO_1");
                            ("ResponseCode", JStr "0")]).
Proof.
  assert (E1 : fst (initiate_stk_push sample_config sample_request bad_request_stk_world) =
                 Return (reply 500 [("success", JBool false);
                                    ("message",
                                     JStr "Network or API communication error: <exception>")]))
    by by_computation.
  assert (E2 : fst (initiate_stk_push sample_config sample_request failing_stk_world) =
                 Return (reply 500 [("success", JBool false);
                                    ("message",
                                     JStr "Network or API communication error: <exception>")]))
    by by_computation.
  rewrite E1, E2.
  assert (Hstatus : forall r r' : flask_response,
            resp_status r <> resp_status r' -> Return r <> Return r')
    by (intros r r' Hne H; injection H as ->; apply Hne; reflexivity).
  split; [reflexivity |]. split; [apply Hstatus; discriminate |].
  split; [reflexivity |]. intros message. apply Hstatus. discriminate.
Qed.

(** An accepted and a rejected payment request, through the theorem. *)
Lemma provider_reply_interpreted_witness :
  fst (initiate_stk_push sample_config sample_request quiet_world) =
    Return (reply 200 [("success", JBool true);
                       ("message", JStr "Success. Request accepted for processing");
                       ("CheckoutRequestID", JStr "ws_CO_1");
                       ("ResponseCode", JStr "0")])
  /\ fst (initiate_stk_push sample_config sample_request rejecting_stk_world) =
       Return (reply 400 [("success", JBool false);
                          ("message", JStr "insufficient permissions");
                          ("MpesaResponse", stk_rejection)]).
Proof.
  assert (Hphone : sample_data !! "phoneNumber" = Some (JStr "254712345678"))
    by by_computation.
  assert (Hamount : sample_data !! "amount" = Some (JInt 10)) by by_computation.
  change sample_request with (JsonRequest (JDict sample_data)).
  split.
  - assert (Htoken : get_access_token sample_config quiet_world
                     = (Return (JStr "T0k3n"), token_granted_trace)) by by_computation.
    assert (Hclock : Z.of_N (now_us quiet_world / 1000000) + Datetime.EAT_OFFSET
                     < Datetime.MAX_LOCAL) by (vm_compute; reflexivity).
    pose (d := list_to_map
                 [("ResponseCode", JStr "0");
                  ("CustomerMessage", JStr "Success. Request accepted for processing");
                  ("CheckoutRequestID", JStr "ws_CO_1")] : gmap string json).
    destruct (provider_reply_interpreted sample_config quiet_world sample_data
                "254712345678" (JInt 10) (JStr "T0k3n") token_granted_trace
                174379 254712345678
                Hphone Hamount eq_refl eq_refl Htoken eq_refl Hclock eq_refl eq_refl
                {| status_code := 200; reason := ""; resp_url := ""; text := "";
                   json_body := Some (JDict d); json_over_limit := false |}
                d eq_refl eq_refl eq_refl)
      as [Haccepted _].
    rewrite Haccepted by by_computation. by_computation.
  - assert (Htoken : get_access_token sample_config rejecting_stk_world
                     = (Return (JStr "T0k3n"), token_granted_trace)) by by_computation.
    assert (Hclock : Z.of_N (now_us rejecting_stk_world / 1000000) + Datetime.EAT_OFFSET
                     < Datetime.MAX_LOCAL) by (vm_compute; reflexivity).
    pose (d := list_to_map
                 [("ResponseCode", JStr "1");
                  ("ResponseDescription", JStr "insufficient permissions")]
               : gmap string json).
    destruct (provider_reply_interpreted sample_config rejecting_stk_world sample_data
                "254712345678" (JInt 10) (JStr "T0k3n") token_granted_trace
                174379 254712345678
                Hphone Hamount eq_refl eq_refl Htoken eq_refl Hclock eq_refl eq_refl
                {| status_code := 200; reason := ""; resp_url := ""; text := "";
                   json_body := Some (JDict d); json_over_limit := false |}
                d eq_refl eq_refl eq_refl)
      as [_ Hrejected].
    rewrite (Hrejected ltac:(by_computation) (JStr "insufficient permissions"))
      by by_computation.
    reflexivity.
Defined.

(** The request with amount [true], through the theorem. *)
Lemma boolean_amount_passes_witness :
  phone_format_ok "254712345678" = true
  /\ amount_ok (JBool true) = true
  /\ exists r tr,
       initiate_stk_push sample_config boolean_amount_request quiet_world =
         (r, EvLog INFO LOG_RECEIVED [JStr "254712345678"; JBool true]
               :: EvGet (OAUTH_URL sample_config) (basic_auth_headers sample_config) :: tr).
Proof.
  split; [reflexivity |].
  assert (Hphone : boolean_amount_data !! "phoneNumber" = Some (JStr "254712345678"))
    by by_computation.
  assert (Hamount : boolean_amount_data !! "amount" = Some (JBool true)) by by_computation.
  destruct (boolean_amount_passes sample_config quiet_world boolean_amount_data
              "254712345678" (JBool true) Hphone eq_refl Hamount) as [Hpasses _].
  destruct (Hpasses eq_refl) as (Hok & Hnetwork & _).
  split; [exact Hok |].
  change boolean_amount_request with (JsonRequest (JDict boolean_amount_data)).
  exact Hnetwork.
Defined.

(** ** The credential generator *)

(** ** Checking by cases *)

Lemma check_below_spec (P : N -> bool) (bound : N) :
  fst (N.iter bound (check_step P) (0%N, true)) = bound
  /\ (snd (N.iter bound (check_step P) (0%N, true)) = true ->
      forall n, (n < bound)%N -> P n = true).
Proof.
  induction bound as [| bound [IHfst IHsnd]] using N.peano_ind.
  - split; [reflexivity |]. intros _ n Hn. lia.
  - rewrite N.iter_succ. unfold check_step at 1 3. cbn [fst snd]. rewrite IHfst.
    split; [reflexivity |].
    intros H n Hn. apply andb_prop in H as [Hrest Hlast].
    destruct (N.eq_dec n bound) as [-> | Hne]; [exact Hlast |].
    apply IHsnd; [exact Hrest | lia].
Qed.

Lemma below_by_cases (bound : N) (P : N -> bool) :
  check_below bound P = true -> forall n, (n < bound)%N -> P n = true.
Proof. intros H. apply check_below_spec. exact H. Qed.

(** ** The calendar *)

(** Every day of the 400-year cycle converts to a date and back. *)
Lemma cycle_days_ok : check_below 146097 cycle_day_ok = true.
Proof. vm_cast_no_check (eq_refl true). Qed.

(** *** The 400-year cycle *)

Lemma ord2ymd_cycle (o : Z) :
  Datetime.ord2ymd o =
  let '(y, m, d) := Datetime.ord2ymd (1 + (o - 1) mod 146097) in
  (y + 400 * ((o - 1) / 146097), m, d).
Proof.
  unfold Datetime.ord2ymd, Datetime.DI400Y. cbv zeta.
  replace (1 + (o - 1) mod 146097 - 1) with ((o - 1) mod 146097) by lia.
  assert (Hr : 0 <= (o - 1) mod 146097 < 146097) by (apply Z.mod_pos_bound; reflexivity).
  rewrite (Z.div_small _ _ Hr), (Z.mod_small _ _ Hr).
  destruct (_ || _); [f_equal; f_equal; lia |].
  destruct (_ <? _); f_equal; f_equal; lia.
Qed.

Lemma is_leap_cycle (y q : Z) : Datetime.is_leap (y + 400 * q) = Datetime.is_leap y.
Proof.
  unfold Datetime.is_leap.
  replace ((y + 400 * q) mod 4) with (y mod 4)
    by (replace (400 * q) with (100 * q * 4) by lia; symmetry; apply Z_mod_plus_full).
  replace ((y + 400 * q) mod 100) with (y mod 100)
    by (replace (400 * q) with (4 * q * 100) by lia; symmetry; apply Z_mod_plus_full).
  replace ((y + 400 * q) mod 400) with (y mod 400)
    by (replace (400 * q) with (q * 400) by lia; symmetry; apply Z_mod_plus_full).
  reflexivity.
Qed.

Lemma days_before_year_cycle (y q : Z) :
  Datetime.days_before_year (y + 400 * q) = Datetime.days_before_year y + 146097 * q.
Proof.
  unfold Datetime.days_before_year. cbv zeta.
  replace ((y + 400 * q - 1) / 4) with ((y - 1) / 4 + 100 * q)
    by (replace (y + 400 * q - 1) with (y - 1 + 100 * q * 4) by lia;
        symmetry; apply Z_div_plus_full; discriminate).
  replace ((y + 400 * q - 1) / 100) with ((y - 1) / 100 + 4 * q)
    by (replace (y + 400 * q - 1) with (y - 1 + 4 * q * 100) by lia;
        symmetry; apply Z_div_plus_full; discriminate).
  replace ((y + 400 * q - 1) / 400) with ((y - 1) / 400 + q)
    by (replace (y + 400 * q - 1) with (y - 1 + q * 400) by lia;
        symmetry; apply Z_div_plus_full; discriminate).
  lia.
Qed.

Lemma ymd2ord_cycle (y m d q : Z) :
  Datetime.ymd2ord (y + 400 * q) m d = Datetime.ymd2ord y m d + 146097 * q.
Proof.
  unfold Datetime.ymd2ord, Datetime.days_before_month.
  rewrite days_before_year_cycle, is_leap_cycle. lia.
Qed.

Lemma days_in_month_cycle (y m q : Z) :
  Datetime.days_in_month (y + 400 * q) m = Datetime.days_in_month y m.
Proof. unfold Datetime.days_in_month. rewrite is_leap_cycle. reflexivity. Qed.

(** The calendar date of every day from the epoch to the end of 9999. *)
Lemma civil_date (days : Z) :
  0 <= days < 2932897 ->
  let '(y, m, d) := Datetime.ord2ymd (Datetime.EPOCH_ORDINAL + days) in
  Datetime.ymd2ord y m d = Datetime.EPOCH_ORDINAL + days
  /\ 1970 <= y <= 9999
  /\ 1 <= m <= 12
  /\ 1 <= d <= Datetime.days_in_month y m.
Proof.
  intros Hdays. unfold Datetime.EPOCH_ORDINAL.
  rewrite ord2ymd_cycle.
  set (o := 719163 + days).
  pose proof (Z.div_mod (o - 1) 146097 ltac:(discriminate)) as Hdm.
  assert (Hr : 0 <= (o - 1) mod 146097 < 146097) by (apply Z.mod_pos_bound; reflexivity).
  set (q := (o - 1) / 146097) in *. set (r := (o - 1) mod 146097) in *.
  pose proof (below_by_cases 146097 cycle_day_ok cycle_days_ok (Z.to_N r) ltac:(lia)) as Hok.
  unfold cycle_day_ok in Hok. cbv zeta in Hok. rewrite Z2N.id in Hok by lia.
  destruct (Datetime.ord2ymd (1 + r)) as [[y m] d].
  repeat (apply andb_prop in Hok as [Hok ?]).
  rewrite ymd2ord_cycle, days_in_month_cycle.
  repeat match goal with
         | H : (_ =? _) = true |- _ => apply Z.eqb_eq in H
         | H : (_ <=? _) = true |- _ => apply Z.leb_le in H
         end.
  assert (Hlow : 134774 <= r -> 370 <= y).
  { intros Hge. apply Z.leb_le in Hge.
    match goal with H : implb (134774 <=? r) _ = true |- _ => rewrite Hge in H; cbn in H;
      apply Z.leb_le in H; exact H end. }
  assert (Hhigh : r <= 145730 -> y <= 399).
  { intros Hle. apply Z.leb_le in Hle.
    match goal with H : implb (r <=? 145730) _ = true |- _ => rewrite Hle in H; cbn in H;
      apply Z.leb_le in H; exact H end. }
  subst o. lia.
Qed.

(** ** Base64 is injective *)

(** The position of a character in the alphabet. *)
Lemma sextet_char_inj (m n : N) :
  (m < 64)%N -> (n < 64)%N -> Base64.sextet_char m = Base64.sextet_char n -> m = n.
Proof.
  intros Hm Hn Heq.
  pose (same := fun m n =>
          implb (N.eqb (Byte.to_N (Base64.sextet_char m)) (Byte.to_N (Base64.sextet_char n)))
                (N.eqb m n)).
  assert (H : same m n = true).
  { apply (below_by_cases 64 (same m)); [| exact Hn].
    apply (below_by_cases 64 (fun m => check_below 64 (same m))); [| exact Hm].
    vm_compute. reflexivity. }
  unfold same in H. rewrite Heq, N.eqb_refl in H. apply N.eqb_eq in H. exact H.
Qed.

Lemma sextet_char_not_pad (n : N) : (n < 64)%N -> Base64.sextet_char n <> Base64.pad.
Proof.
  intros Hn Heq.
  assert (H : negb (N.eqb (Byte.to_N (Base64.sextet_char n)) (Byte.to_N Base64.pad)) = true)
    by (apply (below_by_cases 64
                 (fun n => negb (N.eqb (Byte.to_N (Base64.sextet_char n)) (Byte.to_N Base64.pad))));
        [vm_compute; reflexivity | exact Hn]).
  rewrite Heq, N.eqb_refl in H. discriminate.
Qed.

Lemma byte_to_N_bound (b : byte) : (Byte.to_N b < 256)%N.
Proof. destruct b; vm_compute; reflexivity. Qed.

Lemma byte_to_N_inj (a b : byte) : Byte.to_N a = Byte.to_N b -> a = b.
Proof.
  intros H. apply (f_equal Byte.of_N) in H. rewrite !Byte.of_to_N in H. congruence.
Qed.

Ltac Zify.zify_post_hook ::= Z.to_euclidean_division_equations.

(** A group below 2^24 is the sum of its sextets. *)
Lemma sextets_sum (n : N) :
  (n < 16777216)%N ->
  let '(s0, s1, s2, s3) := Base64.sextets n in
  (n = s0 * 262144 + s1 * 4096 + s2 * 64 + s3)%N.
Proof. unfold Base64.sextets. intros Hn. lia. Qed.

Lemma sextets_inj (m n : N) :
  (m < 16777216)%N -> (n < 16777216)%N -> Base64.sextets m = Base64.sextets n -> m = n.
Proof.
  intros Hm Hn H.
  pose proof (sextets_sum m Hm) as Em. pose proof (sextets_sum n Hn) as En.
  rewrite H in Em. destruct (Base64.sextets n) as [[[s0 s1] s2] s3]. congruence.
Qed.

(** The sextets that padding replaces hold no bits of the input. *)
Lemma sextets_one_byte (a : N) :
  ((a * 65536 / 64) mod 64 = 0 /\ (a * 65536) mod 64 = 0)%N.
Proof. lia. Qed.

Lemma sextets_two_bytes (a b : N) : ((a * 65536 + b * 256) mod 64 = 0)%N.
Proof. lia. Qed.

Lemma list_ind3 {A : Type} (P : list A -> Prop) :
  P [] ->
  (forall a, P [a]) ->
  (forall a b, P [a; b]) ->
  (forall a b c l, P l -> P (a :: b :: c :: l)) ->
  forall l, P l.
Proof.
  intros H0 H1 H2 H3. fix IH 1.
  intros [| a [| b [| c l]]]; [exact H0 | apply H1 | apply H2 | apply H3, IH].
Qed.

Ltac sextet_eqs :=
  repeat match goal with
         | H : Base64.sextet_char _ = Base64.pad |- _ =>
             apply sextet_char_not_pad in H; [destruct H | apply N.mod_lt; discriminate]
         | H : Base64.pad = Base64.sextet_char _ |- _ =>
             symmetry in H
         | H : Base64.sextet_char _ = Base64.sextet_char _ |- _ =>
             apply sextet_char_inj in H; [| apply N.mod_lt; discriminate ..]
         end.

(** Equal groups have equal bytes. *)
Lemma group_inj (a b c a' b' c' : byte) :
  (Byte.to_N a * 65536 + Byte.to_N b * 256 + Byte.to_N c
   = Byte.to_N a' * 65536 + Byte.to_N b' * 256 + Byte.to_N c')%N ->
  a = a' /\ b = b' /\ c = c'.
Proof.
  intros H.
  pose proof (byte_to_N_bound a). pose proof (byte_to_N_bound a').
  pose proof (byte_to_N_bound b). pose proof (byte_to_N_bound b').
  pose proof (byte_to_N_bound c). pose proof (byte_to_N_bound c').
  repeat split; apply byte_to_N_inj; lia.
Qed.

Lemma group_bound (a b c : byte) :
  (Byte.to_N a * 65536 + Byte.to_N b * 256 + Byte.to_N c < 16777216)%N.
Proof.
  pose proof (byte_to_N_bound a). pose proof (byte_to_N_bound b).
  pose proof (byte_to_N_bound c). lia.
Qed.

Lemma b64encode_inj (l1 l2 : list byte) :
  Base64.b64encode l1 = Base64.b64encode l2 -> l1 = l2.
Proof.
  revert l2. induction l1 as [| a | a b | a b c l1 IH] using list_ind3;
    intros [| a' [| b' [| c' l2]]] H;
    cbn [Base64.b64encode] in H; unfold Base64.sextets in H;
    try discriminate H; try reflexivity.
  all: injection H; clear H; intros; sextet_eqs.
  - destruct (group_inj a "000"%byte "000"%byte a' "000"%byte "000"%byte) as (-> & _);
      [| reflexivity].
    change (Byte.to_N "000") with 0%N. rewrite !N.mul_0_l, !N.add_0_r.
    apply sextets_inj.
    + pose proof (group_bound a "000"%byte "000"%byte) as Hb.
      change (Byte.to_N "000") with 0%N in Hb. rewrite !N.mul_0_l, !N.add_0_r in Hb. exact Hb.
    + pose proof (group_bound a' "000"%byte "000"%byte) as Hb.
      change (Byte.to_N "000") with 0%N in Hb. rewrite !N.mul_0_l, !N.add_0_r in Hb. exact Hb.
    + unfold Base64.sextets.
      destruct (sextets_one_byte (Byte.to_N a)) as [-> ->].
      destruct (sextets_one_byte (Byte.to_N a')) as [-> ->].
      congruence.
  - destruct (group_inj a b "000"%byte a' b' "000"%byte) as (-> & -> & _);
      [| reflexivity].
    change (Byte.to_N "000") with 0%N. rewrite !N.add_0_r.
    apply sextets_inj.
    + pose proof (group_bound a b "000"%byte) as Hb.
      change (Byte.to_N "000") with 0%N in Hb. rewrite !N.add_0_r in Hb. exact Hb.
    + pose proof (group_bound a' b' "000"%byte) as Hb.
      change (Byte.to_N "000") with 0%N in Hb. rewrite !N.add_0_r in Hb. exact Hb.
    + unfold Base64.sextets.
      rewrite (sextets_two_bytes (Byte.to_N a) (Byte.to_N b)).
      rewrite (sextets_two_bytes (Byte.to_N a') (Byte.to_N b')).
      congruence.
  - match goal with
    | Hrest : Base64.b64encode _ = Base64.b64encode _ |- _ => apply IH in Hrest; subst l2
    end.
    destruct (group_inj a b c a' b' c') as (-> & -> & ->); [| reflexivity].
    apply sextets_inj; [apply group_bound .. |].
    unfold Base64.sextets. congruence.
Qed.

Ltac Zify.zify_post_hook ::= idtac.

(** ** Base64 text reads back *)

Lemma sextet_value_char (n : N) :
  (n < 64)%N -> Base64.sextet_value (Base64.sextet_char n) = Some n.
Proof.
  intros Hn.
  pose (ok := fun n => match Base64.sextet_value (Base64.sextet_char n) with
                       | Some m => N.eqb m n
                       | None => false
                       end).
  assert (H : ok n = true)
    by (apply (below_by_cases 64 ok); [vm_compute; reflexivity | exact Hn]).
  unfold ok in H. destruct (Base64.sextet_value _) as [m |]; [| discriminate].
  apply N.eqb_eq in H. congruence.
Qed.

Lemma byte_of_N_to_N (b : byte) : Base64.byte_of_N (Byte.to_N b) = b.
Proof. destruct b; reflexivity. Qed.

Ltac Zify.zify_post_hook ::= Z.to_euclidean_division_equations.

(** The bytes of a group, from the group. *)
Lemma group_bytes (a b c : N) :
  (a < 256)%N -> (b < 256)%N -> (c < 256)%N ->
  let n := (a * 65536 + b * 256 + c)%N in
  (n / 65536 = a /\ (n / 256) mod 256 = b /\ n mod 256 = c)%N.
Proof. intros Ha Hb Hc n. subst n. repeat split; lia. Qed.

Lemma two_byte_group (a b : N) :
  (a < 256)%N -> (b < 256)%N ->
  let n := (a * 65536 + b * 256)%N in
  (((n / 64) mod 64) mod 4 = 0
   /\ (n / 262144) mod 64 * 262144 + (n / 4096) mod 64 * 4096 + (n / 64) mod 64 * 64 = n)%N.
Proof. intros Ha Hb n. subst n. split; lia. Qed.

Lemma one_byte_group (a : N) :
  (a < 256)%N ->
  let n := (a * 65536)%N in
  (((n / 4096) mod 64) mod 16 = 0
   /\ (n / 262144) mod 64 * 262144 + (n / 4096) mod 64 * 4096 = n)%N.
Proof. intros Ha n. subst n. split; lia. Qed.

Ltac Zify.zify_post_hook ::= idtac.

Lemma b64decode_encode (bs : list byte) :
  Base64.b64decode (Base64.b64encode bs) = Some bs.
Proof.
  induction bs as [| a | a b | a b c l IH] using list_ind3.
  - reflexivity.
  - pose proof (byte_to_N_bound a) as Ha.
    destruct (one_byte_group (Byte.to_N a) Ha) as [Hbits Hsum].
    cbn [Base64.b64encode]. unfold Base64.sextets. cbv beta iota zeta.
    cbn [Base64.b64decode].
    rewrite !sextet_value_char by (apply N.mod_lt; discriminate).
    change (Base64.sextet_value Base64.pad) with (@None N).
    change (Base64.is_pad Base64.pad) with true. cbv beta iota zeta.
    rewrite Hbits, Hsum. cbn [andb N.eqb].
    destruct (group_bytes (Byte.to_N a) 0 0 Ha) as (E & _); [reflexivity .. |].
    rewrite !N.mul_0_l, !N.add_0_r in E. rewrite E, byte_of_N_to_N. reflexivity.
  - pose proof (byte_to_N_bound a) as Ha. pose proof (byte_to_N_bound b) as Hb.
    destruct (two_byte_group (Byte.to_N a) (Byte.to_N b) Ha Hb) as [Hbits Hsum].
    cbn [Base64.b64encode]. unfold Base64.sextets. cbv beta iota zeta.
    cbn [Base64.b64decode].
    rewrite !sextet_value_char by (apply N.mod_lt; discriminate).
    change (Base64.sextet_value Base64.pad) with (@None N).
    change (Base64.is_pad Base64.pad) with true. cbv beta iota zeta.
    rewrite Hbits, Hsum. cbn [andb N.eqb].
    destruct (group_bytes (Byte.to_N a) (Byte.to_N b) 0 Ha Hb) as (E1 & E2 & _);
      [reflexivity |].
    rewrite !N.add_0_r in E1, E2. rewrite E1, E2, !byte_of_N_to_N. reflexivity.
  - pose proof (byte_to_N_bound a) as Ha. pose proof (byte_to_N_bound b) as Hb.
    pose proof (byte_to_N_bound c) as Hc.
    pose proof (sextets_sum _ (group_bound a b c)) as Hsum. unfold Base64.sextets in Hsum.
    cbn [Base64.b64encode]. unfold Base64.sextets. cbv beta iota zeta.
    cbn [Base64.b64decode].
    rewrite !sextet_value_char by (apply N.mod_lt; discriminate).
    cbv beta iota zeta. rewrite IH, <- Hsum.
    destruct (group_bytes (Byte.to_N a) (Byte.to_N b) (Byte.to_N c) Ha Hb Hc)
      as (E1 & E2 & E3).
    rewrite E1, E2, E3, !byte_of_N_to_N. reflexivity.
Qed.

(** What [b64_of_str] returns reads back as the UTF-8 bytes of its
    argument. *)
Lemma bytes_of_b64_of_str (s : string) :
  Base64.bytes_of_b64 (Base64.b64_of_str s) = Some (Base64.encode_utf8 s).
Proof.
  unfold Base64.bytes_of_b64, Base64.b64_of_str, Base64.decode_ascii.
  rewrite list_byte_of_string_of_list_byte. apply b64decode_encode.
Qed.

(** ** Timestamps *)

Lemma digit_value_char (d : Z) : 0 <= d <= 9 -> digit_value (Datetime.digit_char d) = d.
Proof.
  intros Hd. unfold digit_value, Datetime.digit_char.
  rewrite N_ascii_embedding by lia. lia.
Qed.

Lemma digit_char_isdigit (d : Z) : 0 <= d <= 9 -> Py.isdigit_char (Datetime.digit_char d) = true.
Proof.
  intros Hd. unfold Py.isdigit_char, Datetime.digit_char. cbv zeta.
  rewrite N_ascii_embedding by lia.
  replace (48 <=? 48 + Z.to_N d)%N with true by (symmetry; apply N.leb_le; lia).
  replace (48 + Z.to_N d <=? 57)%N with true by (symmetry; apply N.leb_le; lia).
  reflexivity.
Qed.

Lemma digit_char_ascii (d : Z) :
  0 <= d <= 9 -> (N_of_ascii (Datetime.digit_char d) < 128)%N.
Proof.
  intros Hd. unfold Datetime.digit_char. rewrite N_ascii_embedding by lia. lia.
Qed.

Ltac Zify.zify_post_hook ::= Z.to_euclidean_division_equations.

Lemma tens_digit (n : Z) : 0 <= n -> 0 <= n / 10 mod 10 <= 9.
Proof. intros. lia. Qed.

Lemma units_digit (n : Z) : 0 <= n -> 0 <= n mod 10 <= 9.
Proof. intros. lia. Qed.

Lemma two_digits_value (n : Z) : 0 <= n < 100 -> 10 * (n / 10 mod 10) + n mod 10 = n.
Proof. intros. lia. Qed.

Lemma four_digits_split (n : Z) :
  0 <= n < 10000 -> 0 <= n / 100 < 100 /\ 0 <= n mod 100 < 100 /\ 100 * (n / 100) + n mod 100 = n.
Proof. intros. lia. Qed.

(** The time of day. *)
Lemma time_of_day (sod : Z) :
  0 <= sod < 86400 ->
  0 <= sod / 3600 < 24 /\ 0 <= sod mod 3600 / 60 < 60 /\ 0 <= sod mod 60 < 60
  /\ sod / 3600 * 3600 + sod mod 3600 / 60 * 60 + sod mod 60 = sod.
Proof. intros. lia. Qed.

Lemma day_and_second (local : Z) :
  0 <= local < 253402300800 ->
  0 <= local / 86400 < 2932897 /\ 0 <= local mod 86400 < 86400
  /\ local / 86400 * 86400 + local mod 86400 = local.
Proof. intros. lia. Qed.

Ltac Zify.zify_post_hook ::= idtac.

Lemma read_two_digits (n : Z) :
  0 <= n < 100 ->
  10 * (10 * 0 + digit_value (Datetime.digit_char (n / 10 mod 10)))
    + digit_value (Datetime.digit_char (n mod 10)) = n.
Proof.
  intros Hn.
  rewrite !digit_value_char by (apply tens_digit || apply units_digit; lia).
  pose proof (two_digits_value n Hn). lia.
Qed.

Lemma read_four_digits (n : Z) :
  0 <= n < 10000 ->
  10 * (10 * (10 * (10 * 0 + digit_value (Datetime.digit_char (n / 100 / 10 mod 10)))
              + digit_value (Datetime.digit_char (n / 100 mod 10)))
        + digit_value (Datetime.digit_char (n mod 100 / 10 mod 10)))
    + digit_value (Datetime.digit_char (n mod 100 mod 10)) = n.
Proof.
  intros Hn. destruct (four_digits_split n Hn) as (Hhi & Hlo & Hsum).
  rewrite !digit_value_char by (apply tens_digit || apply units_digit; lia).
  pose proof (two_digits_value _ Hhi). pose proof (two_digits_value _ Hlo). lia.
Qed.

Lemma days_in_month_le_31 (y m : Z) : Datetime.days_in_month y m <= 31.
Proof.
  unfold Datetime.days_in_month, Datetime.DAYS_IN_MONTH.
  destruct (_ && _); [lia |].
  destruct (Z.to_nat m) as [| [| [| [| [| [| [| [| [| [| [| [| [| [| k]]]]]]]]]]]]]];
    cbn; lia.
Qed.

(** A timestamp spells its fields. *)
Lemma read_strftime (f : Z * Z * Z * Z * Z * Z) :
  fields_in_range f -> read_timestamp (Datetime.strftime_compact f) = f.
Proof.
  destruct f as [[[[[y m] d] hh] mm] ss]. intros (Hy & Hm & Hd & Hhh & Hmm & Hss).
  pose proof (days_in_month_le_31 y m).
  unfold read_timestamp, Datetime.strftime_compact, Datetime.four_digits, Datetime.two_digits.
  cbv [String.append substring read_decimal].
  rewrite (read_four_digits y) by lia.
  rewrite !read_two_digits by lia.
  reflexivity.
Qed.

Lemma strftime_length (f : Z * Z * Z * Z * Z * Z) :
  String.length (Datetime.strftime_compact f) = 14%nat.
Proof. destruct f as [[[[[y m] d] hh] mm] ss]. reflexivity. Qed.

(** The fields are the civil time of the instant, three hours east of UTC. *)
Lemma nairobi_fields_civil (secs : Z) :
  0 <= secs -> secs + Datetime.EAT_OFFSET < Datetime.MAX_LOCAL ->
  fields_in_range (Datetime.nairobi_fields secs)
  /\ let '(y, m, d, hh, mm, ss) := Datetime.nairobi_fields secs in
     (Datetime.ymd2ord y m d - Datetime.EPOCH_ORDINAL) * 86400
       + hh * 3600 + mm * 60 + ss = secs + Datetime.EAT_OFFSET.
Proof.
  unfold Datetime.EAT_OFFSET, Datetime.MAX_LOCAL. intros Hsecs Hmax.
  unfold Datetime.nairobi_fields, Datetime.EAT_OFFSET. cbv zeta.
  destruct (day_and_second (secs + 10800)) as (Hdays & Hsod & Hsum); [lia |].
  pose proof (civil_date _ Hdays) as Hdate.
  destruct (Datetime.ord2ymd _) as [[y m] d].
  destruct Hdate as (Hord & Hy & Hm & Hd).
  destruct (time_of_day _ Hsod) as (Hhh & Hmm & Hss & Htime).
  unfold fields_in_range. repeat split; try lia.
Qed.

Lemma nairobi_fields_inj (s1 s2 : Z) :
  0 <= s1 -> s1 + Datetime.EAT_OFFSET < Datetime.MAX_LOCAL ->
  0 <= s2 -> s2 + Datetime.EAT_OFFSET < Datetime.MAX_LOCAL ->
  Datetime.nairobi_fields s1 = Datetime.nairobi_fields s2 -> s1 = s2.
Proof.
  intros H1 H1' H2 H2' Heq.
  destruct (nairobi_fields_civil s1 H1 H1') as [_ E1].
  destruct (nairobi_fields_civil s2 H2 H2') as [_ E2].
  rewrite Heq in E1. destruct (Datetime.nairobi_fields s2) as [[[[[y m] d] hh] mm] ss]. lia.
Qed.

(** Different seconds give different timestamps. *)
Lemma timestamp_inj (s1 s2 : Z) :
  0 <= s1 -> s1 + Datetime.EAT_OFFSET < Datetime.MAX_LOCAL ->
  0 <= s2 -> s2 + Datetime.EAT_OFFSET < Datetime.MAX_LOCAL ->
  Datetime.strftime_compact (Datetime.nairobi_fields s1)
    = Datetime.strftime_compact (Datetime.nairobi_fields s2) ->
  s1 = s2.
Proof.
  intros H1 H1' H2 H2' Heq. apply nairobi_fields_inj; try assumption.
  rewrite <- (read_strftime (Datetime.nairobi_fields s1))
    by (apply nairobi_fields_civil; assumption).
  rewrite <- (read_strftime (Datetime.nairobi_fields s2))
    by (apply nairobi_fields_civil; assumption).
  rewrite Heq. reflexivity.
Qed.

(** ** Passwords *)

Lemma decode_ascii_inj (l1 l2 : list byte) :
  Base64.decode_ascii l1 = Base64.decode_ascii l2 -> l1 = l2.
Proof.
  unfold Base64.decode_ascii. intros H.
  apply (f_equal list_byte_of_string) in H.
  rewrite !list_byte_of_string_of_list_byte in H. exact H.
Qed.

Lemma encode_utf8_app (s1 s2 : string) :
  Base64.encode_utf8 (s1 ++ s2) = (Base64.encode_utf8 s1 ++ Base64.encode_utf8 s2)%list.
Proof.
  induction s1 as [| c s1 IH]; [reflexivity |].
  change (String c s1 ++ s2) with (String c (s1 ++ s2)).
  cbn [Base64.encode_utf8]. rewrite IH. apply app_assoc.
Qed.

Lemma byte_of_ascii_inj (c1 c2 : ascii) : byte_of_ascii c1 = byte_of_ascii c2 -> c1 = c2.
Proof.
  intros H. apply (f_equal ascii_of_byte) in H.
  rewrite !ascii_of_byte_of_ascii in H. exact H.
Qed.

Lemma encode_utf8_ascii_inj (s1 s2 : string) :
  Py.all_chars ascii7 s1 = true -> Py.all_chars ascii7 s2 = true ->
  Base64.encode_utf8 s1 = Base64.encode_utf8 s2 -> s1 = s2.
Proof.
  revert s2. induction s1 as [| c1 s1 IH]; intros [| c2 s2] H1 H2 H;
    cbn [Py.all_chars] in H1, H2.
  - reflexivity.
  - apply andb_prop in H2 as [Hc2 _]. cbn [Base64.encode_utf8] in H.
    unfold Base64.utf8_char, ascii7 in *. rewrite Hc2 in H. discriminate.
  - apply andb_prop in H1 as [Hc1 _]. cbn [Base64.encode_utf8] in H.
    unfold Base64.utf8_char, ascii7 in *. rewrite Hc1 in H. discriminate.
  - apply andb_prop in H1 as [Hc1 H1]. apply andb_prop in H2 as [Hc2 H2].
    cbn [Base64.encode_utf8] in H. unfold Base64.utf8_char, ascii7 in *.
    rewrite Hc1, Hc2 in H. injection H as Hc Hrest.
    apply byte_of_ascii_inj in Hc. subst c2. f_equal. apply IH; assumption.
Qed.

Lemma digit_char_ascii7 (n : Z) : ascii7 (Datetime.digit_char (n mod 10)) = true.
Proof.
  unfold ascii7. apply N.ltb_lt. apply digit_char_ascii.
  pose proof (Z.mod_pos_bound n 10 ltac:(reflexivity)). lia.
Qed.

Lemma strftime_ascii (f : Z * Z * Z * Z * Z * Z) :
  Py.all_chars ascii7 (Datetime.strftime_compact f) = true.
Proof.
  destruct f as [[[[[y m] d] hh] mm] ss].
  unfold Datetime.strftime_compact, Datetime.four_digits, Datetime.two_digits.
  cbv [String.append Py.all_chars]. rewrite !digit_char_ascii7. reflexivity.
Qed.

(** A timestamp is made of decimal digits. *)
Lemma strftime_isdigit (f : Z * Z * Z * Z * Z * Z) :
  Py.isdigit (Datetime.strftime_compact f) = true.
Proof.
  destruct f as [[[[[y m] d] hh] mm] ss].
  unfold Py.isdigit, Datetime.strftime_compact, Datetime.four_digits, Datetime.two_digits.
  cbv [String.append Py.all_chars String.length Nat.eqb negb andb].
  rewrite !digit_char_isdigit
    by (match goal with
        | |- 0 <= ?n mod 10 <= 9 =>
            pose proof (Z.mod_pos_bound n 10 ltac:(reflexivity)); lia
        end).
  reflexivity.
Qed.

Lemma append_inv_head (s a b : string) : s ++ a = s ++ b -> a = b.
Proof.
  induction s as [| c s IH]; [trivial |].
  change (String c s ++ a) with (String c (s ++ a)).
  change (String c s ++ b) with (String c (s ++ b)).
  intros H. injection H as H. apply IH, H.
Qed.

Lemma b64_of_str_utf8 (s1 s2 : string) :
  Base64.b64_of_str s1 = Base64.b64_of_str s2 ->
  Base64.encode_utf8 s1 = Base64.encode_utf8 s2.
Proof. unfold Base64.b64_of_str. intros H. apply decode_ascii_inj, b64encode_inj in H. exact H. Qed.

Lemma generate_mpesa_credentials_eq (cfg : config) (w : world) :
  Z.of_N (now_us w / 1000000) + Datetime.EAT_OFFSET < Datetime.MAX_LOCAL ->
  generate_mpesa_credentials cfg w =
    (Return (mpesa_credentials_at cfg (Z.of_N (now_us w / 1000000))),
     [EvLog INFO LOG_GENERATED
        [JStr (fst (mpesa_credentials_at cfg (Z.of_N (now_us w / 1000000))))]]).
Proof.
  intros Hclock. apply Z.ltb_lt in Hclock.
  unfold generate_mpesa_credentials.
  cbv beta iota zeta delta [bind ask ret log emit raise]. rewrite Hclock. reflexivity.
Qed.

(** C6.  With the clock between the epoch and the end of the year 9999,
    [generate_mpesa_credentials] returns [(timestamp, password)] and logs
    the timestamp.  The password is the Base64 text of short code, passkey
    and timestamp put together: read back by the table of RFC 4648 it gives
    the UTF-8 bytes of the three.  The timestamp has 14 characters, all
    digits, and spells, as YYYYMMDDHHmmss, a date and time of day in range
    whose distance from 1970-01-01 00:00:00 is the clock's whole seconds plus
    three hours: the civil time of Nairobi.  Two readings of the clock in the
    same second give the same pair; readings in different seconds give
    different timestamps and different passwords. *)
Theorem credentials_follow_the_clock (cfg : config) (w1 w2 : world) :
  let secs (w : world) := Z.of_N (now_us w / 1000000) in
  let timestamp (w : world) := Datetime.strftime_compact (Datetime.nairobi_fields (secs w)) in
  let password (w : world) :=
    Base64.b64_of_str (BUSINESS_SHORT_CODE cfg ++ PASSKEY cfg ++ timestamp w) in
  secs w1 + Datetime.EAT_OFFSET < Datetime.MAX_LOCAL ->
  secs w2 + Datetime.EAT_OFFSET < Datetime.MAX_LOCAL ->
  generate_mpesa_credentials cfg w1 =
    (Return (timestamp w1, password w1), [EvLog INFO LOG_GENERATED [JStr (timestamp w1)]])
  /\ Base64.bytes_of_b64 (password w1)
     = Some (Base64.encode_utf8 (BUSINESS_SHORT_CODE cfg ++ PASSKEY cfg ++ timestamp w1))
  /\ (String.length (timestamp w1) = 14%nat
      /\ Py.isdigit (timestamp w1) = true
      /\ read_timestamp (timestamp w1) = Datetime.nairobi_fields (secs w1)
      /\ fields_in_range (Datetime.nairobi_fields (secs w1))
      /\ let '(y, m, d, hh, mm, ss) := Datetime.nairobi_fields (secs w1) in
         (Datetime.ymd2ord y m d - Datetime.EPOCH_ORDINAL) * 86400
           + hh * 3600 + mm * 60 + ss = secs w1 + 3 * 3600)
  /\ (secs w1 = secs w2 ->
      fst (generate_mpesa_credentials cfg w1) = fst (generate_mpesa_credentials cfg w2))
  /\ (secs w1 <> secs w2 -> timestamp w1 <> timestamp w2 /\ password w1 <> password w2).
Proof.
  intros secs timestamp password H1 H2.
  assert (Hpos1 : 0 <= secs w1) by apply N2Z.is_nonneg.
  assert (Hpos2 : 0 <= secs w2) by apply N2Z.is_nonneg.
  destruct (nairobi_fields_civil (secs w1) Hpos1 H1) as [Hrange Hcivil].
  split; [apply generate_mpesa_credentials_eq; exact H1 |].
  split; [apply bytes_of_b64_of_str |].
  split; [| split].
  - split; [apply strftime_length |].
    split; [apply strftime_isdigit |].
    split; [apply read_strftime; exact Hrange |].
    split; [exact Hrange | exact Hcivil].
  - intros Hsame.
    rewrite (generate_mpesa_credentials_eq cfg w1 H1), (generate_mpesa_credentials_eq cfg w2 H2).
    cbn [fst]. fold (secs w1) (secs w2). rewrite Hsame. reflexivity.
  - intros Hdiff.
    assert (Hts : timestamp w1 <> timestamp w2).
    { intros Heq. apply Hdiff. apply timestamp_inj; assumption. }
    split; [exact Hts |].
    intros Heq. apply Hts. apply b64_of_str_utf8 in Heq.
    rewrite !encode_utf8_app in Heq. do 2 apply app_inv_head in Heq.
    apply encode_utf8_ascii_inj; [apply strftime_ascii .. | exact Heq].
Qed.

(** Three readings of the clock, through the theorem: two in one second,
    one in the next.  The password of the first is spelled out. *)
Lemma credentials_follow_the_clock_witness :
  Z.of_N (now_us quiet_world / 1000000) + Datetime.EAT_OFFSET < Datetime.MAX_LOCAL
  /\ fst (generate_mpesa_credentials sample_config quiet_world)
     = Return ("20240229235959", "MTc0Mzc5cGFzc2tleTIwMjQwMjI5MjM1OTU5")
  /\ Base64.bytes_of_b64 "MTc0Mzc5cGFzc2tleTIwMjQwMjI5MjM1OTU5"
     = Some (list_byte_of_string "174379passkey20240229235959")
  /\ fst (generate_mpesa_credentials sample_config quiet_world)
     = fst (generate_mpesa_credentials sample_config same_second_world)
  /\ Datetime.strftime_compact
       (Datetime.nairobi_fields (Z.of_N (now_us quiet_world / 1000000)))
     <> Datetime.strftime_compact
          (Datetime.nairobi_fields (Z.of_N (now_us next_second_world / 1000000))).
Proof.
  assert (H1 : Z.of_N (now_us quiet_world / 1000000) + Datetime.EAT_OFFSET
               < Datetime.MAX_LOCAL) by (vm_compute; reflexivity).
  assert (H2 : Z.of_N (now_us same_second_world / 1000000) + Datetime.EAT_OFFSET
               < Datetime.MAX_LOCAL) by (vm_compute; reflexivity).
  assert (H3 : Z.of_N (now_us next_second_world / 1000000) + Datetime.EAT_OFFSET
               < Datetime.MAX_LOCAL) by (vm_compute; reflexivity).
  split; [exact H1 |].
  destruct (credentials_follow_the_clock sample_config quiet_world same_second_world H1 H2)
    as (Hrun & Hreads & _ & Hsame & _).
  destruct (credentials_follow_the_clock sample_config quiet_world next_second_world H1 H3)
    as (_ & _ & _ & _ & Hdiff).
  split; [rewrite Hrun; vm_compute; reflexivity |].
  split; [exact Hreads |].
  split; [apply Hsame; vm_compute; reflexivity |].
  apply Hdiff. vm_compute. discriminate.
Defined.

(** * Further properties of the handlers *)

(** ** [initiate_stk_push] *)

(** X1.  [initiate_stk_push] reads the body before its [try] statement:
    when the request is not JSON, or is JSON but not an object, the call of
    [get_json] or of [data.get] raises, nothing is logged and the exception
    leaves the handler. *)
Theorem initiate_needs_an_object (cfg : config) (w : world) (req : flask_request) :
  (forall data, req <> JsonRequest (JDict data)) ->
  initiate_stk_push cfg req w =
    (Raise match req with
           | JsonRequest j => AttributeError (Py.type_name j) "get"
           | NotJsonRequest description => HTTPException description
           end,
     []).
Proof.
  intros Hreq. destruct req as [j | description]; [| reflexivity].
  destruct j; try reflexivity. destruct (Hreq d). reflexivity.
Qed.

(** A JSON list as body, through the theorem. *)
Lemma initiate_needs_an_object_witness :
  initiate_stk_push sample_config (JsonRequest (JList [])) quiet_world =
    (Raise (AttributeError "list" "get"), []).
Proof.
  apply (initiate_needs_an_object sample_config quiet_world (JsonRequest (JList []))).
  discriminate.
Defined.

(** X2.  The three validation steps run in a fixed order.  A falsy phone
    number or amount (0 among them) is answered "Phone number and amount are
    required."; otherwise a phone number that is not a string of the right
    shape is answered with the phone message, whatever the amount; only then
    is a wrong amount answered "Amount must be a positive integer.".  Each
    of the three answers is HTTP 400 and comes after two log records and
    nothing else. *)
Theorem validation_order (cfg : config) (w : world) (data : gmap string json) :
  let phone_number := match data !! "phoneNumber" with Some x => x | None => JNull end in
  let amount := match data !! "amount" with Some x => x | None => JNull end in
  let phone_ok := match phone_number with JStr phone => phone_format_ok phone | _ => false end in
  let rejection message warning args :=
    (Return (reply 400 [("success", JBool false); ("message", JStr message)]),
     [EvLog INFO LOG_RECEIVED [phone_number; amount]; EvLog WARNING warning args]) in
  (Py.truthy phone_number && Py.truthy amount = false ->
   initiate_stk_push cfg (JsonRequest (JDict data)) w = rejection MSG_REQUIRED LOG_MISSING [])
  /\ (Py.truthy phone_number && Py.truthy amount = true ->
      phone_ok = false ->
      initiate_stk_push cfg (JsonRequest (JDict data)) w
        = rejection MSG_BAD_PHONE LOG_BAD_PHONE [phone_number])
  /\ (Py.truthy phone_number && Py.truthy amount = true ->
      phone_ok = true ->
      amount_ok amount = false ->
      initiate_stk_push cfg (JsonRequest (JDict data)) w
        = rejection MSG_BAD_AMOUNT LOG_BAD_AMOUNT [amount]).
Proof.
  cbv zeta. rewrite initiate_stk_push_eq. cbv zeta.
  destruct (Py.truthy match data !! "phoneNumber" with Some x => x | None => JNull end);
    destruct (Py.truthy match data !! "amount" with Some x => x | None => JNull end);
    cbn [negb orb andb]; repeat split; try discriminate; try reflexivity.
  - intros _ H. destruct (match data !! "phoneNumber" with Some x => x | None => JNull end);
      try reflexivity. rewrite H. reflexivity.
  - intros _ H Hamount.
    destruct (match data !! "phoneNumber" with Some x => x | None => JNull end);
      try discriminate. rewrite H, Hamount. reflexivity.
Qed.

(** Amount 0, and a local phone number with a negative amount, through the
    theorem. *)
Lemma validation_order_witness :
  fst (initiate_stk_push sample_config
         (JsonRequest (JDict (list_to_map [("phoneNumber", JStr "254712345678");
                                           ("amount", JInt 0)])))
         quiet_world) =
    Return (reply 400 [("success", JBool false); ("message", JStr MSG_REQUIRED)])
  /\ fst (initiate_stk_push sample_config
            (JsonRequest (JDict (list_to_map [("phoneNumber", JStr "0712345678");
                                              ("amount", JInt (-5))])))
            quiet_world) =
       Return (reply 400 [("success", JBool false); ("message", JStr MSG_BAD_PHONE)]).
Proof.
  split.
  - destruct (validation_order sample_config quiet_world
                (list_to_map [("phoneNumber", JStr "254712345678"); ("amount", JInt 0)]))
      as (Hrequired & _).
    rewrite Hrequired; [reflexivity | vm_compute; reflexivity].
  - destruct (validation_order sample_config quiet_world
                (list_to_map [("phoneNumber", JStr "0712345678"); ("amount", JInt (-5))]))
      as (_ & Hphone & _).
    rewrite Hphone; [reflexivity | vm_compute; reflexivity ..].
Defined.

(** What the [try] statement of [initiate_stk_push] can come to: an answer
    with one of three statuses, after the token request alone or after the
    token request and one payment request. *)
Lemma network_stage_outcome (cfg : config) (w : world) (phone : string) (amount : json) :
  exists resp tr,
    try_except (stk_push_body cfg phone amount) stk_push_handler w = (Return resp, tr)
    /\ (resp_status resp = 200 \/ resp_status resp = 400 \/ resp_status resp = 500)
    /\ (network_events tr = [EvGet (OAUTH_URL cfg) (basic_auth_headers cfg)]
        \/ exists payload headers,
             network_events tr = [EvGet (OAUTH_URL cfg) (basic_auth_headers cfg);
                                  EvPost (STKPUSH_URL cfg) payload headers]).
Proof.
  unfold try_except. rewrite stk_push_body_eq.
  destruct (get_access_token_shape cfg w) as (tok & lvl & msg & args & -> & _).
  cbv zeta.
  destruct (negb (Py.truthy tok)); [solve [cbn; eauto 10] |].
  destruct (_ <? _); [| solve [cbn; eauto 10]].
  destruct (Py.int_of_str (BUSINESS_SHORT_CODE cfg)); [| solve [cbn; eauto 10]].
  destruct (Py.int_of_str phone); [| solve [cbn; eauto 10]].
  destruct (http_post w _ _ _) as [detail | r]; [solve [cbn; eauto 12] |].
  destruct ((400 <=? status_code r) && (status_code r <? 600)); [solve [cbn; eauto 12] |].
  destruct (json_body r) as [j |];
    [| destruct (json_over_limit r); solve [cbn; eauto 12]].
  destruct j as [| | | | | | d]; try solve [cbn; eauto 12].
  rewrite interpret_stk_response_eq. cbv zeta.
  destruct (Py.eq_str _ _); solve [cbn; eauto 12].
Qed.


(** X5.  The outbound calls of one request are: none; the token request
    alone; or the token request followed by one payment request to
    [STKPUSH_URL].  Nothing is retried, and nothing is posted without a
    token request before it. *)
Theorem initiate_outbound_calls (cfg : config) (w : world) (data : gmap string json) :
  let calls := network_events (snd (initiate_stk_push cfg (JsonRequest (JDict data)) w)) in
  calls = []
  \/ calls = [EvGet (OAUTH_URL cfg) (basic_auth_headers cfg)]
  \/ exists payload headers,
       calls = [EvGet (OAUTH_URL cfg) (basic_auth_headers cfg);
                EvPost (STKPUSH_URL cfg) payload headers].
Proof.
  cbv zeta. rewrite initiate_stk_push_eq. cbv zeta.
  destruct (negb (Py.truthy _) || negb (Py.truthy _)); [left; reflexivity |].
  destruct (match data !! "phoneNumber" with Some x => x | None => JNull end)
    as [| | | | phone | |]; try (left; reflexivity).
  destruct (negb (phone_format_ok phone)); [left; reflexivity |].
  destruct (negb (amount_ok _)); [left; reflexivity |].
  destruct (network_stage_outcome cfg w phone
              match data !! "amount" with Some x => x | None => JNull end)
    as (resp & tr & -> & _ & Hcalls).
  right. exact Hcalls.
Qed.

(** X3.  The token request is made exactly when validation passes: the
    phone number is a string of the right shape and the amount is a positive
    [int] or [true]. *)
Theorem token_requested_iff_valid (cfg : config) (w : world) (data : gmap string json) :
  network_events (snd (initiate_stk_push cfg (JsonRequest (JDict data)) w)) <> []
  <-> exists phone,
        data !! "phoneNumber" = Some (JStr phone)
        /\ phone_format_ok phone = true
        /\ ((exists z, data !! "amount" = Some (JInt z) /\ 0 < z)
            \/ data !! "amount" = Some (JBool true)).
Proof.
  rewrite initiate_stk_push_eq. cbv zeta. split.
  - intros Hcalls.
    destruct (data !! "phoneNumber") as [phone_number |] eqn:Hphone;
      [| destruct Hcalls; reflexivity].
    destruct (negb (Py.truthy phone_number) || negb (Py.truthy _)) eqn:Hpresent;
      [destruct Hcalls; reflexivity |].
    destruct phone_number as [| | | | phone | |]; try (destruct Hcalls; reflexivity).
    exists phone. split; [reflexivity |].
    destruct (phone_format_ok phone); [| destruct Hcalls; reflexivity].
    split; [reflexivity |]. cbn [negb] in Hcalls.
    destruct (amount_ok match data !! "amount" with Some x => x | None => JNull end)
      eqn:Hok; [| destruct Hcalls; reflexivity].
    apply amount_ok_iff in Hok.
    destruct (data !! "amount") as [amount |]; [| destruct Hok as [(z & Hz & _) | Hz]; discriminate].
    destruct Hok as [(z & -> & Hz) | ->]; eauto.
  - intros (phone & Hphone & Hformat & Hamount).
    assert (Hok : exists amount, data !! "amount" = Some amount /\ amount_ok amount = true).
    { destruct Hamount as [(z & Hz & Hpos) | Htrue]; eexists; (split; [eassumption |]).
      - apply amount_ok_iff. eauto.
      - reflexivity. }
    destruct Hok as (amount & Ham & Hok).
    rewrite Hphone, Ham, (phone_format_truthy _ Hformat), (amount_ok_truthy _ Hok).
    rewrite Hformat, Hok. cbn [negb orb].
    destruct (network_stage_outcome cfg w phone amount) as (resp & tr & -> & _ & Hcalls).
    cbn [snd]. change (network_events (EvLog INFO LOG_RECEIVED [JStr phone; amount] :: tr))
      with (network_events tr).
    destruct Hcalls as [-> | (payload & headers & ->)]; discriminate.
Qed.

Section Reached.

Variables (cfg : config) (w : world) (data : gmap string json).
Variables (phone : string) (amount access_token : json) (token_trace : list event).

Hypothesis Hphone : data !! "phoneNumber" = Some (JStr phone).
Hypothesis Hamount : data !! "amount" = Some amount.
Hypothesis Hformat : phone_format_ok phone = true.
Hypothesis Hamount_ok : amount_ok amount = true.
Hypothesis Htoken : get_access_token cfg w = (Return access_token, token_trace).
Hypothesis Htruthy : Py.truthy access_token = true.
Hypothesis Hclock : Z.of_N (now_us w / 1000000) + Datetime.EAT_OFFSET < Datetime.MAX_LOCAL.

(** X6.  When [int()] cannot read the short code or the phone number of a
    validated request (a phone number of superscript digits passes
    [isdigit()] and fails [int()]), the token has been fetched and the
    credentials generated already; the [ValueError] is caught by the last
    [except] clause, the answer is HTTP 500 "An unexpected server error
    occurred: ..." and nothing is posted. *)
Theorem unreadable_number_is_internal_error :
  Py.int_of_str (BUSINESS_SHORT_CODE cfg) = None \/ Py.int_of_str phone = None ->
  let literal :=
    match Py.int_of_str (BUSINESS_SHORT_CODE cfg) with
    | None => BUSINESS_SHORT_CODE cfg
    | Some _ => phone
    end in
  let timestamp :=
    Datetime.strftime_compact (Datetime.nairobi_fields (Z.of_N (now_us w / 1000000))) in
  initiate_stk_push cfg (JsonRequest (JDict data)) w =
    (Return (reply 500 [("success", JBool false);
                        ("message",
                         JStr ("An unexpected server error occurred: "
                               ++ str_exn w (ValueError_int_literal literal)))]),
     (EvLog INFO LOG_RECEIVED [JStr phone; amount]
        :: token_trace ++ [EvLog INFO LOG_GENERATED [JStr timestamp];
                           EvLog ERROR LOG_STK_UNEXPECTED []])%list).
Proof.
  intros Hfail. cbv zeta.
  rewrite (validated_proceeds cfg w data phone amount Hphone Hamount Hformat Hamount_ok).
  unfold try_except. rewrite stk_push_body_eq, Htoken, Htruthy. cbv zeta. cbn [negb].
  apply Z.ltb_lt in Hclock. rewrite Hclock.
  destruct (Py.int_of_str (BUSINESS_SHORT_CODE cfg)) as [short_code |].
  - destruct Hfail as [Hfail | Hfail]; [discriminate |]. rewrite Hfail. cbn. trace_eq.
  - cbn. trace_eq.
Qed.

End Reached.

Lemma ascii_digit_value (c : ascii) :
  ascii_digit c = true ->
  Py.decimal_char c = Some (digit_value c) /\ 0 <= digit_value c <= 9.
Proof.
  unfold ascii_digit, Py.decimal_char, digit_value. cbv zeta. intros H. rewrite H.
  apply andb_prop in H as [Hlo Hhi]. apply N.leb_le in Hlo, Hhi. split; [reflexivity | lia].
Qed.

Lemma int_digits_ascii (s : string) :
  Py.all_chars ascii_digit s = true ->
  forall acc seen,
    Py.int_digits s acc seen false = if seen || negb (String.length s =? 0)%nat
                                     then Some (read_decimal s acc) else None.
Proof.
  induction s as [| c s IH]; intros Hs acc seen.
  - cbn. destruct seen; reflexivity.
  - cbn [Py.all_chars] in Hs. apply andb_prop in Hs as [Hc Hs].
    cbn [Py.int_digits read_decimal String.length Nat.eqb negb].
    destruct (ascii_digit_value c Hc) as [-> _].
    rewrite (IH Hs). rewrite orb_true_r. reflexivity.
Qed.

Lemma count_decimal_le (s : string) : (Py.count_decimal s <= String.length s)%nat.
Proof.
  induction s as [| c s IH]; cbn [Py.count_decimal String.length]; [lia |].
  destruct (Py.decimal_char c); lia.
Qed.

Lemma int_of_str_digit_head (c : ascii) (s : string) :
  ascii_digit c = true ->
  (String.length (String c s) <= Py.MAX_STR_DIGITS)%nat ->
  Py.int_of_str (String c s) = Py.int_digits (String c s) 0 false false.
Proof.
  intros Hc Hlen. unfold Py.int_of_str.
  pose proof (count_decimal_le (String c s)) as Hcount.
  destruct (Nat.leb_spec (Py.count_decimal (String c s)) Py.MAX_STR_DIGITS) as [_ | Hgt];
    [| lia].
  destruct c as [[] [] [] [] [] [] [] []]; try (vm_compute in Hc; discriminate Hc);
    reflexivity.
Qed.

(** A string of ASCII digits, not longer than [int()] allows, is read as the
    number it spells. *)
Lemma int_of_str_ascii (s : string) :
  Py.all_chars ascii_digit s = true -> s <> "" ->
  (String.length s <= Py.MAX_STR_DIGITS)%nat ->
  Py.int_of_str s = Some (read_decimal s 0).
Proof.
  intros Hs Hne Hlen. destruct s as [| c s]; [congruence |].
  pose proof Hs as Hs'. cbn [Py.all_chars] in Hs'. apply andb_prop in Hs' as [Hc _].
  rewrite (int_of_str_digit_head c s Hc Hlen), (int_digits_ascii _ Hs). reflexivity.
Qed.

(** A phone number of the accepted shape has twelve characters, far fewer
    than [int()] allows. *)
Lemma phone_format_length (phone : string) :
  phone_format_ok phone = true ->
  phone <> "" /\ (String.length phone <= Py.MAX_STR_DIGITS)%nat.
Proof.
  intros Hformat. split; [intros ->; discriminate Hformat |].
  unfold phone_format_ok in Hformat.
  apply andb_prop in Hformat as [Hformat _]. apply andb_prop in Hformat as [_ Hlen].
  apply Nat.eqb_eq in Hlen. rewrite Hlen. apply Nat.leb_le. vm_compute. reflexivity.
Qed.

(** X7.  A phone number that passes validation and is made of ASCII
    digits is read by [int()] without error, as a number between
    254100000000 and 254199999999 or between 254700000000 and
    254799999999. *)
Theorem ascii_phone_is_a_number (phone : string) :
  phone_format_ok phone = true ->
  Py.all_chars ascii_digit phone = true ->
  exists n,
    Py.int_of_str phone = Some n
    /\ (254100000000 <= n <= 254199999999 \/ 254700000000 <= n <= 254799999999).
Proof.
  intros Hformat Hdigits. exists (read_decimal phone 0).
  destruct (phone_format_length phone Hformat) as [Hne Hshort].
  split; [apply int_of_str_ascii; assumption |].
  unfold phone_format_ok in Hformat.
  apply andb_prop in Hformat as [Hformat _]. apply andb_prop in Hformat as [Hprefix Hlen].
  apply Nat.eqb_eq in Hlen.
  destruct phone as [| c1 [| c2 [| c3 [| c4 [| c5 [| c6 [| c7 [| c8 [| c9 [| c10 [| c11
    [| c12 [| c13 phone]]]]]]]]]]]]]; try discriminate Hlen.
  cbn [Py.all_chars] in Hdigits.
  repeat match goal with
         | H : _ && _ = true |- _ => apply andb_prop in H as [? H]
         end.
  repeat match goal with
         | H : ascii_digit ?c = true |- _ =>
             apply ascii_digit_value in H; destruct H as [_ H]
         end.
  unfold Py.startswith in Hprefix. cbn [String.prefix] in Hprefix.
  cbn [read_decimal].
  destruct (ascii_dec "2" c1) as [<- |]; [| discriminate Hprefix].
  destruct (ascii_dec "5" c2) as [<- |]; [| discriminate Hprefix].
  destruct (ascii_dec "4" c3) as [<- |]; [| discriminate Hprefix].
  change (digit_value "2") with 2. change (digit_value "5") with 5.
  change (digit_value "4") with 4.
  destruct (ascii_dec "7" c4) as [<- |].
  - change (digit_value "7") with 7. right. lia.
  - destruct (ascii_dec "1" c4) as [<- |]; [| discriminate Hprefix].
    change (digit_value "1") with 1. left. lia.
Qed.

(** The sample phone number, through the theorem. *)
Lemma ascii_phone_is_a_number_witness :
  phone_format_ok "254712345678" = true
  /\ exists n, Py.int_of_str "254712345678" = Some n
               /\ (254100000000 <= n <= 254199999999 \/ 254700000000 <= n <= 254799999999).
Proof.
  split; [reflexivity |].
  apply (ascii_phone_is_a_number "254712345678"); reflexivity.
Defined.

(** The fields of the payload. *)
Lemma stk_payload_fields (cfg : config) (short_code : Z) (password timestamp : string)
    (amount : json) (party_a party_b phone : Z) :
  exists fields,
    stk_payload cfg short_code password timestamp amount party_a party_b phone = JDict fields
    /\ fields !! "BusinessShortCode" = Some (JInt short_code)
    /\ fields !! "Password" = Some (JStr password)
    /\ fields !! "Timestamp" = Some (JStr timestamp)
    /\ fields !! "TransactionType" = Some (JStr (TRANSACTION_TYPE cfg))
    /\ fields !! "Amount" = Some amount
    /\ fields !! "PartyA" = Some (JInt party_a)
    /\ fields !! "PartyB" = Some (JInt party_b)
    /\ fields !! "PhoneNumber" = Some (JInt phone)
    /\ fields !! "CallBackURL" = Some (JStr (CALLBACK_URL cfg))
    /\ fields !! "AccountReference" = Some (JStr (ACCOUNT_REFERENCE cfg))
    /\ fields !! "TransactionDesc" = Some (JStr (TRANSACTION_DESC cfg))
    /\ size fields = 11%nat.
Proof. eexists. split; [reflexivity |]. repeat split; vm_compute; reflexivity. Qed.

(** Closes a goal that splits a trace at the payment request. *)
Ltac posted_shape :=
  cbv beta zeta; do 2 eexists;
  split; [f_equal; cbn [app]; f_equal; rewrite <- app_assoc; reflexivity | reflexivity].

Section PostedRequest.

Variables (cfg : config) (w : world) (data : gmap string json).
Variables (phone : string) (amount access_token : json).
Variables (token_trace : list event) (short_code party : Z).

Hypothesis Hphone : data !! "phoneNumber" = Some (JStr phone).
Hypothesis Hamount : data !! "amount" = Some amount.
Hypothesis Hformat : phone_format_ok phone = true.
Hypothesis Hamount_ok : amount_ok amount = true.
Hypothesis Htoken : get_access_token cfg w = (Return access_token, token_trace).
Hypothesis Htruthy : Py.truthy access_token = true.
Hypothesis Hclock : Z.of_N (now_us w / 1000000) + Datetime.EAT_OFFSET < Datetime.MAX_LOCAL.
Hypothesis Hshort_code : Py.int_of_str (BUSINESS_SHORT_CODE cfg) = Some short_code.
Hypothesis Hparty : Py.int_of_str phone = Some party.

Let timestamp : string :=
  Datetime.strftime_compact (Datetime.nairobi_fields (Z.of_N (now_us w / 1000000))).
Let password : string :=
  Base64.b64_of_str (BUSINESS_SHORT_CODE cfg ++ PASSKEY cfg ++ timestamp).
Let payload : json :=
  stk_payload cfg short_code password timestamp amount party short_code party.
Let headers : gmap string string :=
  bearer_headers match access_token with JStr s => s | _ => str_of w access_token end.

(** The trace of a posted request: what comes before the payment request,
    and that no outbound call comes after it. *)
Lemma posted_trace_split :
  exists res after,
    initiate_stk_push cfg (JsonRequest (JDict data)) w =
      (res, (EvLog INFO LOG_RECEIVED [JStr phone; amount]
               :: token_trace ++ [EvLog INFO LOG_GENERATED [JStr timestamp];
                                  EvLog INFO LOG_SENDING [payload];
                                  EvPost (STKPUSH_URL cfg) payload headers] ++ after)%list)
    /\ network_events after = [].
Proof.
  pose proof (posted_eq cfg w data phone amount access_token token_trace short_code party
                Hphone Hamount Hformat Hamount_ok Htoken Htruthy Hclock Hshort_code Hparty)
    as E.
  unfold mpesa_credentials_at in E. cbv zeta in E. cbn [fst snd] in E.
  fold timestamp password payload headers in E. rewrite E. clear E.
  destruct (http_post w _ _ _) as [detail | r]; [posted_shape |].
  destruct ((400 <=? status_code r) && (status_code r <? 600)); [posted_shape |].
  destruct (json_body r) as [j |]; [| destruct (json_over_limit r); posted_shape].
  destruct j as [| | | | | | d]; try posted_shape.
  rewrite interpret_stk_response_eq. cbv beta zeta.
  destruct (Py.eq_str _ _); posted_shape.
Qed.

(** X8.  The payload is logged before it is posted.  The trace of a request
    that reaches the payment endpoint is: the request record, the token
    fetch (whose one outbound call is the token request), the record of the
    credential generator, which holds the timestamp only, then the record
    [LOG_SENDING] with the whole payload at level INFO and directly after it
    the payment request with the same payload; no outbound call follows.
    The logged payload holds the password in its [Password] field. *)
Theorem payload_is_logged_with_password :
  exists res after,
    initiate_stk_push cfg (JsonRequest (JDict data)) w =
      (res, (EvLog INFO LOG_RECEIVED [JStr phone; amount]
               :: token_trace ++ [EvLog INFO LOG_GENERATED [JStr timestamp];
                                  EvLog INFO LOG_SENDING [payload];
                                  EvPost (STKPUSH_URL cfg) payload headers] ++ after)%list)
    /\ network_events token_trace = [EvGet (OAUTH_URL cfg) (basic_auth_headers cfg)]
    /\ network_events after = []
    /\ exists fields, payload = JDict fields /\ fields !! "Password" = Some (JStr password).
Proof.
  destruct posted_trace_split as (res & after & E & Hafter).
  exists res, after. split; [exact E |]. split; [| split; [exact Hafter |]].
  - destruct (get_access_token_shape cfg w) as (tok & lvl & msg & args & Eshape & _).
    rewrite Htoken in Eshape. injection Eshape as _ ->. reflexivity.
  - destruct (stk_payload_fields cfg short_code password timestamp amount
                party short_code party) as (fields & Efields & _ & Hpw & _).
    exists fields. split; assumption.
Qed.

(** X9.  The payload that is posted is coherent: its [Password] is the
    Base64 text of short code, passkey and its own [Timestamp] (read back by
    the table of RFC 4648 it gives the UTF-8 bytes of the three), and the
    [Timestamp] spells the Nairobi time of the clock; [PartyA] and
    [PhoneNumber] are both the phone number as an integer,
    [BusinessShortCode] and [PartyB] both the short code, and [Amount] is the
    amount of the request. *)
Theorem posted_payload_is_consistent :
  In (EvPost (STKPUSH_URL cfg) payload headers)
     (snd (initiate_stk_push cfg (JsonRequest (JDict data)) w))
  /\ exists fields stamp secret,
       payload = JDict fields
       /\ fields !! "Timestamp" = Some (JStr stamp)
       /\ fields !! "Password" = Some (JStr secret)
       /\ secret = Base64.b64_of_str (BUSINESS_SHORT_CODE cfg ++ PASSKEY cfg ++ stamp)
       /\ Base64.bytes_of_b64 secret
          = Some (Base64.encode_utf8 (BUSINESS_SHORT_CODE cfg ++ PASSKEY cfg ++ stamp))
       /\ read_timestamp stamp = Datetime.nairobi_fields (Z.of_N (now_us w / 1000000))
       /\ fields !! "PartyA" = Some (JInt party)
       /\ fields !! "PhoneNumber" = Some (JInt party)
       /\ fields !! "BusinessShortCode" = Some (JInt short_code)
       /\ fields !! "PartyB" = Some (JInt short_code)
       /\ fields !! "Amount" = Some amount.
Proof.
  split.
  - destruct posted_trace_split as (res & after & -> & _). cbn [snd].
    right. apply in_or_app. right. cbn. auto.
  - destruct (stk_payload_fields cfg short_code password timestamp amount
                party short_code party)
      as (fields & E & Hsc & Hpw & Hts & _ & Ham & Hpa & Hpb & Hpn & _).
    exists fields, timestamp, password. repeat split; try assumption.
    + apply bytes_of_b64_of_str.
    + apply read_strftime, nairobi_fields_civil; [apply N2Z.is_nonneg | exact Hclock].
Qed.

(** X11.  Once the payment request is posted, a transport failure is
    answered HTTP 500 "Network or API communication error: ...", and a JSON
    reply that is not an object (so has no [get]) is answered HTTP 500 "An
    unexpected server error occurred: ...". *)
Theorem failure_after_posting_is_internal_error :
  (forall detail,
     http_post w (STKPUSH_URL cfg) payload headers = Fails detail ->
     fst (initiate_stk_push cfg (JsonRequest (JDict data)) w) =
       Return (reply 500 [("success", JBool false);
                          ("message",
                           JStr ("Network or API communication error: "
                                 ++ str_exn w (RequestException detail)))]))
  /\ (forall r j,
        http_post w (STKPUSH_URL cfg) payload headers = Replies r ->
        (400 <=? status_code r) && (status_code r <? 600) = false ->
        json_body r = Some j ->
        (forall d, j <> JDict d) ->
        fst (initiate_stk_push cfg (JsonRequest (JDict data)) w) =
          Return (reply 500 [("success", JBool false);
                             ("message",
                              JStr ("An unexpected server error occurred: "
                                    ++ str_exn w (AttributeError (Py.type_name j) "get")))])).
Proof.
  pose proof (posted_eq cfg w data phone amount access_token token_trace short_code party
                Hphone Hamount Hformat Hamount_ok Htoken Htruthy Hclock Hshort_code Hparty)
    as E.
  unfold mpesa_credentials_at in E. cbv zeta in E. cbn [fst snd] in E.
  fold timestamp password payload headers in E. split.
  - intros detail Hpost. rewrite E, Hpost. reflexivity.
  - intros r j Hpost Hstatus Hbody Hj. rewrite E, Hpost, Hstatus, Hbody.
    destruct j; try reflexivity. destruct (Hj d). reflexivity.
Qed.

(** X12.  A rejection of the provider that carries no
    [ResponseDescription] is answered HTTP 400 with the default message
    "STK Push initiation failed due to an unknown M-Pesa error." and the
    provider's reply under [MpesaResponse]. *)
Theorem rejection_without_description (r : http_response) (d : gmap string json) :
  http_post w (STKPUSH_URL cfg) payload headers = Replies r ->
  (400 <=? status_code r) && (status_code r <? 600) = false ->
  json_body r = Some (JDict d) ->
  Py.eq_str match d !! "ResponseCode" with Some x => x | None => JNull end "0" = false ->
  d !! "ResponseDescription" = None ->
  fst (initiate_stk_push cfg (JsonRequest (JDict data)) w) =
    Return (reply 400 [("success", JBool false);
                       ("message", JStr MSG_UNKNOWN);
                       ("MpesaResponse", JDict d)]).
Proof.
  intros Hpost Hstatus Hbody Hcode Hdesc.
  pose proof (posted_eq cfg w data phone amount access_token token_trace short_code party
                Hphone Hamount Hformat Hamount_ok Htoken Htruthy Hclock Hshort_code Hparty)
    as E.
  unfold mpesa_credentials_at in E. cbv zeta in E. cbn [fst snd] in E.
  fold timestamp password payload headers in E.
  rewrite E, Hpost, Hstatus, Hbody, interpret_stk_response_eq. cbv beta zeta.
  rewrite Hcode, Hdesc. reflexivity.
Qed.

End PostedRequest.




(** ** [mpesa_callback] *)

(** The loop writes nothing to the trace. *)
Lemma collect_items_silent (w : world) (items : list json) :
  forall item_details, snd (collect_items items item_details w) = [].
Proof.
  induction items as [| item rest IH]; intros item_details; [reflexivity |].
  cbn [collect_items]. eff_step.
  destruct item as [| | | | | | fields]; try reflexivity. eff_step.
  destruct (Py.hash_key _) as [k |]; [| reflexivity].
  specialize (IH (<[k:=match fields !! "Value" with Some x => x | None => JNull end]>
                    item_details)).
  destruct (collect_items rest _ w) as [res tr]. cbn in IH. subst tr. reflexivity.
Qed.

(** The loop raises at the first item that is not an object or whose name
    cannot be a key. *)
Lemma collect_items_raises (w : world) (items : list json) :
  Exists (fun item => item_key item = None) items ->
  forall item_details, exists e, collect_items items item_details w = (Raise e, []).
Proof.
  induction items as [| item rest IH]; intros Hbad item_details.
  - inversion Hbad.
  - cbn [collect_items]. eff_step.
    destruct item as [| | | | | | fields]; try (eexists; reflexivity). eff_step.
    destruct (Py.hash_key match fields !! "Name" with Some x => x | None => JNull end)
      as [k |] eqn:Hk; [| eexists; reflexivity].
    apply Exists_cons in Hbad as [Hhead | Htail]; [cbn in Hhead; congruence |].
    destruct (IH Htail (<[k:=match fields !! "Value" with Some x => x | None => JNull end]>
                          item_details)) as (e & ->).
    eexists. reflexivity.
Qed.

(** When the loop returns, every item was storable and the result is the
    projection. *)
Lemma collect_items_returns (w : world) (items : list json) :
  forall item_details m tr,
    collect_items items item_details w = (Return m, tr) ->
    Forall (fun item => is_Some (item_key item)) items
    /\ m = project_items items item_details.
Proof.
  induction items as [| item rest IH]; intros item_details m tr E.
  - cbn in E. injection E as <- _. split; [constructor | reflexivity].
  - cbn [collect_items] in E. revert E. eff_step.
    destruct item as [| | | | | | fields]; try discriminate. eff_step.
    destruct (Py.hash_key match fields !! "Name" with Some x => x | None => JNull end)
      as [k |] eqn:Hk; [| discriminate].
    destruct (collect_items rest _ w) as [[m' | e] tr'] eqn:Erest; [| discriminate].
    intros E. injection E as <- _.
    destruct (IH _ _ _ Erest) as [Hall ->].
    split.
    + constructor; [cbn; rewrite Hk; eauto | exact Hall].
    + cbn [project_items fold_left item_key item_value]. rewrite Hk. reflexivity.
Qed.

(** Reading the metadata writes nothing to the trace either. *)
Lemma read_metadata_silent (w : world) (stk : gmap string json) :
  snd ((callback_metadata <- get_default (JDict stk) "CallbackMetadata" (dict []) ;;
        item_list <- get_default callback_metadata "Item" (JList []) ;;
        items <- iterate item_list ;;
        collect_items items ∅) w) = [].
Proof.
  eff_step. change (dict []) with (JDict ∅).
  destruct (match stk !! "CallbackMetadata" with Some x => x | None => JDict ∅ end)
    as [| | | | | | md]; eff_step; try reflexivity.
  destruct (match md !! "Item" with Some x => x | None => JList [] end)
    as [| | | | s | l | d]; unfold iterate; eff_step; try reflexivity;
    match goal with
    | |- context [collect_items ?l ∅ w] =>
        pose proof (collect_items_silent w l ∅) as Hsilent;
        destruct (collect_items l ∅ w) as [res tr]; cbn [snd] in Hsilent; subst tr;
        reflexivity
    end.
Qed.

(** X15.  [mpesa_callback] makes no outbound call, whatever the request. *)
Theorem callback_makes_no_request (w : world) (req : flask_request) :
  network_events (snd (mpesa_callback req w)) = [].
Proof.
  destruct req as [j | description]; [| reflexivity].
  destruct j as [| | | | | | data]; try reflexivity.
  rewrite mpesa_callback_eq. cbv zeta.
  destruct (match data !! "Body" with Some x => x | None => JDict ∅ end)
    as [| | | | | | body]; try reflexivity.
  destruct (match body !! "stkCallback" with Some x => x | None => JDict ∅ end)
    as [| | | | | | stk]; try reflexivity.
  destruct (Py.eq_zero _); [| reflexivity].
  pose proof (read_metadata_silent w stk) as Hsilent.
  match goal with
  | |- context [match ?m w with _ => _ end] =>
      destruct (m w) as [[item_details | e] tr]
  end; cbn [snd] in Hsilent; subst tr; reflexivity.
Qed.

(** X14.  A success callback with malformed metadata is not acknowledged
    as received: when [CallbackMetadata] is present but not an object, or
    when an item of its list is not an object or has an unhashable [Name],
    the handler answers the failure acknowledgement, HTTP 500. *)
Theorem malformed_metadata_is_a_failure (w : world) (data body stk : gmap string json)
    (code : json) :
  data !! "Body" = Some (JDict body) ->
  body !! "stkCallback" = Some (JDict stk) ->
  stk !! "ResultCode" = Some code ->
  Py.eq_zero code = true ->
  let failure e :=
    (Return (callback_failure w e),
     [EvLog INFO LOG_CALLBACK [JDict data];
      EvLog INFO LOG_PAID [match stk !! "CheckoutRequestID" with Some x => x | None => JNull end];
      EvLog ERROR LOG_CALLBACK_ERROR []]) in
  (forall v,
     stk !! "CallbackMetadata" = Some v -> (forall md, v <> JDict md) ->
     mpesa_callback (JsonRequest (JDict data)) w
       = failure (AttributeError (Py.type_name v) "get"))
  /\ (forall md items,
        stk !! "CallbackMetadata" = Some (JDict md) ->
        md !! "Item" = Some (JList items) ->
        Exists (fun item => item_key item = None) items ->
        exists e, mpesa_callback (JsonRequest (JDict data)) w = failure e).
Proof.
  intros Hbody Hstk Hcode Hzero failure. subst failure.
  rewrite mpesa_callback_eq. cbv zeta. rewrite Hbody, Hstk, Hcode, Hzero. split.
  - intros v Hmd Hv. eff_step. rewrite Hmd.
    destruct v; try reflexivity. destruct (Hv d). reflexivity.
  - intros md items Hmd Hitem Hbad. unfold iterate. eff_step. rewrite Hmd. eff_step.
    rewrite Hitem. eff_step.
    destruct (collect_items_raises w items Hbad ∅) as (e & ->).
    exists e. reflexivity.
Qed.

(** X16.  A success callback without [CallbackMetadata] is acknowledged
    with HTTP 200; the four details the handler reads are all [None]. *)
Theorem paid_callback_without_metadata (w : world) (data body stk : gmap string json)
    (code : json) :
  data !! "Body" = Some (JDict body) ->
  body !! "stkCallback" = Some (JDict stk) ->
  stk !! "ResultCode" = Some code ->
  Py.eq_zero code = true ->
  stk !! "CallbackMetadata" = None ->
  mpesa_callback (JsonRequest (JDict data)) w =
    (Return callback_ack,
     [EvLog INFO LOG_CALLBACK [JDict data];
      EvLog INFO LOG_PAID [match stk !! "CheckoutRequestID" with Some x => x | None => JNull end];
      EvLog INFO LOG_DETAILS [JNull; JNull; JNull; JNull]]).
Proof.
  intros Hbody Hstk Hcode Hzero Hmd.
  rewrite mpesa_callback_eq. cbv zeta. rewrite Hbody, Hstk, Hcode, Hzero.
  unfold iterate. eff_step. rewrite Hmd. reflexivity.
Qed.

(** The last item stored under a key, when there is one. *)
Lemma last_under_key (k : Py.key) (items : list json) :
  ~ Forall (fun item => item_key item <> Some k) items ->
  exists j item,
    items !! j = Some item /\ item_key item = Some k
    /\ forall j' item', (j < j')%nat -> items !! j' = Some item' -> item_key item' <> Some k.
Proof.
  induction items as [| first rest IH]; intros Hsome.
  - destruct Hsome. constructor.
  - destruct (decide (Forall (fun item => item_key item <> Some k) rest)) as [Hrest | Hrest].
    + destruct (decide (item_key first = Some k)) as [Hfirst | Hfirst].
      * exists 0%nat, first. split; [reflexivity |]. split; [exact Hfirst |].
        intros [| j'] item' Hlt Hj'; [lia |].
        exact (proj1 (Forall_lookup _ _) Hrest j' item' Hj').
      * destruct Hsome. constructor; assumption.
    + destruct (IH Hrest) as (j & item & Hj & Hk & Hlater).
      exists (S j), item. split; [exact Hj |]. split; [exact Hk |].
      intros [| j'] item' Hlt Hj'; [lia |]. apply (Hlater j'); [lia | exact Hj'].
Qed.

(** X17.  When the loop over the metadata items finishes, a key is absent
    from the mapping exactly when no item carries it; a detail that no item
    names reads as [None]. *)
Theorem stored_details (w : world) (items : list json) (m : gmap Py.key json)
    (tr : list event) :
  collect_items items ∅ w = (Return m, tr) ->
  (forall k, m !! k = None <-> Forall (fun item => item_key item <> Some k) items)
  /\ (forall name,
        Forall (fun item => item_key item <> Some (Py.KStr name)) items ->
        detail m name = JNull).
Proof.
  intros E. destruct (collect_items_returns w items ∅ m tr E) as [Hall ->].
  assert (Habsent : forall k, Forall (fun item => item_key item <> Some k) items ->
                              project_items items ∅ !! k = None).
  { intros k Hk. rewrite project_items_other by exact Hk. apply lookup_empty. }
  split.
  - intros k. split; [| apply Habsent].
    intros Hnone.
    destruct (decide (Forall (fun item => item_key item <> Some k) items)) as [H | H];
      [exact H |].
    destruct (last_under_key k items H) as (j & item & Hj & Hk & Hlater).
    rewrite (project_items_lookup items j item k ∅ Hj Hk Hlater) in Hnone. discriminate.
  - intros name Hname. unfold detail. rewrite Habsent by exact Hname. reflexivity.
Qed.

(** ** Concrete runs *)

Ltac sample_facts w :=
  assert (Hphone : sample_data !! "phoneNumber" = Some (JStr "254712345678"))
    by by_computation;
  assert (Hamount : sample_data !! "amount" = Some (JInt 10)) by by_computation;
  assert (Htoken : get_access_token sample_config w
                   = (Return (JStr "T0k3n"), token_granted_trace)) by by_computation;
  assert (Hclock : Z.of_N (now_us w / 1000000) + Datetime.EAT_OFFSET < Datetime.MAX_LOCAL)
    by by_computation.

(** The superscript phone number, through the theorem. *)
Lemma unreadable_number_is_internal_error_witness :
  phone_format_ok superscript_phone = true
  /\ Py.int_of_str superscript_phone = None
  /\ fst (initiate_stk_push sample_config (JsonRequest (JDict superscript_data)) quiet_world)
     = Return (reply 500 [("success", JBool false);
                          ("message",
                           JStr "An unexpected server error occurred: <exception>")]).
Proof.
  split; [reflexivity |]. split; [reflexivity |].
  assert (Hphone : superscript_data !! "phoneNumber" = Some (JStr superscript_phone))
    by by_computation.
  assert (Hamount : superscript_data !! "amount" = Some (JInt 10)) by by_computation.
  assert (Htoken : get_access_token sample_config quiet_world
                   = (Return (JStr "T0k3n"), token_granted_trace)) by by_computation.
  assert (Hclock : Z.of_N (now_us quiet_world / 1000000) + Datetime.EAT_OFFSET
                   < Datetime.MAX_LOCAL) by by_computation.
  rewrite (unreadable_number_is_internal_error sample_config quiet_world superscript_data
             superscript_phone (JInt 10) (JStr "T0k3n") token_granted_trace
             Hphone Hamount eq_refl eq_refl Htoken eq_refl Hclock (or_intror eq_refl)).
  reflexivity.
Defined.

(** The sample request, through the theorem. *)
Lemma payload_is_logged_with_password_witness :
  exists res payload fields after,
    initiate_stk_push sample_config sample_request quiet_world =
      (res, ([EvLog INFO LOG_RECEIVED [JStr "254712345678"; JInt 10];
              EvGet (OAUTH_URL sample_config) (basic_auth_headers sample_config);
              EvLog INFO LOG_TOKEN_OK [];
              EvLog INFO LOG_GENERATED [JStr "20240229235959"];
              EvLog INFO LOG_SENDING [payload];
              EvPost (STKPUSH_URL sample_config) payload (bearer_headers "T0k3n")]
               ++ after)%list)
    /\ network_events after = []
    /\ payload = JDict fields
    /\ fields !! "Password" = Some (JStr "MTc0Mzc5cGFzc2tleTIwMjQwMjI5MjM1OTU5").
Proof.
  sample_facts quiet_world.
  destruct (payload_is_logged_with_password sample_config quiet_world sample_data
              "254712345678" (JInt 10) (JStr "T0k3n") token_granted_trace
              174379 254712345678
              Hphone Hamount eq_refl eq_refl Htoken eq_refl Hclock eq_refl eq_refl)
    as (res & after & Hrun & _ & Hafter & fields & Hfields & Hpassword).
  exists res. eexists. exists fields, after.
  split; [exact Hrun |]. split; [exact Hafter |]. split; [exact Hfields | exact Hpassword].
Defined.

(** The sample request, through the theorem. *)
Lemma posted_payload_is_consistent_witness :
  exists payload headers fields,
    In (EvPost (STKPUSH_URL sample_config) payload headers)
       (snd (initiate_stk_push sample_config sample_request quiet_world))
    /\ payload = JDict fields
    /\ fields !! "Timestamp" = Some (JStr "20240229235959")
    /\ fields !! "Password" = Some (JStr "MTc0Mzc5cGFzc2tleTIwMjQwMjI5MjM1OTU5")
    /\ Base64.bytes_of_b64 "MTc0Mzc5cGFzc2tleTIwMjQwMjI5MjM1OTU5"
       = Some (list_byte_of_string "174379passkey20240229235959")
    /\ fields !! "PartyA" = Some (JInt 254712345678)
    /\ fields !! "PhoneNumber" = Some (JInt 254712345678)
    /\ fields !! "BusinessShortCode" = Some (JInt 174379)
    /\ fields !! "PartyB" = Some (JInt 174379)
    /\ fields !! "Amount" = Some (JInt 10).
Proof.
  sample_facts quiet_world.
  destruct (posted_payload_is_consistent sample_config quiet_world sample_data
              "254712345678" (JInt 10) (JStr "T0k3n") token_granted_trace
              174379 254712345678
              Hphone Hamount eq_refl eq_refl Htoken eq_refl Hclock eq_refl eq_refl)
    as (Hposted & fields & stamp & secret & Hfields & Hts & Hpw & Hsecret & Hreads & _
        & Hpa & Hpn & Hsc & Hpb & Ham).
  assert (Hstamp : stamp = "20240229235959").
  { apply (f_equal (fun j => match j with
                             | JDict d => d !! "Timestamp"
                             | _ => None
                             end)) in Hfields.
    rewrite Hts in Hfields. vm_compute in Hfields. congruence. }
  subst stamp secret.
  do 2 eexists. exists fields.
  split; [exact Hposted |]. split; [exact Hfields |].
  split; [exact Hts |]. split; [exact Hpw |]. split; [exact Hreads |].
  repeat split; assumption.
Defined.

(** An unreachable endpoint and a JSON list as reply, through the theorem. *)
Lemma failure_after_posting_is_internal_error_witness :
  fst (initiate_stk_push sample_config sample_request unreachable_stk_world)
    = Return (reply 500 [("success", JBool false);
                         ("message", JStr "Network or API communication error: <exception>")])
  /\ fst (initiate_stk_push sample_config sample_request list_reply_world)
     = Return (reply 500 [("success", JBool false);
                          ("message",
                           JStr "An unexpected server error occurred: <exception>")]).
Proof.
  change sample_request with (JsonRequest (JDict sample_data)). split.
  - sample_facts unreachable_stk_world.
    destruct (failure_after_posting_is_internal_error sample_config unreachable_stk_world
                sample_data "254712345678" (JInt 10) (JStr "T0k3n") token_granted_trace
                174379 254712345678
                Hphone Hamount eq_refl eq_refl Htoken eq_refl Hclock eq_refl eq_refl)
      as [Hfails _].
    rewrite (Hfails "connection refused" eq_refl). reflexivity.
  - sample_facts list_reply_world.
    destruct (failure_after_posting_is_internal_error sample_config list_reply_world
                sample_data "254712345678" (JInt 10) (JStr "T0k3n") token_granted_trace
                174379 254712345678
                Hphone Hamount eq_refl eq_refl Htoken eq_refl Hclock eq_refl eq_refl)
      as [_ Hodd].
    rewrite (Hodd {| status_code := 200; reason := ""; resp_url := ""; text := "";
                     json_body := Some (JList []); json_over_limit := false |}
                (JList []) eq_refl eq_refl eq_refl);
      [reflexivity | discriminate].
Defined.

(** A bare rejection, through the theorem. *)
Lemma rejection_without_description_witness :
  bare_rejection !! "ResponseDescription" = None
  /\ fst (initiate_stk_push sample_config sample_request bare_rejection_world)
     = Return (reply 400 [("success", JBool false);
                          ("message", JStr MSG_UNKNOWN);
                          ("MpesaResponse", JDict bare_rejection)]).
Proof.
  split; [reflexivity |].
  sample_facts bare_rejection_world.
  change sample_request with (JsonRequest (JDict sample_data)).
  apply (rejection_without_description sample_config bare_rejection_world
           sample_data "254712345678" (JInt 10) (JStr "T0k3n") token_granted_trace
           174379 254712345678
           Hphone Hamount eq_refl eq_refl Htoken eq_refl Hclock eq_refl eq_refl
           {| status_code := 200; reason := ""; resp_url := ""; text := "";
              json_body := Some (JDict bare_rejection); json_over_limit := false |}
           bare_rejection
           eq_refl eq_refl eq_refl eq_refl eq_refl).
Defined.


(** Metadata [null] and an item that is a string, through the theorem. *)
Lemma malformed_metadata_is_a_failure_witness :
  Exists (fun item => item_key item = None) odd_items
  /\ fst (mpesa_callback (JsonRequest (JDict (envelope null_metadata_stk))) quiet_world)
     = Return (callback_failure quiet_world (AttributeError "NoneType" "get"))
  /\ exists e,
       fst (mpesa_callback (JsonRequest (JDict (envelope odd_item_stk))) quiet_world)
       = Return (callback_failure quiet_world e).
Proof.
  assert (Hodd : Exists (fun item => item_key item = None) odd_items).
  { apply Exists_cons_tl, Exists_cons_hd. reflexivity. }
  split; [exact Hodd |]. split.
  - assert (Hbody : envelope null_metadata_stk !! "Body"
                    = Some (JDict (envelope_body null_metadata_stk))) by by_computation.
    assert (Hstk : envelope_body null_metadata_stk !! "stkCallback"
                   = Some (JDict null_metadata_stk)) by by_computation.
    assert (Hcode : null_metadata_stk !! "ResultCode" = Some (JInt 0)) by by_computation.
    assert (Hmd : null_metadata_stk !! "CallbackMetadata" = Some JNull) by by_computation.
    destruct (malformed_metadata_is_a_failure quiet_world (envelope null_metadata_stk)
                (envelope_body null_metadata_stk) null_metadata_stk (JInt 0)
                Hbody Hstk Hcode eq_refl) as [Hnull _].
    rewrite (Hnull JNull Hmd); [reflexivity | discriminate].
  - assert (Hbody : envelope odd_item_stk !! "Body"
                    = Some (JDict (envelope_body odd_item_stk))) by by_computation.
    assert (Hstk : envelope_body odd_item_stk !! "stkCallback"
                   = Some (JDict odd_item_stk)) by by_computation.
    assert (Hcode : odd_item_stk !! "ResultCode" = Some (JInt 0)) by by_computation.
    assert (Hmd : odd_item_stk !! "CallbackMetadata" = Some (JDict odd_metadata))
      by by_computation.
    assert (Hitem : odd_metadata !! "Item" = Some (JList odd_items)) by by_computation.
    destruct (malformed_metadata_is_a_failure quiet_world (envelope odd_item_stk)
                (envelope_body odd_item_stk) odd_item_stk (JInt 0)
                Hbody Hstk Hcode eq_refl) as [_ Hitems].
    destruct (Hitems odd_metadata odd_items Hmd Hitem Hodd) as (e & ->).
    exists e. reflexivity.
Defined.

(** A success callback with no metadata, through the theorem. *)
Lemma paid_callback_without_metadata_witness :
  bare_paid_stk !! "CallbackMetadata" = None
  /\ mpesa_callback (JsonRequest (JDict (envelope bare_paid_stk))) quiet_world =
       (Return callback_ack,
        [EvLog INFO LOG_CALLBACK [JDict (envelope bare_paid_stk)];
         EvLog INFO LOG_PAID [JStr "ws_CO_1"];
         EvLog INFO LOG_DETAILS [JNull; JNull; JNull; JNull]]).
Proof.
  split; [reflexivity |].
  assert (Hbody : envelope bare_paid_stk !! "Body"
                  = Some (JDict (envelope_body bare_paid_stk))) by by_computation.
  assert (Hstk : envelope_body bare_paid_stk !! "stkCallback"
                 = Some (JDict bare_paid_stk)) by by_computation.
  assert (Hcode : bare_paid_stk !! "ResultCode" = Some (JInt 0)) by by_computation.
  rewrite (paid_callback_without_metadata quiet_world (envelope bare_paid_stk)
             (envelope_body bare_paid_stk) bare_paid_stk (JInt 0)
             Hbody Hstk Hcode eq_refl eq_refl).
  by_computation.
Defined.

(** A detail that no item names, through the theorem. *)
Lemma stored_details_witness :
  let items := [metadata_item "Amount" (JInt 10)] in
  exists m,
    collect_items items ∅ quiet_world = (Return m, [])
    /\ detail m "TransactionDate" = JNull.
Proof.
  intros items.
  destruct (collect_items items ∅ quiet_world) as [[m | e] tr] eqn:E;
    [| vm_compute in E; discriminate E].
  assert (tr = []) as -> by (vm_compute in E; congruence).
  exists m. split; [reflexivity |].
  destruct (stored_details quiet_world items m [] E) as (_ & Habsent).
  apply Habsent. repeat constructor. vm_compute. discriminate.
Defined.
